(** * Bluetrax: the periodic-inquiry scanner and its log decoder

    A shallow embedding of [bluetrax_scan.c], [bluetrax_scan_unpack.c] and
    [bluetrax.c], with the properties of the event framer, the record codec,
    the session timing and the class decoder, and of the basic pair
    [bluetrax_basic_scan.c] and [bluetrax_basic_view.c].

    Conventions.  A [uint8_t] is a [byte]; its numeric value is [u8], and
    [i8] is the value of the same byte read as an [int8_t].  Wider C integers
    are [Z] with the wrap-around written where the C code converts.  The
    target is the LP64 little-endian Linux build: [long] is eight bytes, so a
    [struct timeval] is sixteen.  An output stream is a [FILE] with its
    buffer and the room of the device behind it.  [syslog] calls are not
    modelled. *)

From Stdlib Require Import ZArith List String Ascii Lia Bool.
From Stdlib Require Import Strings.Byte DecimalString.
Import ListNotations.
Local Open Scope Z_scope.

(** ** C scalars and the structs shared by both programs *)

Module C.

Definition EXIT_SUCCESS : Z := 0.
Definition EXIT_FAILURE : Z := 1.
Definition EOF : Z := -1.
Definition EINTR : Z := 4.

(** Value of a [uint8_t]. *)
Definition u8 (b : byte) : Z := Z.of_N (Byte.to_N b).

(** Value of the same byte read as an [int8_t] (two's complement). *)
Definition i8 (b : byte) : Z := if u8 b <? 128 then u8 b else u8 b - 256.

(** Conversion of an [int] to [unsigned char]. *)
Definition byte_of_Z (z : Z) : byte :=
  match Byte.of_N (Z.to_N (z mod 256)) with
  | Some b => b
  | None => x00
  end.

(** [size_t] arithmetic wraps at 2^64. *)
Definition size_t (z : Z) : Z := z mod 2 ^ 64.

(** Little-endian object representation of an [n]-byte integer. *)
Fixpoint le_bytes (n : nat) (v : Z) : list byte :=
  match n with
  | O => []
  | S k => byte_of_Z v :: le_bytes k (v / 256)
  end.

Fixpoint le_value (l : list byte) : Z :=
  match l with
  | [] => 0
  | b :: t => u8 b + 256 * le_value t
  end.

(** A [long] read back from its eight bytes. *)
Definition long_of_bytes (l : list byte) : Z :=
  let u := le_value l in
  if u <? 2 ^ 63 then u else u - 2 ^ 64.

Definition long_ok (v : Z) : Prop := - 2 ^ 63 <= v < 2 ^ 63.

Record timeval := mk_timeval { tv_sec : Z; tv_usec : Z }.

Definition timeval_ok (t : timeval) : Prop :=
  long_ok (tv_sec t) /\ long_ok (tv_usec t).

(** [bdaddr_t]: [uint8_t b[6]]. *)
Record bdaddr_t := mk_bdaddr {
  b0 : byte; b1 : byte; b2 : byte; b3 : byte; b4 : byte; b5 : byte }.

(** [uint8_t dev_class[3]]. *)
Record dev_class_t := mk_dev_class {
  dev_class0 : byte; dev_class1 : byte; dev_class2 : byte }.

Definition timeval_bytes (t : timeval) : list byte :=
  (le_bytes 8 (tv_sec t) ++ le_bytes 8 (tv_usec t))%list.

Definition bdaddr_bytes (a : bdaddr_t) : list byte :=
  [b0 a; b1 a; b2 a; b3 a; b4 a; b5 a].

Definition dev_class_bytes (c : dev_class_t) : list byte :=
  [dev_class0 c; dev_class1 c; dev_class2 c].

End C.
Import C.

(** ** The [FILE] streams the programs write and read *)

Module Stdio.

(** An output stream with a buffer, as [stdout] and a stream from [fopen]
    are when the program does not call [setvbuf]: [fputc] and [fwrite] store
    into the buffer, and the stream passes the bytes on to its device when
    the buffer is full or [fflush] is called.  A write error shows only
    then.

    [f_data] holds, in order, the bytes that the stream has accepted and
    that its device has room for: the log, once the stream has passed them
    on.  [f_room] is how many more bytes the device takes, a byte being
    counted from the moment the stream accepts it.  [f_synced] is the length
    of [f_data] when the buffer was last emptied, and [f_flushes] the number
    of [fflush] calls made on the stream.  [f_held] counts the bytes in the
    buffer that the device has no room for: the stream has accepted them,
    and they are lost when the buffer is passed on.  [f_bufsiz] is the size
    of the buffer.  Only the calls the program makes are counted; what
    [exit] does to open streams is outside the model. *)
Record FILE := mk_FILE {
  f_data : list byte;
  f_room : nat;
  f_synced : nat;
  f_flushes : nat;
  f_held : nat;
  f_bufsiz : nat }.

(** The bytes accepted since the buffer was last emptied. *)
Definition pending (f : FILE) : nat :=
  (List.length (f_data f) - f_synced f + f_held f)%nat.

(** How many of them wait in the buffer: the stream passes a full buffer
    on when the next byte comes, so after a first byte the buffer holds
    between one byte and [f_bufsiz]. *)
Definition buffered (f : FILE) : nat :=
  match pending f with
  | O => O
  | S n => S (n mod f_bufsiz f)
  end.

(** The stream after a write error: what the device had room for has been
    passed on, the rest of the buffer is lost. *)
Definition write_error (f : FILE) : FILE :=
  mk_FILE (f_data f) (f_room f) (List.length (f_data f)) (f_flushes f) 0
          (f_bufsiz f).

(** One byte offered to the stream.  A byte that the device has room for is
    accepted.  A byte that it has no room for is stored all the same when
    the buffer has space left, or when the buffer is full of bytes that the
    device has room for and can be passed on; otherwise the stream would
    have to pass on bytes that the device refuses, and the byte is not
    accepted: [None]. *)
Definition put (b : byte) (f : FILE) : option FILE :=
  match f_room f with
  | S room =>
      Some (mk_FILE (f_data f ++ [b]) room (f_synced f) (f_flushes f)
                    (f_held f) (f_bufsiz f))
  | O =>
      if ((buffered f <? f_bufsiz f)
          || ((f_held f =? 0) && (0 <? f_bufsiz f)))%nat
      then Some (mk_FILE (f_data f) 0 (f_synced f) (f_flushes f)
                         (S (f_held f)) (f_bufsiz f))
      else None
  end.

(** [fputc(c, f)]: the character written as an [int], or [EOF]. *)
Definition fputc (c : Z) (f : FILE) : Z * FILE :=
  match put (byte_of_Z c) f with
  | Some f' => (u8 (byte_of_Z c), f')
  | None => (EOF, write_error f)
  end.

(** Bytes offered one after the other, up to the first that is not
    accepted: how many were accepted, and the stream. *)
Fixpoint put_bytes (p : list byte) (f : FILE) : nat * FILE :=
  match p with
  | [] => (O, f)
  | b :: rest =>
      match put b f with
      | Some f1 => let (n, f2) := put_bytes rest f1 in (S n, f2)
      | None => (O, write_error f)
      end
  end.

(** [fwrite(p, size, 1, f)] for the [size] bytes [p], written as by
    successive calls of [fputc]: the number of items written, 1 or 0. *)
Definition fwrite (p : list byte) (f : FILE) : Z * FILE :=
  let (n, f') := put_bytes p f in
  ((if (List.length p <=? n)%nat then 1 else 0), f').

(** [fflush(f)]: the buffer is passed on, and the bytes in it that the
    device has no room for are lost.  The programs do not look at what
    [fflush] returns. *)
Definition fflush (f : FILE) : FILE :=
  mk_FILE (f_data f) (f_room f) (List.length (f_data f)) (S (f_flushes f)) 0
          (f_bufsiz f).

(** [fread(p, size, 1, file)] on an input stream given by its remaining
    bytes: the item and the rest of the stream, or [None] for a short read. *)
Definition fread (size : nat) (file : list byte) : option (list byte * list byte) :=
  if (size <=? List.length file)%nat
  then Some (firstn size file, skipn size file)
  else None.

End Stdio.
Import Stdio.

(** ** What the programs use of BlueZ ([bluetooth/hci.h]) *)

Module Bluez.

(** The packet type, the header size, the control-message type and the
    event codes, with the values they have in the header; the event codes
    are those of the Bluetooth specification. *)
Definition HCI_EVENT_PKT : Z := 4.
Definition HCI_EVENT_HDR_SIZE : Z := 2.
Definition HCI_CMSG_TSTAMP : Z := 2.
Definition EVT_INQUIRY_COMPLETE : Z := 1.
Definition EVT_INQUIRY_RESULT : Z := 2.
Definition EVT_INQUIRY_RESULT_WITH_RSSI : Z := 34.

Record hci_event_hdr := mk_hdr { evt : byte; plen : byte }.

(** [inquiry_info], packed, 14 bytes. *)
Record inquiry_info := mk_inquiry_info {
  ii_bdaddr : bdaddr_t;
  ii_pscan_rep_mode : byte;
  ii_pscan_period_mode : byte;
  ii_pscan_mode : byte;
  ii_dev_class : dev_class_t;
  ii_clock_offset : byte * byte }.

Definition sizeof_inquiry_info : Z := 14.

Definition inquiry_info_bytes (x : inquiry_info) : list byte :=
  (bdaddr_bytes (ii_bdaddr x)
     ++ [ii_pscan_rep_mode x; ii_pscan_period_mode x; ii_pscan_mode x]
     ++ dev_class_bytes (ii_dev_class x)
     ++ [fst (ii_clock_offset x); snd (ii_clock_offset x)])%list.

(** [inquiry_info_with_rssi], packed, 14 bytes. *)
Record inquiry_info_with_rssi := mk_inquiry_info_with_rssi {
  iir_bdaddr : bdaddr_t;
  iir_pscan_rep_mode : byte;
  iir_pscan_period_mode : byte;
  iir_dev_class : dev_class_t;
  iir_clock_offset : byte * byte;
  iir_rssi : byte }.

Definition sizeof_inquiry_info_with_rssi : Z := 14.

Definition inquiry_info_with_rssi_bytes (x : inquiry_info_with_rssi) : list byte :=
  (bdaddr_bytes (iir_bdaddr x)
     ++ [iir_pscan_rep_mode x; iir_pscan_period_mode x]
     ++ dev_class_bytes (iir_dev_class x)
     ++ [fst (iir_clock_offset x); snd (iir_clock_offset x); iir_rssi x])%list.

(** [periodic_inquiry_cp]: [max_period] and [min_period] are [uint16_t],
    [length] and [num_rsp] are [uint8_t]. *)
Record periodic_inquiry_cp := mk_periodic_inquiry_cp {
  pi_max_period : Z;
  pi_min_period : Z;
  pi_lap : byte * byte * byte;
  pi_length : Z;
  pi_num_rsp : Z }.

(** Field reads through a struct pointer into a received buffer; the
    offsets are those of the packed structs above. *)
Definition byte_at (data : list byte) (off : nat) : byte := nth off data x00.

Definition bdaddr_at (data : list byte) (off : nat) : bdaddr_t :=
  mk_bdaddr (byte_at data off) (byte_at data (off + 1)) (byte_at data (off + 2))
            (byte_at data (off + 3)) (byte_at data (off + 4)) (byte_at data (off + 5)).

Definition dev_class_at (data : list byte) (off : nat) : dev_class_t :=
  mk_dev_class (byte_at data off) (byte_at data (off + 1)) (byte_at data (off + 2)).

End Bluez.
Import Bluez.

(** ** [bluetrax.h]: the log records *)

Module Records.

Record bluetrax_inquiry_complete_t := mk_complete { ic_time : timeval }.

Record bluetrax_inquiry_result_t := mk_result {
  ir_time : timeval;
  ir_bdaddr : bdaddr_t;
  ir_dev_class : dev_class_t }.

(** [rssi] is an [int8_t]: the byte is kept, [i8] gives its value. *)
Record bluetrax_inquiry_result_with_rssi_t := mk_result_with_rssi {
  irr_time : timeval;
  irr_bdaddr : bdaddr_t;
  irr_dev_class : dev_class_t;
  irr_rssi : byte }.

(** Object representations; the structs are packed. *)
Definition inquiry_complete_bytes (r : bluetrax_inquiry_complete_t) : list byte :=
  timeval_bytes (ic_time r).

Definition inquiry_result_bytes (r : bluetrax_inquiry_result_t) : list byte :=
  (timeval_bytes (ir_time r) ++ bdaddr_bytes (ir_bdaddr r)
     ++ dev_class_bytes (ir_dev_class r))%list.

Definition inquiry_result_with_rssi_bytes
    (r : bluetrax_inquiry_result_with_rssi_t) : list byte :=
  (timeval_bytes (irr_time r) ++ bdaddr_bytes (irr_bdaddr r)
     ++ dev_class_bytes (irr_dev_class r) ++ [irr_rssi r])%list.

(** The three kinds of entry of the binary log. *)
Inductive record :=
| CycleComplete (r : bluetrax_inquiry_complete_t)
| DiscoveryResult (r : bluetrax_inquiry_result_t)
| DiscoveryResultWithSignal (r : bluetrax_inquiry_result_with_rssi_t).

Definition record_time (e : record) : timeval :=
  match e with
  | CycleComplete r => ic_time r
  | DiscoveryResult r => ir_time r
  | DiscoveryResultWithSignal r => irr_time r
  end.

(** The bytes that [fputc(tag, out_file)] followed by
    [fwrite(&record, sizeof(record), 1, out_file)] append for an entry. *)
Definition encode (e : record) : list byte :=
  match e with
  | CycleComplete r =>
      byte_of_Z EVT_INQUIRY_COMPLETE :: inquiry_complete_bytes r
  | DiscoveryResult r =>
      byte_of_Z EVT_INQUIRY_RESULT :: inquiry_result_bytes r
  | DiscoveryResultWithSignal r =>
      byte_of_Z EVT_INQUIRY_RESULT_WITH_RSSI :: inquiry_result_with_rssi_bytes r
  end.

End Records.
Import Records.

(** ** [bluetrax_scan.c]: the scanner *)

Module Scan.

(** [handle_signal]: the new value of the global [request_stop_scan], or
    [None] when the handler calls [exit(EXIT_FAILURE)]. *)
Definition handle_signal (signo : Z) (request_stop_scan : Z) : option Z :=
  if negb (request_stop_scan =? 1) then Some 1 else None.

Fixpoint deliver (signos : list Z) (request_stop_scan : Z) : option Z :=
  match signos with
  | [] => Some request_stop_scan
  | signo :: more =>
      match handle_signal signo request_stop_scan with
      | Some flag => deliver more flag
      | None => None
      end
  end.

(** The loop of [handle_inquiry_result]: [i] is the loop index and [todo]
    is [num_rsp - i]; [info] points at [data + 1]. *)
Fixpoint inquiry_result_loop (out_file : FILE) (time : timeval)
    (data : list byte) (i todo : nat) : Z * FILE :=
  match todo with
  | O => (EXIT_SUCCESS, out_file)
  | S todo' =>
      let record :=
        mk_result time (bdaddr_at data (1 + 14 * i))
                  (dev_class_at data (1 + 14 * i + 9)) in
      let (c, f1) := fputc EVT_INQUIRY_RESULT out_file in
      if negb (EVT_INQUIRY_RESULT =? c) then (EXIT_FAILURE, f1)
      else
        let (k, f2) := fwrite (inquiry_result_bytes record) f1 in
        if negb (1 =? k) then (EXIT_FAILURE, f2)
        else inquiry_result_loop f2 time data (S i) todo'
  end.

Definition handle_inquiry_result (out_file : FILE) (time : timeval)
    (hdr : hci_event_hdr) (data : list byte) : Z * FILE :=
  if u8 (plen hdr) <=? 0 then (EXIT_FAILURE, out_file)
  else
    let num_rsp := u8 (byte_at data 0) in
    if negb (u8 (plen hdr) =? size_t (num_rsp * sizeof_inquiry_info + 1))
    then (EXIT_FAILURE, out_file)
    else inquiry_result_loop out_file time data 0 (Z.to_nat num_rsp).

Fixpoint inquiry_result_with_rssi_loop (out_file : FILE) (time : timeval)
    (data : list byte) (i todo : nat) : Z * FILE :=
  match todo with
  | O => (EXIT_SUCCESS, out_file)
  | S todo' =>
      let record :=
        mk_result_with_rssi time (bdaddr_at data (1 + 14 * i))
                            (dev_class_at data (1 + 14 * i + 8))
                            (byte_at data (1 + 14 * i + 13)) in
      let (c, f1) := fputc EVT_INQUIRY_RESULT_WITH_RSSI out_file in
      if negb (EVT_INQUIRY_RESULT_WITH_RSSI =? c) then (EXIT_FAILURE, f1)
      else
        let (k, f2) := fwrite (inquiry_result_with_rssi_bytes record) f1 in
        if negb (1 =? k) then (EXIT_FAILURE, f2)
        else inquiry_result_with_rssi_loop f2 time data (S i) todo'
  end.

Definition handle_inquiry_result_with_rssi (out_file : FILE) (time : timeval)
    (hdr : hci_event_hdr) (data : list byte) : Z * FILE :=
  if u8 (plen hdr) <=? 0 then (EXIT_FAILURE, out_file)
  else
    let num_rsp := u8 (byte_at data 0) in
    if negb (u8 (plen hdr)
               =? size_t (num_rsp * sizeof_inquiry_info_with_rssi + 1))
    then (EXIT_FAILURE, out_file)
    else inquiry_result_with_rssi_loop out_file time data 0 (Z.to_nat num_rsp).

Definition write_inquiry_complete (out_file : FILE)
    (record : bluetrax_inquiry_complete_t) : Z * FILE :=
  let (c, f1) := fputc EVT_INQUIRY_COMPLETE out_file in
  if negb (EVT_INQUIRY_COMPLETE =? c) then (EXIT_FAILURE, f1)
  else
    let (k, f2) := fwrite (inquiry_complete_bytes record) f1 in
    if negb (1 =? k) then (EXIT_FAILURE, f2)
    else (EXIT_SUCCESS, f2).

(** What one turn of the loop of [run_scan] gets from outside: the signals
    whose handler ran while [pselect] had them unblocked, what [pselect]
    returned and the [errno] it left, and what [recvmsg] did. *)
Record cmsghdr := mk_cmsghdr { cmsg_type : Z; cmsg_data : timeval }.

Inductive recvmsg_result :=
| RecvError (errno : Z)
| RecvData (buf : list byte) (control : list cmsghdr).

Record iteration := mk_iteration {
  sel_signals : list Z;
  sel_rc : Z;
  sel_errno : Z;
  sel_recv : recvmsg_result }.

(** How a function that may not come back ends: it returns, the process
    exits inside it, or it is still blocked in [pselect] when the recorded
    events are used up. *)
Inductive status :=
| Returned (rc : Z)
| Exited (code : Z)
| Waiting.

(** The walk over the control messages: the last [HCI_CMSG_TSTAMP] wins,
    after [bzero(&tstamp)]. *)
Definition message_tstamp (control : list cmsghdr) : timeval :=
  fold_left
    (fun tstamp cmsg =>
       if cmsg_type cmsg =? HCI_CMSG_TSTAMP then cmsg_data cmsg else tstamp)
    control (mk_timeval 0 0).

(** What the device answers to the calls made on its socket. *)
Record hci_device := mk_hci_device {
  setsockopt_tstamp_rc : Z;
  setsockopt_filter_rc : Z;
  send_periodic_inquiry_rc : Z;
  send_exit_periodic_inquiry_rc : Z }.

(** [start_scan]: the status, and the parameter block handed to
    [hci_send_cmd] when the function gets that far. *)
Definition start_scan (dev : hci_device) (scan_length : Z)
    : Z * option periodic_inquiry_cp :=
  if setsockopt_tstamp_rc dev <? 0 then (EXIT_FAILURE, None)
  else if setsockopt_filter_rc dev <? 0 then (EXIT_FAILURE, None)
  else
    let length := scan_length mod 2 ^ 8 in
    let min_period := (length + 1) mod 2 ^ 16 in
    let max_period := (min_period + 1) mod 2 ^ 16 in
    let info :=
      mk_periodic_inquiry_cp max_period min_period (x33, x8b, x9e) length 0 in
    if send_periodic_inquiry_rc dev <? 0
    then (EXIT_FAILURE, Some info)
    else (EXIT_SUCCESS, Some info).

(** The [case 'l'] of the option loop of [main], on [n = atoi(optarg)]:
    [None] is [exit(EXIT_FAILURE)]. *)
Definition option_length (n : Z) : option Z :=
  if (n <? 1) || (n >? 100) then None else Some n.

(** What [main] gets from outside once the options are read. *)
Record process_env := mk_process_env {
  env_setup_signals : bool;
  env_hci_get_route : Z;
  env_hci_open_dev : Z;
  env_device : hci_device;
  env_gettimeofday : timeval;
  env_events : list iteration }.

Section WithBtError.

(** BlueZ's [bt_error], from an HCI status to an [errno] value. *)
Variable bt_error : Z -> Z.

Definition handle_inquiry_complete (out_file : FILE) (time : timeval)
    (hdr : hci_event_hdr) (data : list byte) : Z * FILE :=
  if negb (u8 (plen hdr) =? 1) then (EXIT_FAILURE, out_file)
  else
    let errno := bt_error (u8 (byte_at data 0)) in
    if negb (errno =? 0) then (EXIT_FAILURE, out_file)
    else write_inquiry_complete out_file (mk_complete time).

(** The [switch] on [hdr->evt]: the handler's status, the file, and
    [flush_after_this_message]. *)
Definition dispatch (flush : Z) (out_file : FILE) (tstamp : timeval)
    (hdr : hci_event_hdr) (data : list byte) : Z * FILE * Z :=
  if u8 (evt hdr) =? EVT_INQUIRY_RESULT then
    (handle_inquiry_result out_file tstamp hdr data, flush)
  else if u8 (evt hdr) =? EVT_INQUIRY_RESULT_WITH_RSSI then
    (handle_inquiry_result_with_rssi out_file tstamp hdr data, flush)
  else if u8 (evt hdr) =? EVT_INQUIRY_COMPLETE then
    (handle_inquiry_complete out_file tstamp hdr data, 1)
  else (EXIT_SUCCESS, out_file, flush).

(** The [while (!request_stop_scan)] loop of [run_scan]. *)
Fixpoint run_scan_loop (flush : Z) (request_stop_scan : Z)
    (out_file : FILE) (events : list iteration) : status * FILE :=
  if negb (request_stop_scan =? 0) then (Returned EXIT_SUCCESS, out_file)
  else
    match events with
    | [] => (Waiting, out_file)
    | ev :: later =>
        match deliver (sel_signals ev) request_stop_scan with
        | None => (Exited EXIT_FAILURE, out_file)
        | Some stop =>
            let rc := sel_rc ev in
            if (rc <? 0) && negb (sel_errno ev =? EINTR)
            then (Returned EXIT_FAILURE, out_file)
            else if rc =? 0 then (Returned EXIT_FAILURE, out_file)
            else if rc >? 0 then
              match sel_recv ev with
              | RecvError errno =>
                  if negb (errno =? EINTR)
                  then (Returned EXIT_FAILURE, out_file)
                  else run_scan_loop flush stop out_file later
              | RecvData buf control =>
                  let len := Z.of_nat (List.length buf) in
                  if len >? HCI_EVENT_HDR_SIZE then
                    let tstamp := message_tstamp control in
                    if u8 (byte_at buf 0) =? HCI_EVENT_PKT then
                      let hdr := mk_hdr (byte_at buf 1) (byte_at buf 2) in
                      if len =? 1 + HCI_EVENT_HDR_SIZE + u8 (plen hdr) then
                        match dispatch flush out_file tstamp hdr (skipn 3 buf) with
                        | (rc, f, flush_after_this_message) =>
                            if negb (rc =? EXIT_SUCCESS)
                            then (Returned EXIT_SUCCESS, f)
                            else if negb (flush_after_this_message =? 0)
                            then run_scan_loop flush stop (fflush f) later
                            else run_scan_loop flush stop f later
                        end
                      else run_scan_loop flush stop out_file later
                    else run_scan_loop flush stop out_file later
                  else run_scan_loop flush stop out_file later
              end
            else run_scan_loop flush stop out_file later
        end
    end.

(** [run_scan]; the socket is given by what it delivers, and
    [scan_length], which the function does not use, is left out. *)
Definition run_scan (flush : Z) (out_file : FILE) (events : list iteration)
    : status * FILE :=
  run_scan_loop flush 0 out_file events.

(** [main] from [setup_signals] on. *)
Definition main (scan_length flush : Z) (out_file : FILE) (env : process_env)
    : status * FILE :=
  if negb (env_setup_signals env) then (Returned EXIT_FAILURE, out_file)
  else if env_hci_get_route env <? 0 then (Returned EXIT_FAILURE, out_file)
  else if env_hci_open_dev env <? 0 then (Returned EXIT_FAILURE, out_file)
  else
    let rc := fst (start_scan (env_device env) scan_length) in
    if rc =? EXIT_SUCCESS then
      let (rc, f1) :=
        write_inquiry_complete out_file (mk_complete (env_gettimeofday env)) in
      if rc =? EXIT_SUCCESS
      then run_scan flush f1 (env_events env)
      else (Returned rc, f1)
    else (Returned rc, out_file).

End WithBtError.

End Scan.
Import Scan.

(** ** [bluetrax.c]: names of the minor device classes *)

Module Bluetrax.

Local Open Scope string_scope.
Local Open Scope Z_scope.

(** [strncpy] into the empty buffer, [strcat] and [strncat], on the
    contents of a NUL-terminated buffer. *)
Definition strncpy (src : string) (n : nat) : string := substring 0 n src.
Definition strcat (dst src : string) : string := dst ++ src.
Definition strncat (dst src : string) (n : nat) : string :=
  dst ++ substring 0 n src.

(** [sizeof(cls_str)]. *)
Definition sizeof_cls_str : nat := 48.

Definition reserved : string := "Unknown (reserved) minor device class".

(** The body of [case 6], which [case 5] falls into when it leaves
    [cls_str] empty. *)
Definition imaging (minor : Z) : string :=
  if negb (Z.land minor 4 =? 0) then "Display"
  else if negb (Z.land minor 8 =? 0) then "Camera"
  else if negb (Z.land minor 16 =? 0) then "Scanner"
  else if negb (Z.land minor 32 =? 0) then "Printer"
  else reserved.

Definition peripheral (minor : Z) : string :=
  let cls_str := EmptyString in
  let cls_str :=
    match Z.land minor 48 with
    | 16 => strncpy "Keyboard" sizeof_cls_str
    | 32 => strncpy "Pointing device" sizeof_cls_str
    | 48 => strncpy "Combo keyboard/pointing device" sizeof_cls_str
    | _ => cls_str
    end in
  let cls_str :=
    if negb (Z.land minor 15 =? 0) && (0 <? String.length cls_str)%nat
    then strcat cls_str "/"
    else cls_str in
  let room := (sizeof_cls_str - String.length cls_str)%nat in
  let cls_str :=
    match Z.land minor 15 with
    | 0 => cls_str
    | 1 => strncat cls_str "Joystick" room
    | 2 => strncat cls_str "Gamepad" room
    | 3 => strncat cls_str "Remote control" room
    | 4 => strncat cls_str "Sensing device" room
    | 5 => strncat cls_str "Digitizer tablet" room
    | 6 => strncat cls_str "Card reader" room
    | _ => strncat cls_str "(reserved)" room
    end in
  if (0 <? String.length cls_str)%nat then cls_str else imaging minor.

Definition bluetrax_get_minor_device_name (major minor : Z) : string :=
  match major with
  | 0 => EmptyString
  | 1 =>
      match minor with
      | 0 => "Uncategorized"
      | 1 => "Desktop workstation"
      | 2 => "Server"
      | 3 => "Laptop"
      | 4 => "Handheld"
      | 5 => "Palm"
      | 6 => "Wearable"
      | _ => reserved
      end
  | 2 =>
      match minor with
      | 0 => "Uncategorized"
      | 1 => "Cellular"
      | 2 => "Cordless"
      | 3 => "Smart phone"
      | 4 => "Wired modem or voice gateway"
      | 5 => "Common ISDN Access"
      | 6 => "Sim Card Reader"
      | _ => reserved
      end
  | 3 =>
      if minor =? 0 then "Uncategorized"
      else
        match Z.quot minor 8 with
        | 0 => "Fully available"
        | 1 => "1-17% utilized"
        | 2 => "17-33% utilized"
        | 3 => "33-50% utilized"
        | 4 => "50-67% utilized"
        | 5 => "67-83% utilized"
        | 6 => "83-99% utilized"
        | 7 => "No service available"
        | _ => reserved
        end
  | 4 =>
      match minor with
      | 0 => "Uncategorized"
      | 1 => "Device conforms to the Headset profile"
      | 2 => "Hands-free"
      | 4 => "Microphone"
      | 5 => "Loudspeaker"
      | 6 => "Headphones"
      | 7 => "Portable Audio"
      | 8 => "Car Audio"
      | 9 => "Set-top box"
      | 10 => "HiFi Audio Device"
      | 11 => "VCR"
      | 12 => "Video Camera"
      | 13 => "Camcorder"
      | 14 => "Video Monitor"
      | 15 => "Video Display and Loudspeaker"
      | 16 => "Video Conferencing"
      | 18 => "Gaming/Toy"
      | _ => reserved
      end
  | 5 => peripheral minor
  | 6 => imaging minor
  | 7 =>
      match minor with
      | 1 => "Wrist Watch"
      | 2 => "Pager"
      | 3 => "Jacket"
      | 4 => "Helmet"
      | 5 => "Glasses"
      | _ => reserved
      end
  | 8 =>
      match minor with
      | 1 => "Robot"
      | 2 => "Vehicle"
      | 3 => "Doll / Action Figure"
      | 4 => "Controller"
      | 5 => "Game"
      | _ => reserved
      end
  | 63 => EmptyString
  | _ => reserved
  end.

End Bluetrax.
Import Bluetrax.

(** ** [bluetrax_scan_unpack.c]: the text decoder *)

Module Unpack.

Local Open Scope string_scope.
Local Open Scope Z_scope.

Definition newline : string := String (ascii_of_nat 10) EmptyString.

(** [printf("%hhd", b)]: the byte as a signed decimal. *)
Definition printf_hhd (b : byte) : string :=
  NilZero.string_of_int (Z.to_int (i8 b)).

Fixpoint zeros (n : nat) : string :=
  match n with
  | O => EmptyString
  | S k => String "0"%char (zeros k)
  end.

(** [printf("%06u", v)] for a [long] argument [v]: the low 32 bits, in
    decimal, zero-padded to six places. *)
Definition printf_06u (v : Z) : string :=
  let digits := NilZero.string_of_uint (N.to_uint (Z.to_N (v mod 2 ^ 32))) in
  zeros (6 - String.length digits) ++ digits.

Definition major_devices : list string :=
  [ "Miscellaneous"; "Computer"; "Phone"; "LAN Access"; "Audio/Video";
    "Peripheral"; "Imaging"; "Uncategorized" ].

(** [write_dev_class]: the text it sends to [stdout]. *)
Definition write_dev_class (dev_class : dev_class_t) : string :=
  let service := dev_class2 dev_class in
  let major := dev_class1 dev_class in
  let minor := dev_class0 dev_class in
  let head := printf_hhd service ++ "," in
  if Z.land (u8 major) 31 >=? Z.of_nat (List.length major_devices)
  then head ++ ",,"
  else
    head ++ nth (Z.to_nat (Z.land (u8 major) 31)) major_devices EmptyString
         ++ "," ++ bluetrax_get_minor_device_name (u8 major) (u8 minor) ++ ",".

(** The reads of [binary_to_text], one per record type: [fread] of
    [sizeof] bytes into the packed struct. *)
Definition timeval_of_bytes (p : list byte) : timeval :=
  mk_timeval (long_of_bytes (firstn 8 p)) (long_of_bytes (firstn 8 (skipn 8 p))).

Definition sizeof_inquiry_complete : nat := 16.
Definition sizeof_inquiry_result : nat := 25.
Definition sizeof_inquiry_result_with_rssi : nat := 26.

Definition fread_inquiry_complete (file : list byte)
    : option (bluetrax_inquiry_complete_t * list byte) :=
  match fread sizeof_inquiry_complete file with
  | Some (p, rest) => Some (mk_complete (timeval_of_bytes p), rest)
  | None => None
  end.

Definition fread_inquiry_result (file : list byte)
    : option (bluetrax_inquiry_result_t * list byte) :=
  match fread sizeof_inquiry_result file with
  | Some (p, rest) =>
      Some (mk_result (timeval_of_bytes p) (bdaddr_at p 16) (dev_class_at p 22),
            rest)
  | None => None
  end.

Definition fread_inquiry_result_with_rssi (file : list byte)
    : option (bluetrax_inquiry_result_with_rssi_t * list byte) :=
  match fread sizeof_inquiry_result_with_rssi file with
  | Some (p, rest) =>
      Some (mk_result_with_rssi (timeval_of_bytes p) (bdaddr_at p 16)
                                (dev_class_at p 22) (byte_at p 25),
            rest)
  | None => None
  end.

(** The reading half of one turn of the loop of [binary_to_text]: the tag
    from [fgetc], then the [fread] its [case] does.  [None] covers a short
    read and an unsupported tag, both of which end in
    [exit(EXIT_FAILURE)]. *)
Definition decode (file : list byte) : option (record * list byte) :=
  match file with
  | [] => None
  | tag :: rest =>
      if u8 tag =? EVT_INQUIRY_COMPLETE then
        option_map (fun x => (CycleComplete (fst x), snd x))
                   (fread_inquiry_complete rest)
      else if u8 tag =? EVT_INQUIRY_RESULT then
        option_map (fun x => (DiscoveryResult (fst x), snd x))
                   (fread_inquiry_result rest)
      else if u8 tag =? EVT_INQUIRY_RESULT_WITH_RSSI then
        option_map (fun x => (DiscoveryResultWithSignal (fst x), snd x))
                   (fread_inquiry_result_with_rssi rest)
      else None
  end.

(** How [binary_to_text] ends: it returns, it calls [exit], or the bound
    on the number of turns was too small. *)
Inductive ending :=
| Done
| Exit (code : Z)
| Unfinished.

Section WithLibc.

(** [localtime] with the process's time zone, and [strftime] with the
    format [%Y-%m-%d %H:%M:%S]; BlueZ's [ba2str]. *)
Variable tm : Type.
Variable localtime : Z -> option tm.
Variable strftime_date_time : tm -> string.
Variable ba2str : bdaddr_t -> string.

Definition write_bdaddr (bdaddr : bdaddr_t) : string := ba2str bdaddr ++ ",".

(** [write_timeval]: the text written, or [None] for
    [exit(EXIT_FAILURE)]. *)
Definition write_timeval (tv : timeval) : option string :=
  match localtime (tv_sec tv) with
  | None => None
  | Some t => Some (strftime_date_time t ++ "." ++ printf_06u (tv_usec tv) ++ ",")
  end.

(** What the [case] of an entry prints before and after its time. *)
Definition row_head (e : record) : string :=
  match e with
  | CycleComplete _ => "complete,"
  | DiscoveryResult _ => "inquiry,"
  | DiscoveryResultWithSignal _ => "inquiry,"
  end.

Definition row_tail (e : record) : string :=
  match e with
  | CycleComplete _ => ",,,," ++ newline
  | DiscoveryResult r =>
      write_bdaddr (ir_bdaddr r) ++ write_dev_class (ir_dev_class r)
        ++ "," ++ newline
  | DiscoveryResultWithSignal r =>
      write_bdaddr (irr_bdaddr r) ++ write_dev_class (irr_dev_class r)
        ++ printf_hhd (irr_rssi r) ++ newline
  end.

(** The loop of [binary_to_text]: [out] is what [stdout] has received,
    [turns] bounds the number of turns. *)
Fixpoint binary_to_text_loop (turns : nat) (file : list byte) (out : string)
    : string * ending :=
  match file with
  | [] => (out, Done)
  | tag :: rest =>
      match turns with
      | O => (out, Unfinished)
      | S turns' =>
          if u8 tag =? EVT_INQUIRY_COMPLETE then
            match fread_inquiry_complete rest with
            | None => (out, Exit EXIT_FAILURE)
            | Some (inquiry_complete, rest') =>
                let out := out ++ "complete," in
                match write_timeval (ic_time inquiry_complete) with
                | None => (out, Exit EXIT_FAILURE)
                | Some s =>
                    binary_to_text_loop turns' rest'
                      (out ++ s ++ ",,,," ++ newline)
                end
            end
          else if u8 tag =? EVT_INQUIRY_RESULT then
            match fread_inquiry_result rest with
            | None => (out, Exit EXIT_FAILURE)
            | Some (inquiry_result, rest') =>
                let out := out ++ "inquiry," in
                match write_timeval (ir_time inquiry_result) with
                | None => (out, Exit EXIT_FAILURE)
                | Some s =>
                    binary_to_text_loop turns' rest'
                      (out ++ s ++ write_bdaddr (ir_bdaddr inquiry_result)
                           ++ write_dev_class (ir_dev_class inquiry_result)
                           ++ "," ++ newline)
                end
            end
          else if u8 tag =? EVT_INQUIRY_RESULT_WITH_RSSI then
            match fread_inquiry_result_with_rssi rest with
            | None => (out, Exit EXIT_FAILURE)
            | Some (inquiry_result_with_rssi, rest') =>
                let out := out ++ "inquiry," in
                match write_timeval (irr_time inquiry_result_with_rssi) with
                | None => (out, Exit EXIT_FAILURE)
                | Some s =>
                    binary_to_text_loop turns' rest'
                      (out ++ s
                           ++ write_bdaddr (irr_bdaddr inquiry_result_with_rssi)
                           ++ write_dev_class (irr_dev_class inquiry_result_with_rssi)
                           ++ printf_hhd (irr_rssi inquiry_result_with_rssi)
                           ++ newline)
                end
            end
          else (out, Exit EXIT_FAILURE)
      end
  end.

(** [binary_to_text]: every turn takes at least the tag byte, so the
    length of the file bounds the turns. *)
Definition binary_to_text (file : list byte) : string * ending :=
  binary_to_text_loop (List.length file) file
    ("type,time,bdaddr,services,major,minor,rssi" ++ newline).

(** [main] of the decoder once the input is open: what [stdout] got and
    the exit code of the process. *)
Definition main (file : list byte) : string * option Z :=
  match binary_to_text file with
  | (out, Done) => (out, Some 0)
  | (out, Exit code) => (out, Some code)
  | (out, Unfinished) => (out, None)
  end.

End WithLibc.

End Unpack.

(** ** [bluetrax_basic_scan.c] and [bluetrax_basic_view.c]: the basic pair *)

Module Basic.

Local Open Scope string_scope.
Local Open Scope Z_scope.

Definition INQUIRY_MAX_RESPONSES : Z := 255.

(** [bluetrax_record_t], packed: a [time_t] and an address, 14 bytes. *)
Record bluetrax_record_t := mk_record { br_time : Z; br_bdaddr : bdaddr_t }.

Definition sizeof_bluetrax_record : nat := 14.

Definition bluetrax_record_bytes (r : bluetrax_record_t) : list byte :=
  (le_bytes 8 (br_time r) ++ bdaddr_bytes (br_bdaddr r))%list.

(** [fwrite(p, size, nmemb, f)] for the [size * nmemb] bytes [p], written
    as by successive calls of [fputc]: the number of whole items written. *)
Definition fwrite_items (size : nat) (p : list byte) (f : FILE) : Z * FILE :=
  let (n, f') := put_bytes p f in
  (Z.of_nat (n / size), f').

(** How [run_scan] of the basic scanner ends: through the
    [hci_inquiry failed] branch, through the [record write failed] branch,
    after the [fflush], or in undefined behaviour. *)
Inductive scan_end :=
| InquiryFailed (out_file : FILE)
| WriteFailed (out_file : FILE)
| Flushed (out_file : FILE)
| ScanUndefined.

(** [run_scan] of the basic scanner.  [rc] is what [hci_inquiry] returned
    and [info] the responses it left; [now] is [time(NULL)].  The return
    value is stored in a [size_t]; the copy loop indexes [record], which
    has [INQUIRY_MAX_RESPONSES] elements, and [info] up to
    [num_responses], which is undefined beyond either of them. *)
Definition run_scan (rc : Z) (info : list inquiry_info) (now : Z)
    (out_file : FILE) : scan_end :=
  let num_responses := size_t rc in
  if num_responses <? 0 then InquiryFailed out_file
  else if (INQUIRY_MAX_RESPONSES <? num_responses)
          || (Z.of_nat (List.length info) <? num_responses)
  then ScanUndefined
  else
    let record :=
      map (fun x => mk_record now (ii_bdaddr x))
          (firstn (Z.to_nat num_responses) info) in
    let (written, f) :=
      fwrite_items sizeof_bluetrax_record
        (flat_map bluetrax_record_bytes record) out_file in
    if negb (num_responses =? written) then WriteFailed f
    else Flushed (fflush f).

Definition tab : string := String (ascii_of_nat 9) EmptyString.

(** How [binary_to_text] of the basic viewer ends: it returns, with what
    [stdout] has received, or it runs into undefined behaviour. *)
Inductive view_end :=
| Printed (out : string)
| ViewUndefined.

Section WithLibc.

Variable tm : Type.
Variable localtime : Z -> option tm.
Variable strftime_date_time : tm -> string.
Variable ba2str : bdaddr_t -> string.

(** [binary_to_text] of the basic viewer: [out] is what [stdout] has
    received.  A turn needs the 14 bytes of a record; [localtime] may give
    [NULL], which is passed on to [strftime], and [strftime] leaves the 20
    characters of [time] undefined when the text and its end do not fit. *)
Fixpoint binary_to_text (file : list byte) (out : string) : view_end :=
  match file with
  | t0 :: t1 :: t2 :: t3 :: t4 :: t5 :: t6 :: t7
       :: a0 :: a1 :: a2 :: a3 :: a4 :: a5 :: rest =>
      let record :=
        mk_record (long_of_bytes [t0; t1; t2; t3; t4; t5; t6; t7])
                  (mk_bdaddr a0 a1 a2 a3 a4 a5) in
      match localtime (br_time record) with
      | None => ViewUndefined
      | Some timeinfo =>
          let time := strftime_date_time timeinfo in
          if (String.length time <? 20)%nat
          then binary_to_text rest
                 (out ++ time ++ tab ++ ba2str (br_bdaddr record) ++ Unpack.newline)
          else ViewUndefined
      end
  | _ => Printed out
  end.

(** [main] of the viewer once the input is open: what [stdout] got and the
    exit code, 0, unless the behaviour is undefined. *)
Definition main (file : list byte) : option (string * Z) :=
  match binary_to_text file EmptyString with
  | Printed out => Some (out, 0)
  | ViewUndefined => None
  end.

End WithLibc.

End Basic.

(** ** Vocabulary of the statements *)

(** An HCI event packet as [recvmsg] leaves it in [buf]: the packet type,
    the event header, the payload. *)
Definition hci_event (evt plen : byte) (payload : list byte) : list byte :=
  byte_of_Z HCI_EVENT_PKT :: evt :: plen :: payload.

(** A turn of the loop in which no signal arrives, [pselect] reports the
    socket readable and [recvmsg] delivers [buf] with [control]. *)
Definition message_event (buf : list byte) (control : list cmsghdr) : iteration :=
  mk_iteration [] 1 0 (RecvData buf control).

(** The record a discovery-result item stands for. *)
Definition result_of (time : timeval) (x : inquiry_info) : record :=
  DiscoveryResult (mk_result time (ii_bdaddr x) (ii_dev_class x)).

Definition result_with_signal_of (time : timeval) (x : inquiry_info_with_rssi)
    : record :=
  DiscoveryResultWithSignal
    (mk_result_with_rssi time (iir_bdaddr x) (iir_dev_class x) (iir_rssi x)).

(** The payload of a discovery-result message: the count, then the items. *)
Definition result_payload (count : byte) (items : list inquiry_info) : list byte :=
  count :: flat_map inquiry_info_bytes items.

Definition result_with_signal_payload (count : byte)
    (items : list inquiry_info_with_rssi) : list byte :=
  count :: flat_map inquiry_info_with_rssi_bytes items.

(** The exit code of the process, when it has ended. *)
Definition exit_code (s : status) : option Z :=
  match s with
  | Returned rc => Some rc
  | Exited code => Some code
  | Waiting => None
  end.

(** The size of the struct that follows a tag byte in the log. *)
Definition record_size (tag : byte) : option nat :=
  if u8 tag =? EVT_INQUIRY_COMPLETE then Some Unpack.sizeof_inquiry_complete
  else if u8 tag =? EVT_INQUIRY_RESULT then Some Unpack.sizeof_inquiry_result
  else if u8 tag =? EVT_INQUIRY_RESULT_WITH_RSSI
  then Some Unpack.sizeof_inquiry_result_with_rssi
  else None.

(** A log made of whole entries: each a supported tag and as many bytes as
    its struct has. *)
Inductive whole_records : list byte -> Prop :=
| whole_nil : whole_records []
| whole_cons (tag : byte) (n : nat) (body more : list byte) :
    record_size tag = Some n ->
    List.length body = n ->
    whole_records more ->
    whole_records (tag :: body ++ more).

(** A stream that has accepted nothing yet, with an empty buffer of 4096
    bytes, on a device that takes [room] bytes. *)
Definition fresh_file (room : nat) : FILE := mk_FILE [] room 0 0 0 4096.

(** The least that the statements need of [bt_error]: status 0 is no
    error, every other status is [ENOSYS]. *)
Definition bt_error_coarse (code : Z) : Z := if code =? 0 then 0 else 38.

(** The stream [f] once it has accepted the bytes [p], its device having
    room for them. *)
Definition appended (f : FILE) (p : list byte) : FILE :=
  mk_FILE (f_data f ++ p) (f_room f - List.length p) (f_synced f) (f_flushes f)
          (f_held f) (f_bufsiz f).

(** ** Vocabulary of the further statements *)

(** The stream [f'] holds what [f] held and then some more bytes, taken
    from the room [f] had. *)
Definition extends (f f' : FILE) : Prop :=
  exists p : list byte,
    f_data f' = (f_data f ++ p)%list
    /\ f_room f = (f_room f' + List.length p)%nat.

(** The stream [f] once it has accepted the bytes [p], whether its device
    has room for them or not: the first [f_room f] of them are bytes of the
    log, the others are held in the buffer. *)
Definition accepted (f : FILE) (p : list byte) : FILE :=
  mk_FILE (f_data f ++ firstn (f_room f) p) (f_room f - List.length p)
          (f_synced f) (f_flushes f)
          (f_held f + (List.length p - f_room f)) (f_bufsiz f).

(** The times that a run of the scanner stamps its entries with: the
    wall-clock time of the start, and for each message received the time
    that came with it. *)
Definition event_stamps (ev : iteration) : list timeval :=
  match sel_recv ev with
  | RecvData _ control => [message_tstamp control]
  | RecvError _ => []
  end.

Definition stamps (env : process_env) : list timeval :=
  env_gettimeofday env :: flat_map event_stamps (env_events env).

(** A buffer that holds exactly one HCI event packet: more than a header,
    the packet type of an event, and as many payload bytes as declared. *)
Definition complete_event (buf : list byte) : Prop :=
  HCI_EVENT_HDR_SIZE < Z.of_nat (List.length buf)
  /\ u8 (byte_at buf 0) = HCI_EVENT_PKT
  /\ Z.of_nat (List.length buf) = 1 + HCI_EVENT_HDR_SIZE + u8 (byte_at buf 2).

(** The rows that the decoder prints for a list of entries, after [out]:
    for each entry its kind, its time and the rest of its row. *)
Definition rows (tm : Type) (localtime : Z -> option tm)
    (strftime_date_time : tm -> string) (ba2str : bdaddr_t -> string)
    (es : list record) (out : string) : string :=
  fold_left
    (fun out e =>
       match Unpack.write_timeval tm localtime strftime_date_time (record_time e) with
       | Some s =>
           ((out ++ Unpack.row_head e) ++ s ++ Unpack.row_tail ba2str e)%string
       | None => out
       end)
    es out.

(** How often the character [c] occurs in [s]. *)
Fixpoint count_char (c : ascii) (s : string) : nat :=
  match s with
  | EmptyString => 0
  | String a t => (if Ascii.eqb a c then 1 else 0) + count_char c t
  end.

(** * Properties *)

(** ** Bytes and integers *)

Lemma u8_range (b : byte) : 0 <= u8 b <= 255.
Proof.
  unfold u8. pose proof (Byte.to_N_bounded b). lia.
Qed.

Lemma byte_of_Z_u8 (b : byte) : byte_of_Z (u8 b) = b.
Proof.
  unfold byte_of_Z. pose proof (u8_range b) as Hb.
  rewrite Z.mod_small by lia. unfold u8. rewrite N2Z.id.
  now rewrite Byte.of_to_N.
Qed.

Lemma u8_byte_of_Z (z : Z) : u8 (byte_of_Z z) = z mod 256.
Proof.
  unfold byte_of_Z, u8.
  pose proof (Z.mod_pos_bound z 256 ltac:(lia)) as Hm.
  pose proof (Byte.to_of_N_option_map (Z.to_N (z mod 256))) as Ho.
  destruct (Byte.of_N (Z.to_N (z mod 256))) as [b|] eqn:E; cbn in Ho.
  - destruct (Z.to_N (z mod 256) <=? 255)%N eqn:Hle; [|discriminate].
    injection Ho as ->. lia.
  - destruct (Z.to_N (z mod 256) <=? 255)%N eqn:Hle; [discriminate|].
    apply N.leb_gt in Hle. lia.
Qed.

Lemma le_bytes_length (n : nat) (v : Z) : List.length (le_bytes n v) = n.
Proof.
  revert v. induction n as [|n IH]; intros v; cbn; [reflexivity|].
  now rewrite IH.
Qed.

Lemma le_value_le_bytes (n : nat) (v : Z) :
  le_value (le_bytes n v) = v mod 256 ^ Z.of_nat n.
Proof.
  revert v. induction n as [|n IH]; intros v.
  - cbn. now rewrite Z.mod_1_r.
  - cbn [le_bytes le_value]. rewrite IH, u8_byte_of_Z.
    rewrite Nat2Z.inj_succ, Z.pow_succ_r by lia.
    rewrite Z.rem_mul_r by lia. reflexivity.
Qed.

Lemma long_of_le_bytes (v : Z) : long_ok v -> long_of_bytes (le_bytes 8 v) = v.
Proof.
  unfold long_ok, long_of_bytes. intros Hv.
  rewrite le_value_le_bytes.
  change (256 ^ Z.of_nat 8) with (2 ^ 64).
  destruct (Z_lt_le_dec v 0) as [Hneg|Hpos].
  - assert (Hm : v mod 2 ^ 64 = v + 2 ^ 64).
    { symmetry. apply Z.mod_unique with (q := -1); lia. }
    rewrite Hm. destruct (Z.ltb_spec (v + 2 ^ 64) (2 ^ 63)); lia.
  - rewrite Z.mod_small by lia.
    destruct (Z.ltb_spec v (2 ^ 63)); lia.
Qed.

Lemma timeval_bytes_length (t : timeval) : List.length (timeval_bytes t) = 16%nat.
Proof.
  unfold timeval_bytes. now rewrite length_app, !le_bytes_length.
Qed.

(** ** The output stream *)

Lemma appended_nil (f : FILE) : appended f [] = f.
Proof.
  unfold appended. cbn. rewrite app_nil_r, Nat.sub_0_r. now destruct f.
Qed.

Lemma appended_app (f : FILE) (p q : list byte) :
  appended (appended f p) q = appended f (p ++ q).
Proof.
  unfold appended. cbn. rewrite <- app_assoc, length_app. f_equal. lia.
Qed.

Lemma put_accepted (b : byte) (f : FILE) :
  (0 < f_room f)%nat -> put b f = Some (appended f [b]).
Proof.
  intros Hroom. unfold put, appended.
  destruct (f_room f) as [|room]; [lia|].
  cbn [List.length Nat.sub]. now rewrite Nat.sub_0_r.
Qed.

Lemma fputc_accepted (c : Z) (f : FILE) :
  (0 < f_room f)%nat -> 0 <= c <= 255 ->
  fputc c f = (c, appended f [byte_of_Z c]).
Proof.
  intros Hroom Hc. unfold fputc. rewrite put_accepted by assumption.
  now rewrite u8_byte_of_Z, Z.mod_small by lia.
Qed.

Lemma put_bytes_accepted (p : list byte) :
  forall f : FILE,
    (List.length p <= f_room f)%nat ->
    put_bytes p f = (List.length p, appended f p).
Proof.
  induction p as [|b p IH]; intros f Hroom; cbn [put_bytes List.length] in *.
  - now rewrite appended_nil.
  - rewrite put_accepted by lia.
    rewrite IH by (cbn [appended f_room List.length]; lia).
    now rewrite appended_app.
Qed.

Lemma fwrite_accepted (p : list byte) (f : FILE) :
  (List.length p <= f_room f)%nat -> fwrite p f = (1, appended f p).
Proof.
  intros Hroom. unfold fwrite. rewrite put_bytes_accepted by assumption.
  now rewrite Nat.leb_refl.
Qed.

Lemma byte_at_app (before l : list byte) (k : nat) :
  byte_at (before ++ l) (List.length before + k) = byte_at l k.
Proof.
  unfold byte_at. now rewrite app_nth2_plus.
Qed.

Lemma bdaddr_at_app (before l : list byte) (k : nat) :
  bdaddr_at (before ++ l) (List.length before + k) = bdaddr_at l k.
Proof.
  unfold bdaddr_at. rewrite <- !Nat.add_assoc, !byte_at_app. reflexivity.
Qed.

Lemma dev_class_at_app (before l : list byte) (k : nat) :
  dev_class_at (before ++ l) (List.length before + k) = dev_class_at l k.
Proof.
  unfold dev_class_at. rewrite <- !Nat.add_assoc, !byte_at_app. reflexivity.
Qed.

(** The tag and the struct of one entry, written to a stream with room. *)
Lemma emit_accepted (tag : Z) (p : list byte) (f : FILE) :
  0 <= tag <= 255 -> (S (List.length p) <= f_room f)%nat ->
  fputc tag f = (tag, appended f [byte_of_Z tag]) /\
  fwrite p (appended f [byte_of_Z tag]) = (1, appended f (byte_of_Z tag :: p)).
Proof.
  intros Htag Hroom. split.
  - now rewrite fputc_accepted by lia.
  - rewrite fwrite_accepted by (cbn [appended f_room List.length]; lia).
    now rewrite appended_app.
Qed.


Lemma inquiry_info_fields (x : inquiry_info) (rest : list byte) :
  bdaddr_at (inquiry_info_bytes x ++ rest) 0 = ii_bdaddr x /\
  dev_class_at (inquiry_info_bytes x ++ rest) 9 = ii_dev_class x /\
  List.length (inquiry_info_bytes x) = 14%nat.
Proof.
  destruct x as [[] ? ? ? [] []]. repeat split.
Qed.

Lemma inquiry_info_with_rssi_fields (x : inquiry_info_with_rssi) (rest : list byte) :
  bdaddr_at (inquiry_info_with_rssi_bytes x ++ rest) 0 = iir_bdaddr x /\
  dev_class_at (inquiry_info_with_rssi_bytes x ++ rest) 8 = iir_dev_class x /\
  byte_at (inquiry_info_with_rssi_bytes x ++ rest) 13 = iir_rssi x /\
  List.length (inquiry_info_with_rssi_bytes x) = 14%nat.
Proof.
  destruct x as [[] ? ? [] [] ?]. repeat split.
Qed.

Lemma inquiry_result_loop_items (time : timeval) (items : list inquiry_info) :
  forall (out_file : FILE) (before after : list byte) (i : nat),
    List.length before = (1 + 14 * i)%nat ->
    (26 * List.length items <= f_room out_file)%nat ->
    inquiry_result_loop out_file time
      (before ++ flat_map inquiry_info_bytes items ++ after) i (List.length items)
    = (EXIT_SUCCESS,
       appended out_file (flat_map (fun x => encode (result_of time x)) items)).
Proof.
  induction items as [|x items IH]; intros out_file before after i Hi Hroom.
  - cbn. now rewrite appended_nil.
  - cbn [List.length inquiry_result_loop flat_map].
    cbn [List.length] in Hroom.
    replace (1 + 14 * i + 9)%nat with (List.length before + 9)%nat by lia.
    replace (1 + 14 * i)%nat with (List.length before + 0)%nat by lia.
    rewrite <- (app_assoc (inquiry_info_bytes x)).
    rewrite bdaddr_at_app, dev_class_at_app.
    destruct (inquiry_info_fields x (flat_map inquiry_info_bytes items ++ after))
      as (-> & -> & Hlen).
    set (r := mk_result time (ii_bdaddr x) (ii_dev_class x)).
    assert (Hsize : List.length (inquiry_result_bytes r) = 25%nat).
    { unfold inquiry_result_bytes. rewrite !length_app, timeval_bytes_length.
      reflexivity. }
    destruct (emit_accepted EVT_INQUIRY_RESULT (inquiry_result_bytes r) out_file)
      as [Hputc Hwrite]; [unfold EVT_INQUIRY_RESULT; lia | lia |].
    rewrite Hputc, Z.eqb_refl. cbn [negb]. rewrite Hwrite.
    change (negb (1 =? 1)) with false. cbv iota.
    rewrite (app_assoc before).
    rewrite IH.
    + rewrite appended_app. reflexivity.
    + rewrite length_app, Hlen. lia.
    + unfold appended. cbn [f_room List.length]. rewrite Hsize. lia.
Qed.

Lemma inquiry_result_with_rssi_loop_items (time : timeval)
    (items : list inquiry_info_with_rssi) :
  forall (out_file : FILE) (before after : list byte) (i : nat),
    List.length before = (1 + 14 * i)%nat ->
    (27 * List.length items <= f_room out_file)%nat ->
    inquiry_result_with_rssi_loop out_file time
      (before ++ flat_map inquiry_info_with_rssi_bytes items ++ after) i
      (List.length items)
    = (EXIT_SUCCESS,
       appended out_file
         (flat_map (fun x => encode (result_with_signal_of time x)) items)).
Proof.
  induction items as [|x items IH]; intros out_file before after i Hi Hroom.
  - cbn. now rewrite appended_nil.
  - cbn [List.length inquiry_result_with_rssi_loop flat_map].
    cbn [List.length] in Hroom.
    replace (1 + 14 * i + 8)%nat with (List.length before + 8)%nat by lia.
    replace (1 + 14 * i + 13)%nat with (List.length before + 13)%nat by lia.
    replace (1 + 14 * i)%nat with (List.length before + 0)%nat by lia.
    rewrite <- (app_assoc (inquiry_info_with_rssi_bytes x)).
    rewrite bdaddr_at_app, dev_class_at_app, byte_at_app.
    destruct (inquiry_info_with_rssi_fields x
                (flat_map inquiry_info_with_rssi_bytes items ++ after))
      as (-> & -> & -> & Hlen).
    set (r := mk_result_with_rssi time (iir_bdaddr x) (iir_dev_class x) (iir_rssi x)).
    assert (Hsize : List.length (inquiry_result_with_rssi_bytes r) = 26%nat).
    { unfold inquiry_result_with_rssi_bytes.
      rewrite !length_app, timeval_bytes_length. reflexivity. }
    destruct (emit_accepted EVT_INQUIRY_RESULT_WITH_RSSI
                (inquiry_result_with_rssi_bytes r) out_file)
      as [Hputc Hwrite]; [unfold EVT_INQUIRY_RESULT_WITH_RSSI; lia | lia |].
    rewrite Hputc, Z.eqb_refl. cbn [negb]. rewrite Hwrite.
    change (negb (1 =? 1)) with false. cbv iota.
    rewrite (app_assoc before).
    rewrite IH.
    + rewrite appended_app. reflexivity.
    + rewrite length_app, Hlen. lia.
    + unfold appended. cbn [f_room List.length]. rewrite Hsize. lia.
Qed.

Lemma size_t_small (z : Z) : 0 <= z < 2 ^ 64 -> size_t z = z.
Proof.
  intros Hz. unfold size_t. now apply Z.mod_small.
Qed.

Lemma flat_map_of_map {A B C : Type} (f : B -> list C) (g : A -> B) (l : list A) :
  flat_map f (map g l) = flat_map (fun x => f (g x)) l.
Proof.
  induction l as [|x l IH]; cbn; [reflexivity|]. now rewrite IH.
Qed.

(** The two handlers on a payload given by its items. *)
Lemma handlers_on_items :
  forall (out_file : FILE) (time : timeval) (hdr : hci_event_hdr) (count : byte)
         (after : list byte),
    (forall items : list inquiry_info,
        u8 count = Z.of_nat (List.length items) ->
        u8 (plen hdr) = u8 count * sizeof_inquiry_info + 1 ->
        (26 * List.length items <= f_room out_file)%nat ->
        handle_inquiry_result out_file time hdr (result_payload count items ++ after)
        = (EXIT_SUCCESS,
           appended out_file (flat_map encode (map (result_of time) items))))
    /\
    (forall items : list inquiry_info_with_rssi,
        u8 count = Z.of_nat (List.length items) ->
        u8 (plen hdr) = u8 count * sizeof_inquiry_info_with_rssi + 1 ->
        (27 * List.length items <= f_room out_file)%nat ->
        handle_inquiry_result_with_rssi out_file time hdr
          (result_with_signal_payload count items ++ after)
        = (EXIT_SUCCESS,
           appended out_file
             (flat_map encode (map (result_with_signal_of time) items)))).
Proof.
  intros out_file time hdr count after.
  pose proof (u8_range count) as Hcount.
  split; intros items Hn Hplen Hroom.
  - unfold handle_inquiry_result, result_payload.
    change (byte_at ((count :: _) ++ after) 0) with count.
    destruct (Z.leb_spec (u8 (plen hdr)) 0) as [Hle|_];
      [unfold sizeof_inquiry_info in Hplen; lia|].
    rewrite size_t_small by (unfold sizeof_inquiry_info; lia).
    rewrite Hplen, Z.eqb_refl. cbn [negb].
    rewrite Hn, Nat2Z.id, flat_map_of_map.
    apply (inquiry_result_loop_items time items out_file [count] after 0);
      [reflexivity | assumption].
  - unfold handle_inquiry_result_with_rssi, result_with_signal_payload.
    change (byte_at ((count :: _) ++ after) 0) with count.
    destruct (Z.leb_spec (u8 (plen hdr)) 0) as [Hle|_];
      [unfold sizeof_inquiry_info_with_rssi in Hplen; lia|].
    rewrite size_t_small by (unfold sizeof_inquiry_info_with_rssi; lia).
    rewrite Hplen, Z.eqb_refl. cbn [negb].
    rewrite Hn, Nat2Z.id, flat_map_of_map.
    apply (inquiry_result_with_rssi_loop_items time items out_file [count] after 0);
      [reflexivity | assumption].
Qed.

(** ** The loop of [run_scan] *)

Section RunScan.

Variable bt_error : Z -> Z.

(** One complete event packet, received while no stop is requested. *)
Lemma run_scan_loop_message (flush : Z) (out_file : FILE)
    (control : list cmsghdr) (evt plen : byte) (payload : list byte)
    (later : list iteration) :
  Z.of_nat (List.length payload) = u8 plen ->
  run_scan_loop bt_error flush 0 out_file
    (message_event (hci_event evt plen payload) control :: later)
  = match dispatch bt_error flush out_file (message_tstamp control)
            (mk_hdr evt plen) payload with
    | (rc, f, flush_after_this_message) =>
        if negb (rc =? EXIT_SUCCESS) then (Returned EXIT_SUCCESS, f)
        else if negb (flush_after_this_message =? 0)
        then run_scan_loop bt_error flush 0 (fflush f) later
        else run_scan_loop bt_error flush 0 f later
    end.
Proof.
  intros Hlen. pose proof (u8_range plen) as Hplen.
  unfold message_event, hci_event.
  cbn [run_scan_loop Z.eqb negb sel_signals deliver sel_rc sel_errno sel_recv
       Z.ltb Z.gtb Z.compare andb].
  set (buf := byte_of_Z HCI_EVENT_PKT :: evt :: plen :: payload).
  assert (Hbuf : Z.of_nat (List.length buf) = 3 + u8 plen).
  { unfold buf. cbn [List.length]. lia. }
  rewrite Hbuf.
  destruct (Z.gtb_spec (3 + u8 plen) HCI_EVENT_HDR_SIZE) as [_|Hle];
    [|unfold HCI_EVENT_HDR_SIZE in Hle; lia].
  change (byte_at buf 0) with (byte_of_Z HCI_EVENT_PKT).
  change (byte_at buf 1) with evt. change (byte_at buf 2) with plen.
  rewrite u8_byte_of_Z. change (HCI_EVENT_PKT mod 256 =? HCI_EVENT_PKT) with true.
  cbv iota. cbn [Bluez.plen].
  replace (3 + u8 plen =? 1 + HCI_EVENT_HDR_SIZE + u8 plen) with true
    by (symmetry; apply Z.eqb_eq; unfold HCI_EVENT_HDR_SIZE; lia).
  reflexivity.
Qed.

Lemma handle_inquiry_result_bad_plen (out_file : FILE) (time : timeval)
    (hdr : hci_event_hdr) (data : list byte) :
  u8 (plen hdr) <> u8 (byte_at data 0) * sizeof_inquiry_info + 1 ->
  handle_inquiry_result out_file time hdr data = (EXIT_FAILURE, out_file).
Proof.
  intros Hbad. unfold handle_inquiry_result.
  pose proof (u8_range (byte_at data 0)) as Hc.
  destruct (u8 (plen hdr) <=? 0); [reflexivity|].
  rewrite size_t_small by (unfold sizeof_inquiry_info; lia).
  destruct (Z.eqb_spec (u8 (plen hdr)) (u8 (byte_at data 0) * sizeof_inquiry_info + 1));
    [contradiction | reflexivity].
Qed.

Lemma handle_inquiry_result_with_rssi_bad_plen (out_file : FILE) (time : timeval)
    (hdr : hci_event_hdr) (data : list byte) :
  u8 (plen hdr) <> u8 (byte_at data 0) * sizeof_inquiry_info_with_rssi + 1 ->
  handle_inquiry_result_with_rssi out_file time hdr data = (EXIT_FAILURE, out_file).
Proof.
  intros Hbad. unfold handle_inquiry_result_with_rssi.
  pose proof (u8_range (byte_at data 0)) as Hc.
  destruct (u8 (plen hdr) <=? 0); [reflexivity|].
  rewrite size_t_small by (unfold sizeof_inquiry_info_with_rssi; lia).
  destruct (Z.eqb_spec (u8 (plen hdr))
              (u8 (byte_at data 0) * sizeof_inquiry_info_with_rssi + 1));
    [contradiction | reflexivity].
Qed.

(** C3.  A discovery-result message, plain or with signal strength, whose
    declared payload length is not [count * 14 + 1], the count being the
    first payload byte and 14 the size of an item of either kind, makes
    its handler report failure and leave the sink as it was; [run_scan]
    leaves its loop at that message, whatever would have come later, and
    the sink it returns is the one it had before the message. *)
Theorem malformed_result_aborts :
  forall (flush : Z) (out_file : FILE) (control : list cmsghdr)
         (evt plen : byte) (payload : list byte) (later : list iteration),
    u8 evt = EVT_INQUIRY_RESULT \/ u8 evt = EVT_INQUIRY_RESULT_WITH_RSSI ->
    Z.of_nat (List.length payload) = u8 plen ->
    u8 plen <> u8 (byte_at payload 0) * 14 + 1 ->
    handle_inquiry_result out_file (message_tstamp control) (mk_hdr evt plen)
      payload = (EXIT_FAILURE, out_file)
    /\ handle_inquiry_result_with_rssi out_file (message_tstamp control)
         (mk_hdr evt plen) payload = (EXIT_FAILURE, out_file)
    /\ run_scan bt_error flush out_file
         (message_event (hci_event evt plen payload) control :: later)
       = (Returned EXIT_SUCCESS, out_file).
Proof.
  intros flush out_file control evt plen payload later Hevt Hlen Hbad.
  pose proof (handle_inquiry_result_bad_plen out_file (message_tstamp control)
                (mk_hdr evt plen) payload Hbad) as H1.
  pose proof (handle_inquiry_result_with_rssi_bad_plen out_file
                (message_tstamp control) (mk_hdr evt plen) payload Hbad) as H2.
  repeat split; try assumption.
  unfold run_scan. rewrite run_scan_loop_message by assumption.
  unfold dispatch. cbn [Bluez.evt].
  destruct Hevt as [-> | ->].
  - rewrite Z.eqb_refl, H1. reflexivity.
  - change (EVT_INQUIRY_RESULT_WITH_RSSI =? EVT_INQUIRY_RESULT) with false.
    rewrite Z.eqb_refl. cbv iota. rewrite H2. reflexivity.
Qed.

(** The handlers write, they never flush. *)
Lemma put_flushes (b : byte) (f f' : FILE) :
  put b f = Some f' -> f_flushes f' = f_flushes f.
Proof.
  unfold put. destruct (f_room f); [destruct (_ || _)|];
    intros H; now inversion H.
Qed.

Lemma fputc_flushes (c : Z) (f : FILE) :
  f_flushes (snd (fputc c f)) = f_flushes f.
Proof.
  unfold fputc. destruct (put (byte_of_Z c) f) as [f'|] eqn:Hput; cbn [snd];
    [now apply put_flushes in Hput | reflexivity].
Qed.

Lemma put_bytes_flushes (p : list byte) :
  forall f : FILE, f_flushes (snd (put_bytes p f)) = f_flushes f.
Proof.
  induction p as [|b p IH]; intros f; cbn [put_bytes]; [reflexivity|].
  destruct (put b f) as [f1|] eqn:Hput; [|reflexivity].
  specialize (IH f1). destruct (put_bytes p f1) as [n f2]. cbn [snd] in *.
  apply put_flushes in Hput. congruence.
Qed.

Lemma fwrite_flushes (p : list byte) (f : FILE) :
  f_flushes (snd (fwrite p f)) = f_flushes f.
Proof.
  unfold fwrite. pose proof (put_bytes_flushes p f) as H.
  now destruct (put_bytes p f).
Qed.

Lemma inquiry_result_loop_flushes (time : timeval) (data : list byte) (todo : nat) :
  forall (out_file : FILE) (i : nat),
    f_flushes (snd (inquiry_result_loop out_file time data i todo))
    = f_flushes out_file.
Proof.
  induction todo as [|todo IH]; intros out_file i; cbn [inquiry_result_loop];
    [reflexivity|].
  pose proof (fputc_flushes EVT_INQUIRY_RESULT out_file) as Hput.
  destruct (fputc EVT_INQUIRY_RESULT out_file) as [c f1]. cbn [snd] in Hput.
  destruct (negb (EVT_INQUIRY_RESULT =? c)); [exact Hput|].
  match goal with |- context [fwrite ?p f1] =>
    pose proof (fwrite_flushes p f1) as Hwr; destruct (fwrite p f1) as [k f2] end.
  cbn [snd] in Hwr.
  destruct (negb (1 =? k)); [cbn [snd]; congruence|].
  rewrite IH. congruence.
Qed.

Lemma inquiry_result_with_rssi_loop_flushes (time : timeval) (data : list byte)
    (todo : nat) :
  forall (out_file : FILE) (i : nat),
    f_flushes (snd (inquiry_result_with_rssi_loop out_file time data i todo))
    = f_flushes out_file.
Proof.
  induction todo as [|todo IH]; intros out_file i;
    cbn [inquiry_result_with_rssi_loop]; [reflexivity|].
  pose proof (fputc_flushes EVT_INQUIRY_RESULT_WITH_RSSI out_file) as Hput.
  destruct (fputc EVT_INQUIRY_RESULT_WITH_RSSI out_file) as [c f1].
  cbn [snd] in Hput.
  destruct (negb (EVT_INQUIRY_RESULT_WITH_RSSI =? c)); [exact Hput|].
  match goal with |- context [fwrite ?p f1] =>
    pose proof (fwrite_flushes p f1) as Hwr; destruct (fwrite p f1) as [k f2] end.
  cbn [snd] in Hwr.
  destruct (negb (1 =? k)); [cbn [snd]; congruence|].
  rewrite IH. congruence.
Qed.

Lemma handle_inquiry_result_flushes (out_file : FILE) (time : timeval)
    (hdr : hci_event_hdr) (data : list byte) :
  f_flushes (snd (handle_inquiry_result out_file time hdr data))
  = f_flushes out_file.
Proof.
  unfold handle_inquiry_result.
  destruct (u8 (plen hdr) <=? 0); [reflexivity|].
  destruct (negb _); [reflexivity|].
  apply inquiry_result_loop_flushes.
Qed.

Lemma handle_inquiry_result_with_rssi_flushes (out_file : FILE) (time : timeval)
    (hdr : hci_event_hdr) (data : list byte) :
  f_flushes (snd (handle_inquiry_result_with_rssi out_file time hdr data))
  = f_flushes out_file.
Proof.
  unfold handle_inquiry_result_with_rssi.
  destruct (u8 (plen hdr) <=? 0); [reflexivity|].
  destruct (negb _); [reflexivity|].
  apply inquiry_result_with_rssi_loop_flushes.
Qed.

Lemma write_inquiry_complete_flushes (out_file : FILE)
    (record : bluetrax_inquiry_complete_t) :
  f_flushes (snd (write_inquiry_complete out_file record)) = f_flushes out_file.
Proof.
  unfold write_inquiry_complete.
  pose proof (fputc_flushes EVT_INQUIRY_COMPLETE out_file) as Hput.
  destruct (fputc EVT_INQUIRY_COMPLETE out_file) as [c f1]. cbn [snd] in Hput.
  destruct (negb (EVT_INQUIRY_COMPLETE =? c)); [exact Hput|].
  pose proof (fwrite_flushes (inquiry_complete_bytes record) f1) as Hwr.
  destruct (fwrite (inquiry_complete_bytes record) f1) as [k f2].
  cbn [snd] in Hwr. destruct (negb (1 =? k)); cbn [snd]; congruence.
Qed.

Lemma handle_inquiry_complete_flushes (out_file : FILE) (time : timeval)
    (hdr : hci_event_hdr) (data : list byte) :
  f_flushes (snd (handle_inquiry_complete bt_error out_file time hdr data))
  = f_flushes out_file.
Proof.
  unfold handle_inquiry_complete.
  destruct (negb (u8 (plen hdr) =? 1)); [reflexivity|].
  destruct (negb _); [reflexivity|].
  apply write_inquiry_complete_flushes.
Qed.

(** A turn in which one stop signal interrupts the wait ends the run. *)
Lemma run_scan_loop_stop_signal (flush signo : Z) (out_file : FILE)
    (recv : recvmsg_result) (later : list iteration) :
  run_scan_loop bt_error flush 0 out_file
    (mk_iteration [signo] (-1) EINTR recv :: later)
  = (Returned EXIT_SUCCESS, out_file).
Proof.
  cbn [run_scan_loop Z.eqb negb sel_signals deliver handle_signal sel_rc
       sel_errno Z.ltb Z.gtb Z.compare andb EINTR Pos.eqb].
  now destruct later.
Qed.

(** C5.  After a message that its handler processed without failure, the
    sink is flushed if the message is a cycle-complete one, whatever [flush]
    is; if it is a discovery result of either kind, the sink is flushed when
    [flush] is non-zero and left unflushed when it is zero.  This is said of
    the sink with which the loop goes on to later events, of the sink that
    the run has when it waits for the next event, and of the sink that
    [run_scan] returns when a stop signal comes next.  In a flushed sink
    nothing waits in the buffer.  The handlers themselves never flush, so
    the count of flushes goes up by one exactly in those cases. *)
Theorem flush_policy :
  forall (flush : Z) (out_file f : FILE) (control : list cmsghdr)
         (evt plen : byte) (payload : list byte) (later : list iteration),
    Z.of_nat (List.length payload) = u8 plen ->
    let message := message_event (hci_event evt plen payload) control in
    let time := message_tstamp control in
    let stop signo recv := mk_iteration [signo] (-1) EINTR recv in
    (u8 evt = EVT_INQUIRY_COMPLETE ->
     handle_inquiry_complete bt_error out_file time (mk_hdr evt plen) payload
     = (EXIT_SUCCESS, f) ->
     run_scan_loop bt_error flush 0 out_file (message :: later)
     = run_scan_loop bt_error flush 0 (fflush f) later
     /\ run_scan bt_error flush out_file [message] = (Waiting, fflush f)
     /\ (forall (signo : Z) (recv : recvmsg_result),
            run_scan bt_error flush out_file (message :: stop signo recv :: later)
            = (Returned EXIT_SUCCESS, fflush f))
     /\ f_flushes (fflush f) = S (f_flushes out_file)
     /\ f_synced (fflush f) = List.length (f_data (fflush f))
     /\ f_held (fflush f) = 0%nat)
    /\
    (u8 evt = EVT_INQUIRY_RESULT ->
     handle_inquiry_result out_file time (mk_hdr evt plen) payload
     = (EXIT_SUCCESS, f) ->
     run_scan_loop bt_error flush 0 out_file (message :: later)
     = run_scan_loop bt_error flush 0 (if flush =? 0 then f else fflush f) later
     /\ run_scan bt_error flush out_file [message]
        = (Waiting, if flush =? 0 then f else fflush f)
     /\ (forall (signo : Z) (recv : recvmsg_result),
            run_scan bt_error flush out_file (message :: stop signo recv :: later)
            = (Returned EXIT_SUCCESS, if flush =? 0 then f else fflush f))
     /\ f_flushes (if flush =? 0 then f else fflush f)
        = if flush =? 0 then f_flushes out_file else S (f_flushes out_file))
    /\
    (u8 evt = EVT_INQUIRY_RESULT_WITH_RSSI ->
     handle_inquiry_result_with_rssi out_file time (mk_hdr evt plen) payload
     = (EXIT_SUCCESS, f) ->
     run_scan_loop bt_error flush 0 out_file (message :: later)
     = run_scan_loop bt_error flush 0 (if flush =? 0 then f else fflush f) later
     /\ run_scan bt_error flush out_file [message]
        = (Waiting, if flush =? 0 then f else fflush f)
     /\ (forall (signo : Z) (recv : recvmsg_result),
            run_scan bt_error flush out_file (message :: stop signo recv :: later)
            = (Returned EXIT_SUCCESS, if flush =? 0 then f else fflush f))
     /\ f_flushes (if flush =? 0 then f else fflush f)
        = if flush =? 0 then f_flushes out_file else S (f_flushes out_file)).
Proof.
  intros flush out_file f control evt plen payload later Hlen message time stop.
  assert (Hnext : forall g : FILE,
             (forall l : list iteration,
                 run_scan_loop bt_error flush 0 out_file (message :: l)
                 = run_scan_loop bt_error flush 0 g l) ->
             run_scan_loop bt_error flush 0 out_file (message :: later)
             = run_scan_loop bt_error flush 0 g later
             /\ run_scan bt_error flush out_file [message] = (Waiting, g)
             /\ (forall (signo : Z) (recv : recvmsg_result),
                    run_scan bt_error flush out_file
                      (message :: stop signo recv :: later)
                    = (Returned EXIT_SUCCESS, g))).
  { intros g Hg. split; [apply Hg|]. split.
    - unfold run_scan. now rewrite Hg.
    - intros signo recv. unfold run_scan, stop.
      rewrite Hg. apply run_scan_loop_stop_signal. }
  assert (Hstep : forall l : list iteration,
             run_scan_loop bt_error flush 0 out_file (message :: l)
             = match dispatch bt_error flush out_file time (mk_hdr evt plen)
                       payload with
               | (rc, g, flush_after_this_message) =>
                   if negb (rc =? EXIT_SUCCESS) then (Returned EXIT_SUCCESS, g)
                   else if negb (flush_after_this_message =? 0)
                   then run_scan_loop bt_error flush 0 (fflush g) l
                   else run_scan_loop bt_error flush 0 g l
               end)
    by (intros l; unfold message; now rewrite run_scan_loop_message).
  unfold dispatch in Hstep. cbn [Bluez.evt] in Hstep.
  split; [|split]; intros Hevt Hok; rewrite Hevt in Hstep.
  - change (EVT_INQUIRY_COMPLETE =? EVT_INQUIRY_RESULT) with false in Hstep.
    change (EVT_INQUIRY_COMPLETE =? EVT_INQUIRY_RESULT_WITH_RSSI) with false
      in Hstep.
    rewrite Z.eqb_refl, Hok in Hstep.
    destruct (Hnext (fflush f) Hstep) as (H1 & H2 & H3).
    split; [exact H1|]. split; [exact H2|]. split; [exact H3|].
    pose proof (handle_inquiry_complete_flushes out_file time (mk_hdr evt plen)
                  payload) as Hfl.
    rewrite Hok in Hfl. cbn [snd] in Hfl. cbn. now rewrite Hfl.
  - rewrite Z.eqb_refl, Hok in Hstep. cbn [Z.eqb EXIT_SUCCESS negb] in Hstep.
    assert (Hg : forall l : list iteration,
               run_scan_loop bt_error flush 0 out_file (message :: l)
               = run_scan_loop bt_error flush 0
                   (if flush =? 0 then f else fflush f) l)
      by (intros l; rewrite Hstep; now destruct (flush =? 0)).
    destruct (Hnext _ Hg) as (H1 & H2 & H3).
    split; [exact H1|]. split; [exact H2|]. split; [exact H3|].
    pose proof (handle_inquiry_result_flushes out_file time (mk_hdr evt plen)
                  payload) as Hfl.
    rewrite Hok in Hfl. cbn [snd] in Hfl.
    destruct (flush =? 0); cbn; now rewrite Hfl.
  - change (EVT_INQUIRY_RESULT_WITH_RSSI =? EVT_INQUIRY_RESULT) with false
      in Hstep.
    rewrite Z.eqb_refl, Hok in Hstep. cbn [Z.eqb EXIT_SUCCESS negb] in Hstep.
    assert (Hg : forall l : list iteration,
               run_scan_loop bt_error flush 0 out_file (message :: l)
               = run_scan_loop bt_error flush 0
                   (if flush =? 0 then f else fflush f) l)
      by (intros l; rewrite Hstep; now destruct (flush =? 0)).
    destruct (Hnext _ Hg) as (H1 & H2 & H3).
    split; [exact H1|]. split; [exact H2|]. split; [exact H3|].
    pose proof (handle_inquiry_result_with_rssi_flushes out_file time
                  (mk_hdr evt plen) payload) as Hfl.
    rewrite Hok in Hfl. cbn [snd] in Hfl.
    destruct (flush =? 0); cbn; now rewrite Hfl.
Qed.

Lemma write_inquiry_complete_accepted (out_file : FILE)
    (record : bluetrax_inquiry_complete_t) :
  (17 <= f_room out_file)%nat ->
  write_inquiry_complete out_file record
  = (EXIT_SUCCESS, appended out_file (encode (CycleComplete record))).
Proof.
  intros Hroom. unfold write_inquiry_complete.
  assert (Hsize : List.length (inquiry_complete_bytes record) = 16%nat)
    by apply timeval_bytes_length.
  destruct (emit_accepted EVT_INQUIRY_COMPLETE (inquiry_complete_bytes record)
              out_file) as [Hputc Hwrite];
    [unfold EVT_INQUIRY_COMPLETE; lia | lia |].
  rewrite Hputc, Z.eqb_refl. cbn [negb]. rewrite Hwrite. reflexivity.
Qed.

(** What the handler relies on in [bt_error]: status 0 is success, and any
    other status is some error code. *)
Hypothesis bt_error_ok : bt_error 0 = 0.
Hypothesis bt_error_failure : forall code : Z, code <> 0 -> bt_error code <> 0.

(** C6.  For a cycle-complete message: a declared payload length other than
    1 makes the handler fail with the sink untouched, and [run_scan] leaves
    its loop; with length 1 and a non-zero status byte, [bt_error] gives a
    non-zero error code, the handler fails with the sink untouched, and
    [run_scan] leaves its loop; with length 1 and status 0 the handler
    appends to the sink, which has room for it, exactly one cycle-complete
    entry with the timestamp of the message. *)
Theorem cycle_complete_handling :
  forall (flush : Z) (out_file : FILE) (control : list cmsghdr)
         (evt plen : byte) (payload : list byte) (later : list iteration),
    u8 evt = EVT_INQUIRY_COMPLETE ->
    Z.of_nat (List.length payload) = u8 plen ->
    let message := message_event (hci_event evt plen payload) control in
    let time := message_tstamp control in
    let status := u8 (byte_at payload 0) in
    (u8 plen <> 1 ->
     handle_inquiry_complete bt_error out_file time (mk_hdr evt plen) payload
     = (EXIT_FAILURE, out_file)
     /\ run_scan bt_error flush out_file (message :: later)
        = (Returned EXIT_SUCCESS, out_file))
    /\
    (u8 plen = 1 -> status <> 0 ->
     bt_error status <> 0
     /\ handle_inquiry_complete bt_error out_file time (mk_hdr evt plen) payload
        = (EXIT_FAILURE, out_file)
     /\ run_scan bt_error flush out_file (message :: later)
        = (Returned EXIT_SUCCESS, out_file))
    /\
    (u8 plen = 1 -> status = 0 -> (17 <= f_room out_file)%nat ->
     handle_inquiry_complete bt_error out_file time (mk_hdr evt plen) payload
     = (EXIT_SUCCESS,
        appended out_file (encode (CycleComplete (mk_complete time))))).
Proof.
  intros flush out_file control evt plen payload later Hevt Hlen message time
         status.
  assert (Hrun : forall rc f,
             handle_inquiry_complete bt_error out_file time (mk_hdr evt plen)
               payload = (rc, f) ->
             rc <> EXIT_SUCCESS ->
             run_scan bt_error flush out_file (message :: later)
             = (Returned EXIT_SUCCESS, f)).
  { intros rc f Hh Hrc. unfold run_scan, message.
    rewrite run_scan_loop_message by assumption.
    fold time. unfold dispatch. cbn [Bluez.evt]. rewrite Hevt.
    change (EVT_INQUIRY_COMPLETE =? EVT_INQUIRY_RESULT) with false.
    change (EVT_INQUIRY_COMPLETE =? EVT_INQUIRY_RESULT_WITH_RSSI) with false.
    rewrite Z.eqb_refl, Hh.
    destruct (Z.eqb_spec rc EXIT_SUCCESS); [contradiction | reflexivity]. }
  split; [|split].
  - intros Hplen.
    assert (Hh : handle_inquiry_complete bt_error out_file time (mk_hdr evt plen)
                   payload = (EXIT_FAILURE, out_file)).
    { unfold handle_inquiry_complete. cbn [Bluez.plen].
      destruct (Z.eqb_spec (u8 plen) 1); [contradiction | reflexivity]. }
    split; [exact Hh|]. apply (Hrun _ _ Hh). discriminate.
  - intros Hplen Hstatus.
    pose proof (bt_error_failure status Hstatus) as Herr.
    assert (Hh : handle_inquiry_complete bt_error out_file time (mk_hdr evt plen)
                   payload = (EXIT_FAILURE, out_file)).
    { unfold handle_inquiry_complete. cbn [Bluez.plen].
      rewrite Hplen. cbn [Z.eqb Pos.eqb negb]. fold status.
      destruct (Z.eqb_spec (bt_error status) 0); [contradiction | reflexivity]. }
    repeat split; [exact Herr | exact Hh |]. apply (Hrun _ _ Hh). discriminate.
  - intros Hplen Hstatus Hroom.
    unfold handle_inquiry_complete. cbn [Bluez.plen].
    rewrite Hplen. cbn [Z.eqb Pos.eqb negb]. fold status.
    rewrite Hstatus, bt_error_ok. cbn [Z.eqb negb].
    now apply write_inquiry_complete_accepted.
Qed.

End RunScan.

(** ** The exit status of a run *)

(** Whatever message makes its handler fail, [run_scan] leaves the loop by
    [break] and comes to its final [return EXIT_SUCCESS]. *)
Lemma run_scan_handler_failure (bt_error : Z -> Z) (flush : Z) (out_file f : FILE)
    (control : list cmsghdr) (evt plen : byte) (payload : list byte)
    (later : list iteration) (rc flush_after_this_message : Z) :
  Z.of_nat (List.length payload) = u8 plen ->
  dispatch bt_error flush out_file (message_tstamp control) (mk_hdr evt plen) payload
  = (rc, f, flush_after_this_message) ->
  rc <> EXIT_SUCCESS ->
  run_scan bt_error flush out_file
    (message_event (hci_event evt plen payload) control :: later)
  = (Returned EXIT_SUCCESS, f).
Proof.
  intros Hlen Hd Hrc. unfold run_scan.
  rewrite run_scan_loop_message by assumption. rewrite Hd.
  destruct (Z.eqb_spec rc EXIT_SUCCESS); [contradiction | reflexivity].
Qed.

(** C1.  The claim asks for a non-zero exit code when a run is aborted by a
    malformed message.  On a cycle-complete message with declared payload
    length 2, and on one with length 1 and the non-zero status 4, the handler
    returns [EXIT_FAILURE], yet [run_scan] returns [EXIT_SUCCESS] and [main]
    ends the process with exit code 0. *)
Theorem malformed_message_exit_status :
  forall (bt_error : Z -> Z) (flush : Z),
    let out_file := fresh_file 100 in
    let bad_length := message_event (hci_event x01 x02 [x00; x00]) [] in
    let bad_status := message_event (hci_event x01 x01 [x04]) [] in
    let env events :=
      mk_process_env true 0 3 (mk_hci_device 0 0 0 0) (mk_timeval 0 0) events in
    (handle_inquiry_complete bt_error out_file (mk_timeval 0 0) (mk_hdr x01 x02)
       [x00; x00] = (EXIT_FAILURE, out_file)
     /\ fst (run_scan bt_error flush out_file [bad_length]) = Returned EXIT_SUCCESS
     /\ exit_code (fst (Scan.main bt_error 8 flush out_file (env [bad_length])))
        = Some 0)
    /\
    (handle_inquiry_complete bt_error_coarse out_file (mk_timeval 0 0)
       (mk_hdr x01 x01) [x04] = (EXIT_FAILURE, out_file)
     /\ fst (run_scan bt_error_coarse flush out_file [bad_status])
        = Returned EXIT_SUCCESS
     /\ exit_code (fst (Scan.main bt_error_coarse 8 flush out_file (env [bad_status])))
        = Some 0).
Proof.
  intros bt_error flush. cbv zeta. repeat split.
Qed.

(** ** Session timing *)

(** C8.  A cycle length [L] that the option loop of [main] accepts lies
    between 1 and 100, and the parameter block that [start_scan] hands to
    the device for it, whenever it hands one, has [length = L],
    [min_period = L + 1] and [max_period = L + 2], so
    [max_period > min_period > length]; it does hand one as soon as both
    socket options are accepted. *)
Theorem session_timing :
  forall (n L : Z) (dev : hci_device),
    option_length n = Some L ->
    1 <= L <= 100
    /\ (forall info : periodic_inquiry_cp,
           snd (start_scan dev L) = Some info ->
           pi_length info = L
           /\ pi_min_period info = L + 1
           /\ pi_max_period info = L + 2
           /\ pi_max_period info > pi_min_period info
           /\ pi_min_period info > pi_length info)
    /\ (0 <= setsockopt_tstamp_rc dev -> 0 <= setsockopt_filter_rc dev ->
        snd (start_scan dev L) <> None).
Proof.
  intros n L dev Hopt. unfold option_length in Hopt.
  destruct (Z.ltb_spec n 1) as [|Hlo]; [discriminate|].
  destruct (Z.gtb_spec n 100) as [|Hhi]; [discriminate|].
  cbn [orb] in Hopt. injection Hopt as <-.
  split; [lia|].
  assert (Hlen : n mod 2 ^ 8 = n) by (apply Z.mod_small; lia).
  assert (Hmin : (n + 1) mod 2 ^ 16 = n + 1) by (apply Z.mod_small; lia).
  assert (Hmax : (n + 1 + 1) mod 2 ^ 16 = n + 2)
    by (rewrite Z.mod_small; lia).
  unfold start_scan. rewrite Hlen, Hmin, Hmax.
  split.
  - intros info Hinfo.
    destruct (setsockopt_tstamp_rc dev <? 0); [discriminate|].
    destruct (setsockopt_filter_rc dev <? 0); [discriminate|].
    destruct (send_periodic_inquiry_rc dev <? 0);
      cbn [snd] in Hinfo; injection Hinfo as <-; cbn; lia.
  - intros H1 H2.
    destruct (Z.ltb_spec (setsockopt_tstamp_rc dev) 0); [lia|].
    destruct (Z.ltb_spec (setsockopt_filter_rc dev) 0); [lia|].
    destruct (send_periodic_inquiry_rc dev <? 0); discriminate.
Qed.

(** ** The record codec *)

Lemma firstn_exact {A : Type} (p rest : list A) (n : nat) :
  List.length p = n -> firstn n (p ++ rest) = p.
Proof.
  intros <-. induction p as [|x p IH]; cbn; [now destruct rest|]. now rewrite IH.
Qed.

Lemma skipn_exact {A : Type} (p rest : list A) (n : nat) :
  List.length p = n -> skipn n (p ++ rest) = rest.
Proof.
  intros <-. induction p as [|x p IH]; cbn; [reflexivity | exact IH].
Qed.

Lemma fread_exact (p rest : list byte) (size : nat) :
  List.length p = size -> fread size (p ++ rest) = Some (p, rest).
Proof.
  intros Hp. unfold fread. rewrite length_app.
  destruct (Nat.leb_spec size (List.length p + List.length rest)); [|lia].
  now rewrite firstn_exact, skipn_exact.
Qed.

Lemma fread_short (file : list byte) (size : nat) :
  (List.length file < size)%nat -> fread size file = None.
Proof.
  intros Hlt. unfold fread.
  destruct (Nat.leb_spec size (List.length file)); [lia | reflexivity].
Qed.

Lemma timeval_of_timeval_bytes (t : timeval) (rest : list byte) :
  timeval_ok t -> Unpack.timeval_of_bytes (timeval_bytes t ++ rest) = t.
Proof.
  intros [Hsec Husec]. unfold Unpack.timeval_of_bytes, timeval_bytes.
  rewrite <- app_assoc.
  rewrite firstn_exact by apply le_bytes_length.
  rewrite skipn_exact by apply le_bytes_length.
  rewrite firstn_exact by apply le_bytes_length.
  rewrite !long_of_le_bytes by assumption. now destruct t.
Qed.

Lemma bdaddr_at_bdaddr_bytes (a : bdaddr_t) (rest : list byte) :
  bdaddr_at (bdaddr_bytes a ++ rest) 0 = a.
Proof.
  now destruct a.
Qed.

Lemma dev_class_at_dev_class_bytes (c : dev_class_t) (rest : list byte) :
  dev_class_at (dev_class_bytes c ++ rest) 0 = c.
Proof.
  now destruct c.
Qed.

Lemma fread_inquiry_complete_bytes (r : bluetrax_inquiry_complete_t)
    (rest : list byte) :
  timeval_ok (ic_time r) ->
  Unpack.fread_inquiry_complete (inquiry_complete_bytes r ++ rest) = Some (r, rest).
Proof.
  intros Hok. unfold Unpack.fread_inquiry_complete, inquiry_complete_bytes.
  rewrite fread_exact by apply timeval_bytes_length.
  rewrite <- (app_nil_r (timeval_bytes (ic_time r))).
  rewrite timeval_of_timeval_bytes by assumption. now destruct r.
Qed.

Lemma fread_inquiry_result_bytes (r : bluetrax_inquiry_result_t) (rest : list byte) :
  timeval_ok (ir_time r) ->
  Unpack.fread_inquiry_result (inquiry_result_bytes r ++ rest) = Some (r, rest).
Proof.
  intros Hok. unfold Unpack.fread_inquiry_result, inquiry_result_bytes.
  rewrite fread_exact
    by (rewrite !length_app, timeval_bytes_length; reflexivity).
  rewrite timeval_of_timeval_bytes by assumption.
  destruct r as [t [] []]. reflexivity.
Qed.

Lemma fread_inquiry_result_with_rssi_bytes
    (r : bluetrax_inquiry_result_with_rssi_t) (rest : list byte) :
  timeval_ok (irr_time r) ->
  Unpack.fread_inquiry_result_with_rssi (inquiry_result_with_rssi_bytes r ++ rest)
  = Some (r, rest).
Proof.
  intros Hok.
  unfold Unpack.fread_inquiry_result_with_rssi, inquiry_result_with_rssi_bytes.
  rewrite fread_exact
    by (rewrite !length_app, timeval_bytes_length; reflexivity).
  rewrite timeval_of_timeval_bytes by assumption.
  destruct r as [t [] [] s]. reflexivity.
Qed.


(** ** The class decoder *)

Section ClassDecoder.

Local Open Scope string_scope.
Local Open Scope Z_scope.

(** C7.  With major byte 3 and minor byte 0 the class fields are
    "LAN Access" and "Uncategorized"; with 3 and 9, "LAN Access" and
    "1-17% utilized"; with 5 and 0x11, "Peripheral" and
    "Keyboard/Joystick"; with 63 and 0 both fields are empty.  The minor
    names are also those [bluetrax_get_minor_device_name] returns. *)
Theorem classify_examples :
  forall service : byte,
    Unpack.write_dev_class (mk_dev_class x00 x03 service)
    = (Unpack.printf_hhd service ++ ",") ++ "LAN Access" ++ "," ++ "Uncategorized" ++ ","
    /\ Unpack.write_dev_class (mk_dev_class x09 x03 service)
       = (Unpack.printf_hhd service ++ ",") ++ "LAN Access" ++ "," ++ "1-17% utilized" ++ ","
    /\ Unpack.write_dev_class (mk_dev_class x11 x05 service)
       = (Unpack.printf_hhd service ++ ",") ++ "Peripheral" ++ "," ++ "Keyboard/Joystick" ++ ","
    /\ Unpack.write_dev_class (mk_dev_class x00 x3f service)
       = (Unpack.printf_hhd service ++ ",") ++ EmptyString ++ "," ++ EmptyString ++ ","
    /\ bluetrax_get_minor_device_name 3 0 = "Uncategorized"
    /\ bluetrax_get_minor_device_name 3 9 = "1-17% utilized"
    /\ bluetrax_get_minor_device_name 5 17 = "Keyboard/Joystick"
    /\ bluetrax_get_minor_device_name 63 0 = EmptyString.
Proof.
  intros service. repeat split; reflexivity.
Qed.

(** C10.  For every device class whose major byte is 7, the major field
    is "Uncategorized" and the minor field is what
    [bluetrax_get_minor_device_name] returns for major 7, which is the
    wearable table: "Wrist Watch", "Pager", "Jacket", "Helmet", "Glasses"
    for minor 1 to 5, and the reserved label otherwise; minor 1 gives
    "Uncategorized" next to "Wrist Watch". *)
Theorem major_seven_disagreement :
  forall minor service : byte,
    Unpack.write_dev_class (mk_dev_class minor x07 service)
    = (Unpack.printf_hhd service ++ ",") ++ "Uncategorized" ++ ","
        ++ bluetrax_get_minor_device_name 7 (u8 minor) ++ ","
    /\ bluetrax_get_minor_device_name 7 (u8 minor)
       = (if u8 minor =? 1 then "Wrist Watch"
          else if u8 minor =? 2 then "Pager"
          else if u8 minor =? 3 then "Jacket"
          else if u8 minor =? 4 then "Helmet"
          else if u8 minor =? 5 then "Glasses"
          else "Unknown (reserved) minor device class")
    /\ Unpack.write_dev_class (mk_dev_class x01 x07 service)
       = (Unpack.printf_hhd service ++ ",") ++ "Uncategorized" ++ "," ++ "Wrist Watch" ++ ",".
Proof.
  intros minor service. split; [reflexivity|]. split; [|reflexivity].
  destruct minor; reflexivity.
Qed.

End ClassDecoder.

(** ** The text decoder *)

Section TextDecoder.

Variable tm : Type.
Variable localtime : Z -> option tm.
Variable strftime_date_time : tm -> string.
Variable ba2str : bdaddr_t -> string.

Local Abbreviation loop :=
  (Unpack.binary_to_text_loop tm localtime strftime_date_time ba2str).
Local Abbreviation write_timeval :=
  (Unpack.write_timeval tm localtime strftime_date_time).
Local Abbreviation row_tail := (Unpack.row_tail ba2str).

(** A turn of the loop: read an entry, print its row. *)
Lemma binary_to_text_loop_turn (turns : nat) (tag : byte) (rest : list byte)
    (out : string) :
  loop (S turns) (tag :: rest) out
  = match Unpack.decode (tag :: rest) with
    | None => (out, Unpack.Exit EXIT_FAILURE)
    | Some (e, rest') =>
        match write_timeval (record_time e) with
        | None => ((out ++ Unpack.row_head e)%string, Unpack.Exit EXIT_FAILURE)
        | Some s =>
            loop turns rest' ((out ++ Unpack.row_head e) ++ s ++ row_tail e)%string
        end
    end.
Proof.
  cbn [Unpack.binary_to_text_loop Unpack.decode].
  destruct (u8 tag =? EVT_INQUIRY_COMPLETE).
  { destruct (Unpack.fread_inquiry_complete rest) as [[r rest']|]; reflexivity. }
  destruct (u8 tag =? EVT_INQUIRY_RESULT).
  { destruct (Unpack.fread_inquiry_result rest) as [[r rest']|]; reflexivity. }
  destruct (u8 tag =? EVT_INQUIRY_RESULT_WITH_RSSI); [|reflexivity].
  destruct (Unpack.fread_inquiry_result_with_rssi rest) as [[r rest']|];
    reflexivity.
Qed.

Lemma decode_short (tag : byte) (n : nat) (rest : list byte) :
  record_size tag = Some n -> (List.length rest < n)%nat ->
  Unpack.decode (tag :: rest) = None.
Proof.
  unfold record_size, Unpack.decode. intros Hsize Hshort.
  destruct (u8 tag =? EVT_INQUIRY_COMPLETE).
  { injection Hsize as <-. unfold Unpack.fread_inquiry_complete.
    now rewrite fread_short. }
  destruct (u8 tag =? EVT_INQUIRY_RESULT).
  { injection Hsize as <-. unfold Unpack.fread_inquiry_result.
    now rewrite fread_short. }
  destruct (u8 tag =? EVT_INQUIRY_RESULT_WITH_RSSI); [|discriminate].
  injection Hsize as <-. unfold Unpack.fread_inquiry_result_with_rssi.
  now rewrite fread_short.
Qed.

Lemma decode_whole (tag : byte) (n : nat) (body : list byte) :
  record_size tag = Some n -> List.length body = n ->
  exists e : record,
    forall more : list byte, Unpack.decode (tag :: body ++ more) = Some (e, more).
Proof.
  unfold record_size, Unpack.decode. intros Hsize Hbody.
  destruct (u8 tag =? EVT_INQUIRY_COMPLETE).
  { injection Hsize as <-. eexists. intros more.
    unfold Unpack.fread_inquiry_complete. rewrite fread_exact by assumption.
    cbn [option_map fst snd]. reflexivity. }
  destruct (u8 tag =? EVT_INQUIRY_RESULT).
  { injection Hsize as <-. eexists. intros more.
    unfold Unpack.fread_inquiry_result. rewrite fread_exact by assumption.
    cbn [option_map fst snd]. reflexivity. }
  destruct (u8 tag =? EVT_INQUIRY_RESULT_WITH_RSSI); [|discriminate].
  injection Hsize as <-. eexists. intros more.
  unfold Unpack.fread_inquiry_result_with_rssi. rewrite fread_exact by assumption.
  cbn [option_map fst snd]. reflexivity.
Qed.

Lemma truncated_after_whole (tag : byte) (n : nat) (rest : list byte) :
  record_size tag = Some n -> (List.length rest < n)%nat ->
  forall whole : list byte,
    whole_records whole ->
    forall (turns turns' : nat) (out : string),
      (List.length (whole ++ tag :: rest) <= turns)%nat ->
      (List.length whole <= turns')%nat ->
      loop turns (whole ++ tag :: rest) out
      = (fst (loop turns' whole out), Unpack.Exit EXIT_FAILURE).
Proof.
  intros Hsize Hshort whole Hwhole.
  induction Hwhole as [|t m body more Ht Hbody Hmore IH];
    intros turns turns' out Hturns Hturns'.
  - cbn [app] in *. destruct turns as [|turns]; [cbn in Hturns; lia|].
    rewrite binary_to_text_loop_turn, (decode_short tag n rest Hsize Hshort).
    now destruct turns'.
  - cbn [app List.length] in *. rewrite <- app_assoc.
    destruct turns as [|turns]; [lia|]. destruct turns' as [|turns']; [lia|].
    destruct (decode_whole t m body Ht Hbody) as [e He].
    rewrite !binary_to_text_loop_turn, !He.
    destruct (write_timeval (record_time e)) as [s|]; [|reflexivity].
    apply IH.
    + rewrite !length_app in Hturns. rewrite length_app. cbn [List.length] in *. lia.
    + rewrite length_app in Hturns'. lia.
Qed.

Lemma fread_rest (size : nat) (file p rest : list byte) :
  fread size file = Some (p, rest) -> (List.length rest <= List.length file)%nat.
Proof.
  unfold fread. destruct (size <=? List.length file)%nat; [|discriminate].
  intros H. injection H as _ <-. rewrite length_skipn. lia.
Qed.

Lemma decode_consumes (file rest : list byte) (e : record) :
  Unpack.decode file = Some (e, rest) ->
  (List.length rest < List.length file)%nat.
Proof.
  destruct file as [|tag file]; [discriminate|].
  unfold Unpack.decode, Unpack.fread_inquiry_complete,
    Unpack.fread_inquiry_result, Unpack.fread_inquiry_result_with_rssi.
  intros Hd. cbn [List.length]. apply Nat.lt_succ_r.
  destruct (u8 tag =? EVT_INQUIRY_COMPLETE).
  { destruct (fread _ file) as [[p r]|] eqn:Hr; [|discriminate].
    cbn in Hd. injection Hd as _ <-. eapply fread_rest, Hr. }
  destruct (u8 tag =? EVT_INQUIRY_RESULT).
  { destruct (fread _ file) as [[p r]|] eqn:Hr; [|discriminate].
    cbn in Hd. injection Hd as _ <-. eapply fread_rest, Hr. }
  destruct (u8 tag =? EVT_INQUIRY_RESULT_WITH_RSSI); [|discriminate].
  destruct (fread _ file) as [[p r]|] eqn:Hr; [|discriminate].
  cbn in Hd. injection Hd as _ <-. eapply fread_rest, Hr.
Qed.

(** The bound on the turns of [binary_to_text] is never reached. *)
Lemma binary_to_text_loop_ends (turns : nat) :
  forall (file : list byte) (out : string),
    (List.length file <= turns)%nat -> snd (loop turns file out) <> Unpack.Unfinished.
Proof.
  induction turns as [|turns IH]; intros file out Hlen.
  - destruct file; [discriminate | cbn in Hlen; lia].
  - destruct file as [|tag rest]; [discriminate|].
    rewrite binary_to_text_loop_turn.
    destruct (Unpack.decode (tag :: rest)) as [[e rest']|] eqn:Hd; [|discriminate].
    destruct (write_timeval (record_time e)); [|discriminate].
    apply IH. apply decode_consumes in Hd. cbn [List.length] in *. lia.
Qed.

(** C9.  When a log is a run of whole entries followed by a supported tag
    and fewer bytes than the struct of that tag has, [binary_to_text] ends
    in [exit(EXIT_FAILURE)], and what it has sent to [stdout] by then is
    what it sends for the whole entries alone: nothing is printed for the
    cut entry.  The exit code of the decoder is 1. *)
Theorem truncated_log_fails :
  forall (whole : list byte) (tag : byte) (n : nat) (rest : list byte),
    whole_records whole ->
    record_size tag = Some n ->
    (List.length rest < n)%nat ->
    let file := (whole ++ tag :: rest)%list in
    Unpack.binary_to_text tm localtime strftime_date_time ba2str file
    = (fst (Unpack.binary_to_text tm localtime strftime_date_time ba2str whole),
       Unpack.Exit EXIT_FAILURE)
    /\ snd (Unpack.main tm localtime strftime_date_time ba2str file) = Some 1.
Proof.
  intros whole tag n rest Hwhole Hsize Hshort file.
  assert (Hrun : Unpack.binary_to_text tm localtime strftime_date_time ba2str file
                 = (fst (Unpack.binary_to_text tm localtime strftime_date_time
                           ba2str whole),
                    Unpack.Exit EXIT_FAILURE)).
  { unfold Unpack.binary_to_text.
    apply (truncated_after_whole tag n rest Hsize Hshort whole Hwhole);
      apply Nat.le_refl. }
  split; [exact Hrun|].
  unfold Unpack.main. now rewrite Hrun.
Qed.

(** [binary_to_text] always comes to an end: it returns or it exits. *)
Lemma binary_to_text_ends (file : list byte) :
  snd (Unpack.binary_to_text tm localtime strftime_date_time ba2str file)
  <> Unpack.Unfinished.
Proof.
  unfold Unpack.binary_to_text. apply binary_to_text_loop_ends, Nat.le_refl.
Qed.

End TextDecoder.

(** ** Every payload of the right length is a count and its items *)

Lemma items_of_bytes (n : nat) :
  forall data : list byte,
    List.length data = (14 * n)%nat ->
    exists items : list inquiry_info,
      List.length items = n /\ data = flat_map inquiry_info_bytes items.
Proof.
  induction n as [|n IH]; intros data Hlen.
  - exists []. destruct data; [now split | discriminate].
  - do 14 (destruct data as [|? data]; [cbn in Hlen; lia|]).
    destruct (IH data) as (items & Hn & ->); [cbn in Hlen; lia|].
    exists (mk_inquiry_info (mk_bdaddr b b6 b7 b8 b9 b10) b11 b12 b13
              (mk_dev_class b14 b15 b16) (b17, b18) :: items).
    split; [cbn; now rewrite Hn | reflexivity].
Qed.

Lemma items_with_rssi_of_bytes (n : nat) :
  forall data : list byte,
    List.length data = (14 * n)%nat ->
    exists items : list inquiry_info_with_rssi,
      List.length items = n /\ data = flat_map inquiry_info_with_rssi_bytes items.
Proof.
  induction n as [|n IH]; intros data Hlen.
  - exists []. destruct data; [now split | discriminate].
  - do 14 (destruct data as [|? data]; [cbn in Hlen; lia|]).
    destruct (IH data) as (items & Hn & ->); [cbn in Hlen; lia|].
    exists (mk_inquiry_info_with_rssi (mk_bdaddr b b6 b7 b8 b9 b10) b11 b12
              (mk_dev_class b13 b14 b15) (b16, b17) b18 :: items).
    split; [cbn; now rewrite Hn | reflexivity].
Qed.

(** C2.  For every discovery-result message, plain or with signal strength,
    that is complete and whose declared payload length is [count * 14 + 1],
    the count [N] being the first payload byte and 14 the size of an item of
    either kind: the payload is the count followed by exactly [N] items, and
    the handler, given a sink with room for them, succeeds and appends to the
    sink exactly the [N] entries of those items, in order and nothing else.
    Each entry is the tag, the timestamp of the message, and the address and
    the three class bytes of its item, and for the second kind the
    signal-strength byte of the item as well. *)
Theorem discovery_results_emitted :
  forall (out_file : FILE) (time : timeval) (hdr : hci_event_hdr)
         (payload : list byte),
    Z.of_nat (List.length payload) = u8 (plen hdr) ->
    let count := byte_at payload 0 in
    let N := Z.to_nat (u8 count) in
    u8 (plen hdr) = u8 count * 14 + 1 ->
    ((26 * N <= f_room out_file)%nat ->
     exists items : list inquiry_info,
       List.length items = N
       /\ payload = result_payload count items
       /\ handle_inquiry_result out_file time hdr payload
          = (EXIT_SUCCESS,
             appended out_file (flat_map encode (map (result_of time) items))))
    /\
    ((27 * N <= f_room out_file)%nat ->
     exists items : list inquiry_info_with_rssi,
       List.length items = N
       /\ payload = result_with_signal_payload count items
       /\ handle_inquiry_result_with_rssi out_file time hdr payload
          = (EXIT_SUCCESS,
             appended out_file
               (flat_map encode (map (result_with_signal_of time) items)))).
Proof.
  intros out_file time hdr payload Hlen count N Hplen.
  pose proof (u8_range count) as Hcount.
  destruct payload as [|c data]; [cbn in Hlen; lia|].
  change (byte_at (c :: data) 0) with c in count. subst count.
  assert (Hdata : List.length data = (14 * N)%nat)
    by (cbn [List.length] in Hlen; unfold N; lia).
  destruct (handlers_on_items out_file time hdr c []) as [Hplain Hsignal].
  split; intros Hroom.
  - destruct (items_of_bytes N data Hdata) as (items & Hn & ->).
    exists items. repeat split; [exact Hn|].
    rewrite <- (app_nil_r (c :: _)). apply Hplain.
    + unfold N in Hn. lia.
    + exact Hplen.
    + now rewrite Hn.
  - destruct (items_with_rssi_of_bytes N data Hdata) as (items & Hn & ->).
    exists items. repeat split; [exact Hn|].
    rewrite <- (app_nil_r (c :: _)). apply Hsignal.
    + unfold N in Hn. lia.
    + exact Hplen.
    + now rewrite Hn.
Qed.

(** ** The statements at concrete inputs *)

Lemma bt_error_coarse_failure (code : Z) : code <> 0 -> bt_error_coarse code <> 0.
Proof.
  intros Hcode. unfold bt_error_coarse.
  destruct (Z.eqb_spec code 0); [contradiction | discriminate].
Qed.

Lemma discovery_results_emitted_witness :
  let payload :=
    [x01; x11; x22; x33; x44; x55; x66; x01; x00; x00; x0c; x02; x5a; x34; x12] in
  let out_file := fresh_file 64 in
  let time := mk_timeval 1325376000 250000 in
  let hdr := mk_hdr x02 x0f in
  Z.of_nat (List.length payload) = u8 (plen hdr)
  /\ u8 (plen hdr) = u8 (byte_at payload 0) * 14 + 1
  /\ (26 * Z.to_nat (u8 (byte_at payload 0)) <= f_room out_file)%nat
  /\ exists items : list inquiry_info,
       List.length items = Z.to_nat (u8 (byte_at payload 0))
       /\ payload = result_payload (byte_at payload 0) items
       /\ handle_inquiry_result out_file time hdr payload
          = (EXIT_SUCCESS,
             appended out_file (flat_map encode (map (result_of time) items))).
Proof.
  intros payload out_file time hdr.
  assert (Hlen : Z.of_nat (List.length payload) = u8 (plen hdr)) by reflexivity.
  assert (Hplen : u8 (plen hdr) = u8 (byte_at payload 0) * 14 + 1) by reflexivity.
  assert (Hroom : (26 * Z.to_nat (u8 (byte_at payload 0)) <= f_room out_file)%nat)
    by (vm_compute; lia).
  split; [exact Hlen|]. split; [exact Hplen|]. split; [exact Hroom|].
  exact (proj1 (discovery_results_emitted out_file time hdr payload Hlen Hplen) Hroom).
Defined.

Lemma malformed_result_aborts_witness :
  let payload := [x01; x00] in
  (u8 x02 = EVT_INQUIRY_RESULT \/ u8 x02 = EVT_INQUIRY_RESULT_WITH_RSSI)
  /\ Z.of_nat (List.length payload) = u8 x02
  /\ u8 x02 <> u8 (byte_at payload 0) * 14 + 1
  /\ run_scan bt_error_coarse 1 (fresh_file 64)
       [message_event (hci_event x02 x02 payload) []]
     = (Returned EXIT_SUCCESS, fresh_file 64).
Proof.
  intros payload.
  assert (Hevt : u8 x02 = EVT_INQUIRY_RESULT \/ u8 x02 = EVT_INQUIRY_RESULT_WITH_RSSI)
    by (left; reflexivity).
  assert (Hlen : Z.of_nat (List.length payload) = u8 x02) by reflexivity.
  assert (Hbad : u8 x02 <> u8 (byte_at payload 0) * 14 + 1) by (vm_compute; lia).
  split; [exact Hevt|]. split; [exact Hlen|]. split; [exact Hbad|].
  exact (proj2 (proj2 (malformed_result_aborts bt_error_coarse 1 (fresh_file 64) []
                         x02 x02 payload [] Hevt Hlen Hbad))).
Defined.


Lemma flush_policy_witness :
  let out_file := fresh_file 64 in
  let time := mk_timeval 7 9 in
  let control := [mk_cmsghdr HCI_CMSG_TSTAMP time] in
  let f := appended out_file (encode (CycleComplete (mk_complete time))) in
  let message := message_event (hci_event x01 x01 [x00]) control in
  Z.of_nat (List.length [x00]) = u8 x01
  /\ u8 x01 = EVT_INQUIRY_COMPLETE
  /\ handle_inquiry_complete bt_error_coarse out_file (message_tstamp control)
       (mk_hdr x01 x01) [x00] = (EXIT_SUCCESS, f)
  /\ run_scan_loop bt_error_coarse 0 0 out_file [message]
     = run_scan_loop bt_error_coarse 0 0 (fflush f) []
  /\ run_scan bt_error_coarse 0 out_file [message] = (Waiting, fflush f)
  /\ (forall (signo : Z) (recv : recvmsg_result),
         run_scan bt_error_coarse 0 out_file
           [message; mk_iteration [signo] (-1) EINTR recv]
         = (Returned EXIT_SUCCESS, fflush f))
  /\ f_flushes (fflush f) = S (f_flushes out_file)
  /\ f_synced (fflush f) = List.length (f_data (fflush f))
  /\ f_held (fflush f) = 0%nat.
Proof.
  intros out_file time control f message.
  assert (Hlen : Z.of_nat (List.length [x00]) = u8 x01) by reflexivity.
  assert (Hevt : u8 x01 = EVT_INQUIRY_COMPLETE) by reflexivity.
  assert (Hok : handle_inquiry_complete bt_error_coarse out_file
                  (message_tstamp control) (mk_hdr x01 x01) [x00]
                = (EXIT_SUCCESS, f)) by reflexivity.
  split; [exact Hlen|]. split; [exact Hevt|]. split; [exact Hok|].
  exact (proj1 (flush_policy bt_error_coarse 0 out_file f control x01 x01 [x00] []
                  Hlen) Hevt Hok).
Defined.

Lemma cycle_complete_handling_witness :
  let out_file := fresh_file 64 in
  let time := mk_timeval 7 9 in
  let control := [mk_cmsghdr HCI_CMSG_TSTAMP time] in
  bt_error_coarse 0 = 0
  /\ u8 x01 = EVT_INQUIRY_COMPLETE
  /\ Z.of_nat (List.length [x04]) = u8 x01
  /\ u8 (byte_at [x04] 0) <> 0
  /\ bt_error_coarse (u8 (byte_at [x04] 0)) <> 0
  /\ handle_inquiry_complete bt_error_coarse out_file (message_tstamp control)
       (mk_hdr x01 x01) [x04] = (EXIT_FAILURE, out_file)
  /\ run_scan bt_error_coarse 0 out_file
       [message_event (hci_event x01 x01 [x04]) control]
     = (Returned EXIT_SUCCESS, out_file).
Proof.
  intros out_file time control.
  assert (Hzero : bt_error_coarse 0 = 0) by reflexivity.
  assert (Hevt : u8 x01 = EVT_INQUIRY_COMPLETE) by reflexivity.
  assert (Hlen : Z.of_nat (List.length [x04]) = u8 x01) by reflexivity.
  assert (Hstatus : u8 (byte_at [x04] 0) <> 0) by (vm_compute; lia).
  split; [exact Hzero|]. split; [exact Hevt|]. split; [exact Hlen|].
  split; [exact Hstatus|].
  exact (proj1 (proj2 (cycle_complete_handling bt_error_coarse Hzero
                         bt_error_coarse_failure 0 out_file control x01 x01 [x04] []
                         Hevt Hlen)) eq_refl Hstatus).
Defined.

Lemma session_timing_witness :
  option_length 8 = Some 8
  /\ 1 <= 8 <= 100
  /\ (forall info : periodic_inquiry_cp,
         snd (start_scan (mk_hci_device 0 0 0 0) 8) = Some info ->
         pi_length info = 8
         /\ pi_min_period info = 8 + 1
         /\ pi_max_period info = 8 + 2
         /\ pi_max_period info > pi_min_period info
         /\ pi_min_period info > pi_length info)
  /\ (0 <= setsockopt_tstamp_rc (mk_hci_device 0 0 0 0) ->
      0 <= setsockopt_filter_rc (mk_hci_device 0 0 0 0) ->
      snd (start_scan (mk_hci_device 0 0 0 0) 8) <> None).
Proof.
  split; [reflexivity|].
  exact (session_timing 8 8 (mk_hci_device 0 0 0 0) eq_refl).
Defined.

Lemma truncated_log_fails_witness :
  let localtime := fun _ : Z => Some tt in
  let strftime_date_time := fun _ : unit => "2012-01-01 00:00:00"%string in
  let ba2str := fun _ : bdaddr_t => "66:55:44:33:22:11"%string in
  let whole := encode (CycleComplete (mk_complete (mk_timeval 1325376000 250000))) in
  let rest := [x00; x00; x00] in
  whole_records whole
  /\ record_size x02 = Some 25%nat
  /\ (List.length rest < 25)%nat
  /\ Unpack.binary_to_text unit localtime strftime_date_time ba2str
       (whole ++ x02 :: rest)
     = (fst (Unpack.binary_to_text unit localtime strftime_date_time ba2str whole),
        Unpack.Exit EXIT_FAILURE)
  /\ snd (Unpack.main unit localtime strftime_date_time ba2str (whole ++ x02 :: rest))
     = Some 1.
Proof.
  intros localtime strftime_date_time ba2str whole rest.
  assert (Hwhole : whole_records whole)
    by exact (whole_cons x01 16 (timeval_bytes (mk_timeval 1325376000 250000)) []
                eq_refl eq_refl whole_nil).
  assert (Hsize : record_size x02 = Some 25%nat) by reflexivity.
  assert (Hshort : (List.length rest < 25)%nat) by (cbn; lia).
  split; [exact Hwhole|]. split; [exact Hsize|]. split; [exact Hshort|].
  exact (truncated_log_fails unit localtime strftime_date_time ba2str whole x02 25
           rest Hwhole Hsize Hshort).
Defined.

(** * Further properties of the scanner *)

(** ** The sink only grows *)

Lemma extends_refl (f : FILE) : extends f f.
Proof.
  exists []. cbn. rewrite app_nil_r. split; [reflexivity | lia].
Qed.

Lemma extends_trans (f g h : FILE) : extends f g -> extends g h -> extends f h.
Proof.
  intros (p & Hp & Hr) (q & Hq & Hs). exists (p ++ q)%list.
  rewrite Hq, Hp, <- app_assoc, length_app. split; [reflexivity | lia].
Qed.

Lemma write_error_extends (f : FILE) : extends f (write_error f).
Proof.
  exists []. cbn. rewrite app_nil_r. split; [reflexivity | lia].
Qed.

Lemma put_extends (b : byte) (f f' : FILE) : put b f = Some f' -> extends f f'.
Proof.
  unfold put. destruct (f_room f) as [|room] eqn:Hroom.
  - destruct (_ || _); intros H; inversion H. exists []. cbn.
    rewrite app_nil_r, Hroom. now split.
  - intros H. inversion H. exists [b]. cbn. split; [reflexivity | lia].
Qed.

Lemma fputc_extends (c : Z) (f : FILE) : extends f (snd (fputc c f)).
Proof.
  unfold fputc. destruct (put (byte_of_Z c) f) as [f'|] eqn:Hput; cbn [snd];
    [now apply put_extends in Hput | apply write_error_extends].
Qed.

Lemma put_bytes_extends (p : list byte) :
  forall f : FILE, extends f (snd (put_bytes p f)).
Proof.
  induction p as [|b p IH]; intros f; cbn [put_bytes]; [apply extends_refl|].
  destruct (put b f) as [f1|] eqn:Hput; [|apply write_error_extends].
  specialize (IH f1). destruct (put_bytes p f1) as [n f2]. cbn [snd] in *.
  apply put_extends in Hput. eapply extends_trans; eassumption.
Qed.

Lemma fwrite_extends (p : list byte) (f : FILE) : extends f (snd (fwrite p f)).
Proof.
  unfold fwrite. pose proof (put_bytes_extends p f) as H.
  now destruct (put_bytes p f).
Qed.

Lemma fflush_extends (f : FILE) : extends f (fflush f).
Proof.
  exists []. cbn. rewrite app_nil_r. split; [reflexivity | lia].
Qed.

Lemma inquiry_result_loop_extends (time : timeval) (data : list byte) (todo : nat) :
  forall (out_file : FILE) (i : nat),
    extends out_file (snd (inquiry_result_loop out_file time data i todo)).
Proof.
  induction todo as [|todo IH]; intros out_file i; cbn [inquiry_result_loop];
    [apply extends_refl|].
  pose proof (fputc_extends EVT_INQUIRY_RESULT out_file) as Hput.
  destruct (fputc EVT_INQUIRY_RESULT out_file) as [c f1]. cbn [snd] in Hput.
  destruct (negb (EVT_INQUIRY_RESULT =? c)); [exact Hput|].
  match goal with |- context [fwrite ?p f1] =>
    pose proof (fwrite_extends p f1) as Hwr; destruct (fwrite p f1) as [k f2] end.
  cbn [snd] in Hwr.
  destruct (negb (1 =? k)).
  - cbn [snd]. eapply extends_trans; eassumption.
  - eapply extends_trans; [exact Hput|]. eapply extends_trans; [exact Hwr|].
    apply IH.
Qed.

Lemma inquiry_result_with_rssi_loop_extends (time : timeval) (data : list byte)
    (todo : nat) :
  forall (out_file : FILE) (i : nat),
    extends out_file (snd (inquiry_result_with_rssi_loop out_file time data i todo)).
Proof.
  induction todo as [|todo IH]; intros out_file i;
    cbn [inquiry_result_with_rssi_loop]; [apply extends_refl|].
  pose proof (fputc_extends EVT_INQUIRY_RESULT_WITH_RSSI out_file) as Hput.
  destruct (fputc EVT_INQUIRY_RESULT_WITH_RSSI out_file) as [c f1].
  cbn [snd] in Hput.
  destruct (negb (EVT_INQUIRY_RESULT_WITH_RSSI =? c)); [exact Hput|].
  match goal with |- context [fwrite ?p f1] =>
    pose proof (fwrite_extends p f1) as Hwr; destruct (fwrite p f1) as [k f2] end.
  cbn [snd] in Hwr.
  destruct (negb (1 =? k)).
  - cbn [snd]. eapply extends_trans; eassumption.
  - eapply extends_trans; [exact Hput|]. eapply extends_trans; [exact Hwr|].
    apply IH.
Qed.

Lemma write_inquiry_complete_extends (out_file : FILE)
    (record : bluetrax_inquiry_complete_t) :
  extends out_file (snd (write_inquiry_complete out_file record)).
Proof.
  unfold write_inquiry_complete.
  pose proof (fputc_extends EVT_INQUIRY_COMPLETE out_file) as Hput.
  destruct (fputc EVT_INQUIRY_COMPLETE out_file) as [c f1]. cbn [snd] in Hput.
  destruct (negb (EVT_INQUIRY_COMPLETE =? c)); [exact Hput|].
  pose proof (fwrite_extends (inquiry_complete_bytes record) f1) as Hwr.
  destruct (fwrite (inquiry_complete_bytes record) f1) as [k f2].
  cbn [snd] in Hwr.
  destruct (negb (1 =? k)); cbn [snd]; eapply extends_trans; eassumption.
Qed.

Lemma dispatch_extends (bt_error : Z -> Z) (flush : Z) (out_file : FILE)
    (tstamp : timeval) (hdr : hci_event_hdr) (data : list byte) :
  extends out_file (snd (fst (dispatch bt_error flush out_file tstamp hdr data))).
Proof.
  unfold dispatch, handle_inquiry_result, handle_inquiry_result_with_rssi,
    handle_inquiry_complete.
  repeat match goal with
         | |- context [if ?c then _ else _] => destruct c
         end; cbn [fst snd];
    auto using extends_refl, inquiry_result_loop_extends,
      inquiry_result_with_rssi_loop_extends, write_inquiry_complete_extends.
Qed.

Lemma run_scan_loop_extends (bt_error : Z -> Z) (flush : Z)
    (events : list iteration) :
  forall (request_stop_scan : Z) (out_file : FILE),
    extends out_file
      (snd (run_scan_loop bt_error flush request_stop_scan out_file events)).
Proof.
  induction events as [|ev later IH]; intros stop out_file;
    cbn [run_scan_loop].
  - destruct (negb (stop =? 0)); apply extends_refl.
  - destruct (negb (stop =? 0)); [apply extends_refl|].
    destruct (deliver (sel_signals ev) stop) as [stop'|]; [|apply extends_refl].
    destruct ((sel_rc ev <? 0) && negb (sel_errno ev =? EINTR));
      [apply extends_refl|].
    destruct (sel_rc ev =? 0); [apply extends_refl|].
    destruct (sel_rc ev >? 0); [|apply IH].
    destruct (sel_recv ev) as [errno|buf control].
    { destruct (negb (errno =? EINTR)); [apply extends_refl | apply IH]. }
    destruct (Z.of_nat (List.length buf) >? HCI_EVENT_HDR_SIZE); [|apply IH].
    destruct (u8 (byte_at buf 0) =? HCI_EVENT_PKT); [|apply IH].
    destruct (Z.of_nat (List.length buf) =? _); [|apply IH].
    pose proof (dispatch_extends bt_error flush out_file (message_tstamp control)
                  (mk_hdr (byte_at buf 1) (byte_at buf 2)) (skipn 3 buf)) as Hd.
    destruct (dispatch _ _ _ _ _ _) as [[rc f] fl]. cbn [fst snd] in Hd.
    destruct (negb (rc =? EXIT_SUCCESS)); [exact Hd|].
    destruct (negb (fl =? 0)).
    + eapply extends_trans; [exact Hd|].
      eapply extends_trans; [apply fflush_extends | apply IH].
    + eapply extends_trans; [exact Hd | apply IH].
Qed.

(** X1.  Whatever the events, the options and the environment, what the
    sink held before [run_scan], and before [main], is still there, in
    place, when they are done: bytes are only added after it, as many as
    the room of the sink has shrunk by. *)
Theorem log_is_append_only :
  forall (bt_error : Z -> Z) (scan_length flush : Z) (out_file : FILE)
         (events : list iteration) (env : process_env),
    extends out_file (snd (run_scan bt_error flush out_file events))
    /\ extends out_file (snd (Scan.main bt_error scan_length flush out_file env)).
Proof.
  intros bt_error scan_length flush out_file events env. split.
  - apply run_scan_loop_extends.
  - unfold Scan.main.
    destruct (negb (env_setup_signals env)); [apply extends_refl|].
    destruct (env_hci_get_route env <? 0); [apply extends_refl|].
    destruct (env_hci_open_dev env <? 0); [apply extends_refl|].
    destruct (fst (start_scan (env_device env) scan_length) =? EXIT_SUCCESS);
      [|apply extends_refl].
    pose proof (write_inquiry_complete_extends out_file
                  (mk_complete (env_gettimeofday env))) as Hw.
    destruct (write_inquiry_complete out_file _) as [rc f1]. cbn [snd] in Hw.
    destruct (rc =? EXIT_SUCCESS); [|exact Hw].
    eapply extends_trans; [exact Hw | apply run_scan_loop_extends].
Qed.

(** ** Stop requests *)

Lemma run_scan_loop_stopped (bt_error : Z -> Z) (flush stop : Z) (out_file : FILE)
    (events : list iteration) :
  stop <> 0 ->
  run_scan_loop bt_error flush stop out_file events
  = (Returned EXIT_SUCCESS, out_file).
Proof.
  intros Hstop. destruct events; cbn [run_scan_loop];
    destruct (Z.eqb_spec stop 0); (contradiction || reflexivity).
Qed.

(** X2.  A single stop signal that interrupts the wait ends the run: the
    loop is left before any later event is looked at, [run_scan] returns
    [EXIT_SUCCESS], and the sink is as it was.  Two or more stop signals
    handled in one wait end the process inside the second handler, with
    exit code [EXIT_FAILURE], whatever [pselect] and [recvmsg] would have
    reported; no message is processed in that turn. *)
Theorem stop_requests :
  forall (bt_error : Z -> Z) (flush : Z) (out_file : FILE)
         (recv : recvmsg_result) (later : list iteration),
    (forall signo : Z,
        run_scan_loop bt_error flush 0 out_file
          (mk_iteration [signo] (-1) EINTR recv :: later)
        = (Returned EXIT_SUCCESS, out_file))
    /\ (forall (first second : Z) (more : list Z) (rc errno : Z),
           run_scan_loop bt_error flush 0 out_file
             (mk_iteration (first :: second :: more) rc errno recv :: later)
           = (Exited EXIT_FAILURE, out_file)).
Proof.
  intros bt_error flush out_file recv later. split.
  - intros signo.
    cbn [run_scan_loop Z.eqb negb sel_signals deliver handle_signal sel_rc
         sel_errno Z.ltb Z.gtb Z.compare andb EINTR Pos.eqb].
    now apply run_scan_loop_stopped.
  - intros first second more rc errno. reflexivity.
Qed.

(** ** Waits and reads that end the run, and input that is passed over *)

(** X3.  When no stop signal or just one was handled in the wait, a wait
    that times out, a wait that fails for another reason than an
    interruption, and a read that fails for another reason than an
    interruption each make [run_scan] return [EXIT_FAILURE] at once, with
    the sink as it was. *)
Theorem failed_wait_ends_run :
  forall (bt_error : Z -> Z) (flush : Z) (out_file : FILE) (ev : iteration)
         (later : list iteration),
    (List.length (sel_signals ev) <= 1)%nat ->
    sel_rc ev = 0
    \/ (sel_rc ev < 0 /\ sel_errno ev <> EINTR)
    \/ (0 < sel_rc ev /\ exists errno, sel_recv ev = RecvError errno /\ errno <> EINTR) ->
    run_scan_loop bt_error flush 0 out_file (ev :: later)
    = (Returned EXIT_FAILURE, out_file).
Proof.
  intros bt_error flush out_file ev later Hsig Hcase.
  cbn [run_scan_loop Z.eqb negb].
  assert (Hd : exists stop, deliver (sel_signals ev) 0 = Some stop).
  { destruct (sel_signals ev) as [|s [|s' l]]; cbn in *; eauto; lia. }
  destruct Hd as [stop ->].
  destruct Hcase as [Hz | [[Hneg Herr] | [Hpos (errno & Hrecv & Herr)]]].
  - rewrite Hz. reflexivity.
  - destruct (Z.ltb_spec (sel_rc ev) 0); [|lia].
    destruct (Z.eqb_spec (sel_errno ev) EINTR); [contradiction | reflexivity].
  - destruct (Z.ltb_spec (sel_rc ev) 0); [lia|]. cbn [andb].
    destruct (Z.eqb_spec (sel_rc ev) 0); [lia|].
    destruct (Z.gtb_spec (sel_rc ev) 0); [|lia].
    rewrite Hrecv. destruct (Z.eqb_spec errno EINTR); [contradiction | reflexivity].
Qed.

(** X4.  A read that does not hold exactly one HCI event packet (at most a
    header's worth of bytes, another packet type, or a byte count that
    differs from the declared payload length plus three) is passed over:
    the loop goes on with the next event, and the sink is as it was. *)
Theorem incomplete_read_is_skipped :
  forall (bt_error : Z -> Z) (flush : Z) (out_file : FILE) (buf : list byte)
         (control : list cmsghdr) (later : list iteration),
    ~ complete_event buf ->
    run_scan_loop bt_error flush 0 out_file (message_event buf control :: later)
    = run_scan_loop bt_error flush 0 out_file later.
Proof.
  intros bt_error flush out_file buf control later Hnot.
  unfold message_event.
  cbn [run_scan_loop Z.eqb negb sel_signals deliver sel_rc sel_errno sel_recv
       Z.ltb Z.gtb Z.compare andb].
  destruct (Z.gtb_spec (Z.of_nat (List.length buf)) HCI_EVENT_HDR_SIZE) as [Hlen|];
    [|reflexivity].
  destruct (Z.eqb_spec (u8 (byte_at buf 0)) HCI_EVENT_PKT) as [Htype|];
    [|reflexivity].
  cbn [plen].
  destruct (Z.eqb_spec (Z.of_nat (List.length buf))
              (1 + HCI_EVENT_HDR_SIZE + u8 (byte_at buf 2))) as [Hall|];
    [|reflexivity].
  exfalso. apply Hnot. repeat split; assumption.
Qed.

(** X5.  A complete event packet whose event code is none of the three the
    scanner handles writes nothing and does not end the run: the loop goes
    on, with the sink flushed when [flush] is non-zero and untouched when it
    is zero.  That is the sink the run has when it waits for the next event,
    and the sink [run_scan] returns when a stop signal comes next. *)
Theorem unknown_event_is_skipped :
  forall (bt_error : Z -> Z) (flush : Z) (out_file : FILE)
         (control : list cmsghdr) (evt plen : byte) (payload : list byte)
         (later : list iteration),
    Z.of_nat (List.length payload) = u8 plen ->
    u8 evt <> EVT_INQUIRY_RESULT ->
    u8 evt <> EVT_INQUIRY_RESULT_WITH_RSSI ->
    u8 evt <> EVT_INQUIRY_COMPLETE ->
    let message := message_event (hci_event evt plen payload) control in
    let sink := if flush =? 0 then out_file else fflush out_file in
    run_scan_loop bt_error flush 0 out_file (message :: later)
    = run_scan_loop bt_error flush 0 sink later
    /\ run_scan bt_error flush out_file [message] = (Waiting, sink)
    /\ (forall (signo : Z) (recv : recvmsg_result),
           run_scan bt_error flush out_file
             (message :: mk_iteration [signo] (-1) EINTR recv :: later)
           = (Returned EXIT_SUCCESS, sink))
    /\ f_data sink = f_data out_file
    /\ f_flushes sink
       = if flush =? 0 then f_flushes out_file else S (f_flushes out_file).
Proof.
  intros bt_error flush out_file control evt plen payload later Hlen H1 H2 H3
         message sink.
  assert (Hg : forall l : list iteration,
             run_scan_loop bt_error flush 0 out_file (message :: l)
             = run_scan_loop bt_error flush 0 sink l).
  { intros l. unfold message, sink. rewrite run_scan_loop_message by assumption.
    unfold dispatch. cbn [Bluez.evt].
    destruct (Z.eqb_spec (u8 evt) EVT_INQUIRY_RESULT); [contradiction|].
    destruct (Z.eqb_spec (u8 evt) EVT_INQUIRY_RESULT_WITH_RSSI); [contradiction|].
    destruct (Z.eqb_spec (u8 evt) EVT_INQUIRY_COMPLETE); [contradiction|].
    cbn [Z.eqb EXIT_SUCCESS negb]. now destruct (flush =? 0). }
  split; [apply Hg|]. split; [unfold run_scan; now rewrite Hg|].
  split; [intros signo recv; unfold run_scan; rewrite Hg;
          apply run_scan_loop_stop_signal|].
  unfold sink. now destruct (flush =? 0).
Qed.

(** ** Starting a session *)

Lemma start_scan_status (dev : hci_device) (scan_length : Z) :
  fst (start_scan dev scan_length) = EXIT_SUCCESS
  \/ fst (start_scan dev scan_length) = EXIT_FAILURE.
Proof.
  unfold start_scan.
  destruct (setsockopt_tstamp_rc dev <? 0); [now right|].
  destruct (setsockopt_filter_rc dev <? 0); [now right|].
  destruct (send_periodic_inquiry_rc dev <? 0); [now right | now left].
Qed.

(** X6.  [start_scan] succeeds exactly when the two [setsockopt] calls and
    the periodic-inquiry command all succeed; the command is not sent
    unless both options were accepted.  Whatever [scan_length] is, also
    outside the range the option loop accepts, the block that is sent asks
    for an unlimited number of responses on the general inquiry access code
    [0x9e8b33], has as length the low eight bits of [scan_length], and has
    [min_period = length + 1] and [max_period = length + 2], so that
    [max_period > min_period > length] with no wrap-around. *)
Theorem start_scan_command :
  forall (dev : hci_device) (scan_length : Z),
    (fst (start_scan dev scan_length) = EXIT_SUCCESS
     <-> 0 <= setsockopt_tstamp_rc dev
         /\ 0 <= setsockopt_filter_rc dev
         /\ 0 <= send_periodic_inquiry_rc dev)
    /\ (snd (start_scan dev scan_length) <> None
        <-> 0 <= setsockopt_tstamp_rc dev /\ 0 <= setsockopt_filter_rc dev)
    /\ (forall info : periodic_inquiry_cp,
           snd (start_scan dev scan_length) = Some info ->
           pi_num_rsp info = 0
           /\ pi_lap info = (x33, x8b, x9e)
           /\ pi_length info = scan_length mod 256
           /\ pi_min_period info = pi_length info + 1
           /\ pi_max_period info = pi_length info + 2
           /\ pi_max_period info > pi_min_period info
           /\ pi_min_period info > pi_length info).
Proof.
  intros dev scan_length. unfold start_scan.
  pose proof (Z.mod_pos_bound scan_length (2 ^ 8) ltac:(lia)) as Hlen.
  assert (Hmin : (scan_length mod 2 ^ 8 + 1) mod 2 ^ 16 = scan_length mod 2 ^ 8 + 1)
    by (apply Z.mod_small; lia).
  destruct (Z.ltb_spec (setsockopt_tstamp_rc dev) 0);
    [cbn; repeat split; try lia; try discriminate; intuition congruence|].
  destruct (Z.ltb_spec (setsockopt_filter_rc dev) 0);
    [cbn; repeat split; try lia; try discriminate; intuition congruence|].
  rewrite Hmin.
  assert (Hmax : (scan_length mod 2 ^ 8 + 1 + 1) mod 2 ^ 16
                 = scan_length mod 2 ^ 8 + 2) by (rewrite Z.mod_small; lia).
  rewrite Hmax.
  destruct (Z.ltb_spec (send_periodic_inquiry_rc dev) 0); cbn [fst snd];
    (split; [split; [intros H'; (discriminate H' || lia) | intros; (lia || reflexivity)]|]);
    (split; [split; [intros _; lia | intros _; discriminate]|]);
    intros info Hinfo; injection Hinfo as <-; cbn;
    change (2 ^ 8) with 256 in *; repeat split; lia.
Qed.

(** X7.  [main] ends with exit code [EXIT_FAILURE], without writing
    anything to the sink and without looking at any event, when the signal
    set-up fails, when no Bluetooth device is found, when the device cannot
    be opened, or when [start_scan] fails. *)
Theorem main_configuration_failure :
  forall (bt_error : Z -> Z) (scan_length flush : Z) (out_file : FILE)
         (env : process_env),
    env_setup_signals env = false
    \/ env_hci_get_route env < 0
    \/ env_hci_open_dev env < 0
    \/ fst (start_scan (env_device env) scan_length) <> EXIT_SUCCESS ->
    Scan.main bt_error scan_length flush out_file env
    = (Returned EXIT_FAILURE, out_file).
Proof.
  intros bt_error scan_length flush out_file env Hfail. unfold Scan.main.
  destruct (env_setup_signals env); cbn [negb]; [|reflexivity].
  destruct (Z.ltb_spec (env_hci_get_route env) 0); [reflexivity|].
  destruct (Z.ltb_spec (env_hci_open_dev env) 0); [reflexivity|].
  destruct Hfail as [Hf | [Hf | [Hf | Hf]]]; try discriminate; try lia.
  destruct (start_scan_status (env_device env) scan_length) as [Hs | Hs];
    [contradiction|].
  rewrite Hs. reflexivity.
Qed.

(** Bytes that fit the buffer are accepted whatever room the device has. *)
Lemma accepted_nil (f : FILE) : accepted f [] = f.
Proof.
  unfold accepted. rewrite firstn_nil, app_nil_r. cbn [List.length].
  rewrite Nat.sub_0_r, Nat.add_0_r. now destruct f.
Qed.

Lemma accepted_app (f : FILE) (p q : list byte) :
  accepted (accepted f p) q = accepted f (p ++ q).
Proof.
  unfold accepted. cbn [f_data f_room f_synced f_flushes f_held f_bufsiz].
  rewrite firstn_app, <- app_assoc, length_app. f_equal; lia.
Qed.

Lemma accepted_appended (f : FILE) (p : list byte) :
  (List.length p <= f_room f)%nat -> accepted f p = appended f p.
Proof.
  intros Hroom. unfold accepted, appended.
  rewrite firstn_all2 by assumption.
  replace (List.length p - f_room f)%nat with 0%nat by lia.
  now rewrite Nat.add_0_r.
Qed.

Lemma pending_accepted (f : FILE) (p : list byte) :
  (pending (accepted f p) <= pending f + List.length p)%nat.
Proof.
  unfold pending, accepted. cbn [f_data f_synced f_held].
  rewrite length_app, length_firstn. lia.
Qed.

Lemma put_fits (b : byte) (f : FILE) :
  (pending f < f_bufsiz f)%nat -> put b f = Some (accepted f [b]).
Proof.
  intros Hfits. unfold put, accepted.
  destruct (f_room f) as [|room] eqn:Hroom.
  - assert (Hbuf : (buffered f < f_bufsiz f)%nat).
    { unfold buffered. destruct (pending f) as [|n]; [lia|].
      rewrite Nat.mod_small by lia. lia. }
    apply Nat.ltb_lt in Hbuf. rewrite Hbuf. cbn [orb firstn List.length Nat.sub].
    now rewrite app_nil_r, Nat.add_1_r.
  - cbn [firstn List.length Nat.sub].
    now rewrite firstn_nil, Nat.sub_0_r, Nat.add_0_r.
Qed.

Lemma put_bytes_fits (p : list byte) :
  forall f : FILE,
    (pending f + List.length p <= f_bufsiz f)%nat ->
    put_bytes p f = (List.length p, accepted f p).
Proof.
  induction p as [|b p IH]; intros f Hfits; cbn [put_bytes List.length] in *.
  - now rewrite accepted_nil.
  - rewrite put_fits by lia.
    pose proof (pending_accepted f [b]) as Hpending. cbn [List.length] in Hpending.
    rewrite IH by (cbn [accepted f_bufsiz]; lia).
    now rewrite accepted_app.
Qed.

(** The tag and the struct of one entry, written to a stream whose buffer
    has space for them. *)
Lemma emit_fits (tag : Z) (p : list byte) (f : FILE) :
  0 <= tag <= 255 -> (pending f + S (List.length p) <= f_bufsiz f)%nat ->
  fputc tag f = (tag, accepted f [byte_of_Z tag]) /\
  fwrite p (accepted f [byte_of_Z tag]) = (1, accepted f (byte_of_Z tag :: p)).
Proof.
  intros Htag Hfits.
  pose proof (pending_accepted f [byte_of_Z tag]) as Hpending.
  cbn [List.length] in Hpending. split.
  - unfold fputc. rewrite put_fits by lia.
    now rewrite u8_byte_of_Z, Z.mod_small by lia.
  - unfold fwrite. rewrite put_bytes_fits by (cbn [accepted f_bufsiz]; lia).
    now rewrite Nat.leb_refl, accepted_app.
Qed.

Lemma write_inquiry_complete_fits (out_file : FILE)
    (record : bluetrax_inquiry_complete_t) :
  (pending out_file + 17 <= f_bufsiz out_file)%nat ->
  write_inquiry_complete out_file record
  = (EXIT_SUCCESS, accepted out_file (encode (CycleComplete record))).
Proof.
  intros Hfits. unfold write_inquiry_complete.
  assert (Hsize : List.length (inquiry_complete_bytes record) = 16%nat)
    by apply timeval_bytes_length.
  destruct (emit_fits EVT_INQUIRY_COMPLETE (inquiry_complete_bytes record)
              out_file) as [Hputc Hwrite];
    [unfold EVT_INQUIRY_COMPLETE; lia | lia |].
  rewrite Hputc, Z.eqb_refl. cbn [negb]. rewrite Hwrite. reflexivity.
Qed.

(** X8.  Once the set-up and [start_scan] have succeeded, [main] first
    writes a cycle-complete entry that carries the wall-clock time of the
    start, and runs the loop on the sink that has accepted it.  When the
    device has room for the 17 bytes of the entry, the log of the run
    begins, after what the sink held, with that entry.  The entry goes
    through the buffer of the stream: when the buffer has space for it,
    [main] enters the loop whether the device has room for it or not, and
    on a device without any room the whole run adds nothing to the log. *)
Theorem main_writes_start_record :
  forall (bt_error : Z -> Z) (scan_length flush : Z) (out_file : FILE)
         (env : process_env),
    env_setup_signals env = true ->
    0 <= env_hci_get_route env ->
    0 <= env_hci_open_dev env ->
    fst (start_scan (env_device env) scan_length) = EXIT_SUCCESS ->
    let start := encode (CycleComplete (mk_complete (env_gettimeofday env))) in
    ((17 <= f_room out_file)%nat ->
     Scan.main bt_error scan_length flush out_file env
     = run_scan bt_error flush (appended out_file start) (env_events env)
     /\ exists more : list byte,
          f_data (snd (Scan.main bt_error scan_length flush out_file env))
          = (f_data out_file ++ start ++ more)%list)
    /\ ((pending out_file + 17 <= f_bufsiz out_file)%nat ->
        Scan.main bt_error scan_length flush out_file env
        = run_scan bt_error flush (accepted out_file start) (env_events env)
        /\ (f_room out_file = 0%nat ->
            f_data (snd (Scan.main bt_error scan_length flush out_file env))
            = f_data out_file)).
Proof.
  intros bt_error scan_length flush out_file env Hsig Hroute Hopen Hstart start.
  unfold Scan.main. rewrite Hsig. cbn [negb].
  destruct (Z.ltb_spec (env_hci_get_route env) 0); [lia|].
  destruct (Z.ltb_spec (env_hci_open_dev env) 0); [lia|].
  rewrite Hstart. cbn [Z.eqb EXIT_SUCCESS].
  split; intros Hroom.
  - rewrite write_inquiry_complete_accepted by assumption.
    cbn [Z.eqb EXIT_SUCCESS]. split; [reflexivity|].
    destruct (run_scan_loop_extends bt_error flush (env_events env) 0
                (appended out_file start)) as (more & Hdata & _).
    exists more. unfold run_scan. fold start. rewrite Hdata.
    cbn [appended f_data]. now rewrite <- app_assoc.
  - rewrite write_inquiry_complete_fits by assumption.
    cbn [Z.eqb EXIT_SUCCESS]. split; [reflexivity|]. intros Hfull.
    destruct (run_scan_loop_extends bt_error flush (env_events env) 0
                (accepted out_file start)) as (more & Hdata & Hleft).
    unfold run_scan. fold start. rewrite Hdata.
    cbn [accepted f_data f_room] in *. rewrite Hfull in *.
    destruct more; [|cbn [List.length] in Hleft; lia].
    cbn [firstn]. now rewrite !app_nil_r.
Qed.

(** ** The timestamp of a message *)

(** X9.  The timestamp given to the records of a message is the one of the
    last control message of type [HCI_CMSG_TSTAMP] that came with it; when
    none came, it is zero seconds and zero microseconds. *)
Theorem message_tstamp_last_wins :
  forall (before after : list cmsghdr) (stamp : cmsghdr),
    (forall c, In c after -> cmsg_type c <> HCI_CMSG_TSTAMP) ->
    (cmsg_type stamp = HCI_CMSG_TSTAMP ->
     message_tstamp (before ++ stamp :: after) = cmsg_data stamp)
    /\ message_tstamp after = mk_timeval 0 0.
Proof.
  intros before after stamp Hafter.
  assert (Hkeep : forall t, fold_left
                    (fun tstamp cmsg =>
                       if cmsg_type cmsg =? HCI_CMSG_TSTAMP
                       then cmsg_data cmsg else tstamp) after t = t).
  { induction after as [|c after IH]; intros t; cbn [fold_left]; [reflexivity|].
    destruct (Z.eqb_spec (cmsg_type c) HCI_CMSG_TSTAMP) as [Hc|_].
    - exfalso. apply (Hafter c); [now left | exact Hc].
    - apply IH. intros c' Hin. apply Hafter. now right. }
  split.
  - intros Hstamp. unfold message_tstamp.
    rewrite fold_left_app. cbn [fold_left]. rewrite Hstamp, Z.eqb_refl.
    apply Hkeep.
  - apply Hkeep.
Qed.

(** ** When the handlers succeed *)

Lemma whole_records_app (a b : list byte) :
  whole_records a -> whole_records b -> whole_records (a ++ b).
Proof.
  intros Ha Hb. induction Ha as [|tag n body more Htag Hbody Hmore IH];
    [exact Hb|].
  cbn [app]. rewrite <- app_assoc. now apply (whole_cons tag n).
Qed.

Lemma whole_records_entry (tag : Z) (n : nat) (body : list byte) :
  record_size (byte_of_Z tag) = Some n -> List.length body = n ->
  whole_records (byte_of_Z tag :: body).
Proof.
  intros Htag Hbody. rewrite <- (app_nil_r body).
  apply (whole_cons _ n); [assumption | assumption | constructor].
Qed.

Lemma inquiry_result_bytes_length (r : bluetrax_inquiry_result_t) :
  List.length (inquiry_result_bytes r) = 25%nat.
Proof.
  unfold inquiry_result_bytes. rewrite !length_app, timeval_bytes_length.
  reflexivity.
Qed.

Lemma inquiry_result_with_rssi_bytes_length (r : bluetrax_inquiry_result_with_rssi_t) :
  List.length (inquiry_result_with_rssi_bytes r) = 26%nat.
Proof.
  unfold inquiry_result_with_rssi_bytes.
  rewrite !length_app, timeval_bytes_length. reflexivity.
Qed.

(** With room for all of them, the loop writes [todo] whole entries. *)
Lemma inquiry_result_loop_room (time : timeval) (data : list byte) (todo : nat) :
  forall (out_file : FILE) (i : nat),
    (26 * todo <= f_room out_file)%nat ->
    exists p : list byte,
      whole_records p /\ List.length p = (26 * todo)%nat
      /\ inquiry_result_loop out_file time data i todo
         = (EXIT_SUCCESS, appended out_file p).
Proof.
  induction todo as [|todo IH]; intros out_file i Hroom.
  - exists []. cbn. rewrite appended_nil. repeat split. constructor.
  - cbn [inquiry_result_loop].
    set (r := mk_result time _ _).
    pose proof (inquiry_result_bytes_length r) as Hsize.
    destruct (emit_accepted EVT_INQUIRY_RESULT (inquiry_result_bytes r) out_file)
      as [Hputc Hwrite]; [unfold EVT_INQUIRY_RESULT; lia | lia |].
    rewrite Hputc, Z.eqb_refl. cbn [negb]. rewrite Hwrite.
    change (negb (1 =? 1)) with false. cbv iota.
    destruct (IH (appended out_file (byte_of_Z EVT_INQUIRY_RESULT
                                       :: inquiry_result_bytes r)) (S i))
      as (p & Hp & Hlen & ->).
    { unfold appended. cbn [f_room List.length]. rewrite Hsize. lia. }
    exists ((byte_of_Z EVT_INQUIRY_RESULT :: inquiry_result_bytes r) ++ p)%list.
    split; [|split].
    + apply whole_records_app; [|exact Hp].
      now apply (whole_records_entry EVT_INQUIRY_RESULT 25).
    + rewrite length_app. cbn [List.length]. rewrite Hsize, Hlen. lia.
    + now rewrite appended_app.
Qed.

Lemma inquiry_result_with_rssi_loop_room (time : timeval) (data : list byte)
    (todo : nat) :
  forall (out_file : FILE) (i : nat),
    (27 * todo <= f_room out_file)%nat ->
    exists p : list byte,
      whole_records p /\ List.length p = (27 * todo)%nat
      /\ inquiry_result_with_rssi_loop out_file time data i todo
         = (EXIT_SUCCESS, appended out_file p).
Proof.
  induction todo as [|todo IH]; intros out_file i Hroom.
  - exists []. cbn. rewrite appended_nil. repeat split. constructor.
  - cbn [inquiry_result_with_rssi_loop].
    set (r := mk_result_with_rssi time _ _ _).
    pose proof (inquiry_result_with_rssi_bytes_length r) as Hsize.
    destruct (emit_accepted EVT_INQUIRY_RESULT_WITH_RSSI
                (inquiry_result_with_rssi_bytes r) out_file)
      as [Hputc Hwrite]; [unfold EVT_INQUIRY_RESULT_WITH_RSSI; lia | lia |].
    rewrite Hputc, Z.eqb_refl. cbn [negb]. rewrite Hwrite.
    change (negb (1 =? 1)) with false. cbv iota.
    destruct (IH (appended out_file (byte_of_Z EVT_INQUIRY_RESULT_WITH_RSSI
                                       :: inquiry_result_with_rssi_bytes r)) (S i))
      as (p & Hp & Hlen & ->).
    { unfold appended. cbn [f_room List.length]. rewrite Hsize. lia. }
    exists ((byte_of_Z EVT_INQUIRY_RESULT_WITH_RSSI
               :: inquiry_result_with_rssi_bytes r) ++ p)%list.
    split; [|split].
    + apply whole_records_app; [|exact Hp].
      now apply (whole_records_entry EVT_INQUIRY_RESULT_WITH_RSSI 26).
    + rewrite length_app. cbn [List.length]. rewrite Hsize, Hlen. lia.
    + now rewrite appended_app.
Qed.

(** With space in the buffer for all of them, the loop is through with its
    [todo] entries whatever room the device has. *)
Lemma inquiry_result_loop_fits (time : timeval) (data : list byte) (todo : nat) :
  forall (out_file : FILE) (i : nat),
    (pending out_file + 26 * todo <= f_bufsiz out_file)%nat ->
    exists p : list byte,
      List.length p = (26 * todo)%nat
      /\ inquiry_result_loop out_file time data i todo
         = (EXIT_SUCCESS, accepted out_file p).
Proof.
  induction todo as [|todo IH]; intros out_file i Hfits.
  - exists []. cbn. now rewrite accepted_nil.
  - cbn [inquiry_result_loop].
    set (r := mk_result time _ _).
    pose proof (inquiry_result_bytes_length r) as Hsize.
    destruct (emit_fits EVT_INQUIRY_RESULT (inquiry_result_bytes r) out_file)
      as [Hputc Hwrite]; [unfold EVT_INQUIRY_RESULT; lia | lia |].
    rewrite Hputc, Z.eqb_refl. cbn [negb]. rewrite Hwrite.
    change (negb (1 =? 1)) with false. cbv iota.
    pose proof (pending_accepted out_file
                  (byte_of_Z EVT_INQUIRY_RESULT :: inquiry_result_bytes r))
      as Hpending.
    cbn [List.length] in Hpending. rewrite Hsize in Hpending.
    destruct (IH (accepted out_file (byte_of_Z EVT_INQUIRY_RESULT
                                       :: inquiry_result_bytes r)) (S i))
      as (p & Hlen & ->); [cbn [accepted f_bufsiz]; lia|].
    exists ((byte_of_Z EVT_INQUIRY_RESULT :: inquiry_result_bytes r) ++ p)%list.
    split.
    + rewrite length_app. cbn [List.length]. rewrite Hsize, Hlen. lia.
    + now rewrite accepted_app.
Qed.

Lemma inquiry_result_with_rssi_loop_fits (time : timeval) (data : list byte)
    (todo : nat) :
  forall (out_file : FILE) (i : nat),
    (pending out_file + 27 * todo <= f_bufsiz out_file)%nat ->
    exists p : list byte,
      List.length p = (27 * todo)%nat
      /\ inquiry_result_with_rssi_loop out_file time data i todo
         = (EXIT_SUCCESS, accepted out_file p).
Proof.
  induction todo as [|todo IH]; intros out_file i Hfits.
  - exists []. cbn. now rewrite accepted_nil.
  - cbn [inquiry_result_with_rssi_loop].
    set (r := mk_result_with_rssi time _ _ _).
    pose proof (inquiry_result_with_rssi_bytes_length r) as Hsize.
    destruct (emit_fits EVT_INQUIRY_RESULT_WITH_RSSI
                (inquiry_result_with_rssi_bytes r) out_file)
      as [Hputc Hwrite]; [unfold EVT_INQUIRY_RESULT_WITH_RSSI; lia | lia |].
    rewrite Hputc, Z.eqb_refl. cbn [negb]. rewrite Hwrite.
    change (negb (1 =? 1)) with false. cbv iota.
    pose proof (pending_accepted out_file
                  (byte_of_Z EVT_INQUIRY_RESULT_WITH_RSSI
                     :: inquiry_result_with_rssi_bytes r)) as Hpending.
    cbn [List.length] in Hpending. rewrite Hsize in Hpending.
    destruct (IH (accepted out_file (byte_of_Z EVT_INQUIRY_RESULT_WITH_RSSI
                                       :: inquiry_result_with_rssi_bytes r)) (S i))
      as (p & Hlen & ->); [cbn [accepted f_bufsiz]; lia|].
    exists ((byte_of_Z EVT_INQUIRY_RESULT_WITH_RSSI
               :: inquiry_result_with_rssi_bytes r) ++ p)%list.
    split.
    + rewrite length_app. cbn [List.length]. rewrite Hsize, Hlen. lia.
    + now rewrite accepted_app.
Qed.

(** The loops end with one of the two statuses. *)
Lemma inquiry_result_loop_status (time : timeval) (data : list byte) (todo : nat) :
  forall (out_file : FILE) (i : nat),
    fst (inquiry_result_loop out_file time data i todo) = EXIT_SUCCESS
    \/ fst (inquiry_result_loop out_file time data i todo) = EXIT_FAILURE.
Proof.
  induction todo as [|todo IH]; intros out_file i; cbn [inquiry_result_loop];
    [now left|].
  destruct (fputc EVT_INQUIRY_RESULT out_file) as [c f1].
  destruct (negb (EVT_INQUIRY_RESULT =? c)); [now right|].
  destruct (fwrite _ f1) as [k f2].
  destruct (negb (1 =? k)); [now right | apply IH].
Qed.

Lemma inquiry_result_with_rssi_loop_status (time : timeval) (data : list byte)
    (todo : nat) :
  forall (out_file : FILE) (i : nat),
    fst (inquiry_result_with_rssi_loop out_file time data i todo) = EXIT_SUCCESS
    \/ fst (inquiry_result_with_rssi_loop out_file time data i todo) = EXIT_FAILURE.
Proof.
  induction todo as [|todo IH]; intros out_file i;
    cbn [inquiry_result_with_rssi_loop]; [now left|].
  destruct (fputc EVT_INQUIRY_RESULT_WITH_RSSI out_file) as [c f1].
  destruct (negb (EVT_INQUIRY_RESULT_WITH_RSSI =? c)); [now right|].
  destruct (fwrite _ f1) as [k f2].
  destruct (negb (1 =? k)); [now right | apply IH].
Qed.

(** X10.  Each handler returns [EXIT_SUCCESS] or [EXIT_FAILURE], and it
    returns [EXIT_SUCCESS] only when the declared payload length is the
    right one: [count * 14 + 1] for the two kinds of discovery result, the
    count being the first payload byte, and 1, with a first byte that
    [bt_error] maps to 0, for cycle-complete.  With the right length it does
    return [EXIT_SUCCESS] as soon as the device has room for what the
    message makes it write (26 bytes per item, 27 with signal strength, 17
    for cycle-complete), and also, whatever room the device has, as soon as
    the buffer of the stream has space for it: the handler does not see
    that the bytes beyond the first [f_room] never reach the log. *)
Theorem handler_success :
  forall (bt_error : Z -> Z) (out_file : FILE) (time : timeval)
         (hdr : hci_event_hdr) (data : list byte),
    let count := u8 (byte_at data 0) in
    let n := Z.to_nat count in
    (fst (handle_inquiry_result out_file time hdr data) = EXIT_SUCCESS ->
     u8 (plen hdr) = count * 14 + 1)
    /\ (fst (handle_inquiry_result_with_rssi out_file time hdr data) = EXIT_SUCCESS ->
        u8 (plen hdr) = count * 14 + 1)
    /\ (fst (handle_inquiry_complete bt_error out_file time hdr data) = EXIT_SUCCESS ->
        u8 (plen hdr) = 1 /\ bt_error count = 0)
    /\ (u8 (plen hdr) = count * 14 + 1 ->
        (26 * n <= f_room out_file)%nat
        \/ (pending out_file + 26 * n <= f_bufsiz out_file)%nat ->
        exists p : list byte,
          List.length p = (26 * n)%nat
          /\ handle_inquiry_result out_file time hdr data
             = (EXIT_SUCCESS, accepted out_file p))
    /\ (u8 (plen hdr) = count * 14 + 1 ->
        (27 * n <= f_room out_file)%nat
        \/ (pending out_file + 27 * n <= f_bufsiz out_file)%nat ->
        exists p : list byte,
          List.length p = (27 * n)%nat
          /\ handle_inquiry_result_with_rssi out_file time hdr data
             = (EXIT_SUCCESS, accepted out_file p))
    /\ (u8 (plen hdr) = 1 -> bt_error count = 0 ->
        (17 <= f_room out_file)%nat
        \/ (pending out_file + 17 <= f_bufsiz out_file)%nat ->
        handle_inquiry_complete bt_error out_file time hdr data
        = (EXIT_SUCCESS,
           accepted out_file (encode (CycleComplete (mk_complete time)))))
    /\ (fst (handle_inquiry_result out_file time hdr data) = EXIT_SUCCESS
        \/ fst (handle_inquiry_result out_file time hdr data) = EXIT_FAILURE)
    /\ (fst (handle_inquiry_result_with_rssi out_file time hdr data) = EXIT_SUCCESS
        \/ fst (handle_inquiry_result_with_rssi out_file time hdr data)
           = EXIT_FAILURE)
    /\ (fst (handle_inquiry_complete bt_error out_file time hdr data) = EXIT_SUCCESS
        \/ fst (handle_inquiry_complete bt_error out_file time hdr data)
           = EXIT_FAILURE).
Proof.
  intros bt_error out_file time hdr data count n.
  pose proof (u8_range (byte_at data 0)) as Hcount. fold count in Hcount.
  assert (Hne : EXIT_FAILURE <> EXIT_SUCCESS) by discriminate.
  assert (Hplain : u8 (plen hdr) = count * 14 + 1 ->
                   handle_inquiry_result out_file time hdr data
                   = inquiry_result_loop out_file time data 0 n).
  { intros Hplen. unfold handle_inquiry_result. fold count.
    destruct (Z.leb_spec (u8 (plen hdr)) 0); [lia|].
    rewrite size_t_small by (unfold sizeof_inquiry_info; lia).
    unfold sizeof_inquiry_info. now rewrite Hplen, Z.eqb_refl. }
  assert (Hsignal : u8 (plen hdr) = count * 14 + 1 ->
                    handle_inquiry_result_with_rssi out_file time hdr data
                    = inquiry_result_with_rssi_loop out_file time data 0 n).
  { intros Hplen. unfold handle_inquiry_result_with_rssi. fold count.
    destruct (Z.leb_spec (u8 (plen hdr)) 0); [lia|].
    rewrite size_t_small by (unfold sizeof_inquiry_info_with_rssi; lia).
    unfold sizeof_inquiry_info_with_rssi. now rewrite Hplen, Z.eqb_refl. }
  split; [|split; [|split; [|split; [|split; [|split; [|split; [|split]]]]]]].
  - intros Hok.
    destruct (Z.eq_dec (u8 (plen hdr)) (count * 14 + 1)) as [|Hbad];
      [assumption|].
    rewrite handle_inquiry_result_bad_plen in Hok by exact Hbad.
    now destruct Hne.
  - intros Hok.
    destruct (Z.eq_dec (u8 (plen hdr)) (count * 14 + 1)) as [|Hbad];
      [assumption|].
    rewrite handle_inquiry_result_with_rssi_bad_plen in Hok by exact Hbad.
    now destruct Hne.
  - unfold handle_inquiry_complete. fold count.
    destruct (Z.eqb_spec (u8 (plen hdr)) 1); cbn [negb fst];
      [|intros Hok; now destruct Hne].
    destruct (Z.eqb_spec (bt_error count) 0); cbn [negb fst];
      [|intros Hok; now destruct Hne].
    now split.
  - intros Hplen Hspace. rewrite (Hplain Hplen).
    destruct Hspace as [Hroom|Hfits].
    + destruct (inquiry_result_loop_room time data n out_file 0 Hroom)
        as (p & _ & Hlen & ->).
      exists p. split; [exact Hlen|]. now rewrite accepted_appended by lia.
    + now apply inquiry_result_loop_fits.
  - intros Hplen Hspace. rewrite (Hsignal Hplen).
    destruct Hspace as [Hroom|Hfits].
    + destruct (inquiry_result_with_rssi_loop_room time data n out_file 0 Hroom)
        as (p & _ & Hlen & ->).
      exists p. split; [exact Hlen|]. now rewrite accepted_appended by lia.
    + now apply inquiry_result_with_rssi_loop_fits.
  - intros Hplen Herr Hspace. unfold handle_inquiry_complete. fold count.
    rewrite Hplen, Herr. cbn [Z.eqb Pos.eqb negb].
    destruct Hspace as [Hroom|Hfits].
    + rewrite write_inquiry_complete_accepted by assumption.
      rewrite accepted_appended; [reflexivity|].
      cbn [encode List.length]. unfold inquiry_complete_bytes.
      rewrite timeval_bytes_length. exact Hroom.
    + now apply write_inquiry_complete_fits.
  - unfold handle_inquiry_result.
    destruct (u8 (plen hdr) <=? 0); [now right|].
    destruct (negb _); [now right|]. apply inquiry_result_loop_status.
  - unfold handle_inquiry_result_with_rssi.
    destruct (u8 (plen hdr) <=? 0); [now right|].
    destruct (negb _); [now right|]. apply inquiry_result_with_rssi_loop_status.
  - unfold handle_inquiry_complete.
    destruct (negb (u8 (plen hdr) =? 1)); [now right|].
    destruct (negb _); [now right|].
    unfold write_inquiry_complete.
    destruct (fputc EVT_INQUIRY_COMPLETE out_file) as [c f1].
    destruct (negb (EVT_INQUIRY_COMPLETE =? c)); [now right|].
    destruct (fwrite _ f1) as [k f2].
    destruct (negb (1 =? k)); [now right | now left].
Qed.

(** ** The log is made of whole entries *)

Lemma dispatch_whole (bt_error : Z -> Z) (flush : Z) (out_file : FILE)
    (tstamp : timeval) (hdr : hci_event_hdr) (data : list byte) :
  (486 <= f_room out_file)%nat ->
  exists p : list byte,
    whole_records p /\ (List.length p <= 486)%nat
    /\ snd (fst (dispatch bt_error flush out_file tstamp hdr data))
       = appended out_file p.
Proof.
  intros Hroom.
  assert (Hnone : exists p : list byte,
             whole_records p /\ (List.length p <= 486)%nat
             /\ out_file = appended out_file p).
  { exists []. rewrite appended_nil. repeat split; [constructor | cbn; lia]. }
  pose proof (u8_range (byte_at data 0)) as Hcount.
  pose proof (u8_range (plen hdr)) as Hplen.
  unfold dispatch.
  destruct (u8 (evt hdr) =? EVT_INQUIRY_RESULT); cbn [fst snd].
  { unfold handle_inquiry_result.
    destruct (u8 (plen hdr) <=? 0); [exact Hnone|].
    rewrite size_t_small by (unfold sizeof_inquiry_info; lia).
    destruct (Z.eqb_spec (u8 (plen hdr))
                (u8 (byte_at data 0) * sizeof_inquiry_info + 1)) as [He|];
      [|exact Hnone].
    unfold sizeof_inquiry_info in He. cbn [negb].
    destruct (inquiry_result_loop_room tstamp data
                (Z.to_nat (u8 (byte_at data 0))) out_file 0)
      as (p & Hp & Hlen & ->); [lia|].
    exists p. repeat split; [exact Hp | lia]. }
  destruct (u8 (evt hdr) =? EVT_INQUIRY_RESULT_WITH_RSSI); cbn [fst snd].
  { unfold handle_inquiry_result_with_rssi.
    destruct (u8 (plen hdr) <=? 0); [exact Hnone|].
    rewrite size_t_small by (unfold sizeof_inquiry_info_with_rssi; lia).
    destruct (Z.eqb_spec (u8 (plen hdr))
                (u8 (byte_at data 0) * sizeof_inquiry_info_with_rssi + 1))
      as [He|]; [|exact Hnone].
    unfold sizeof_inquiry_info_with_rssi in He. cbn [negb].
    destruct (inquiry_result_with_rssi_loop_room tstamp data
                (Z.to_nat (u8 (byte_at data 0))) out_file 0)
      as (p & Hp & Hlen & ->); [lia|].
    exists p. repeat split; [exact Hp | lia]. }
  destruct (u8 (evt hdr) =? EVT_INQUIRY_COMPLETE); cbn [fst snd];
    [|exact Hnone].
  unfold handle_inquiry_complete.
  destruct (negb (u8 (plen hdr) =? 1)); [exact Hnone|].
  destruct (negb (bt_error (u8 (byte_at data 0)) =? 0)); [exact Hnone|].
  rewrite write_inquiry_complete_accepted by lia. cbn [snd].
  eexists. repeat split.
  - now apply (whole_records_entry EVT_INQUIRY_COMPLETE 16), timeval_bytes_length.
  - cbn [encode List.length]. unfold inquiry_complete_bytes.
    rewrite timeval_bytes_length. lia.
Qed.

Lemma run_scan_loop_whole (bt_error : Z -> Z) (flush : Z)
    (events : list iteration) :
  forall (request_stop_scan : Z) (out_file : FILE),
    whole_records (f_data out_file) ->
    (486 * List.length events <= f_room out_file)%nat ->
    whole_records
      (f_data (snd (run_scan_loop bt_error flush request_stop_scan out_file events))).
Proof.
  induction events as [|ev later IH]; intros stop out_file Hwhole Hroom;
    cbn [run_scan_loop].
  - now destruct (negb (stop =? 0)).
  - cbn [List.length] in Hroom.
    assert (Hlater : (486 * List.length later <= f_room out_file)%nat) by lia.
    destruct (negb (stop =? 0)); [exact Hwhole|].
    destruct (deliver (sel_signals ev) stop) as [stop'|]; [|exact Hwhole].
    destruct ((sel_rc ev <? 0) && negb (sel_errno ev =? EINTR)); [exact Hwhole|].
    destruct (sel_rc ev =? 0); [exact Hwhole|].
    destruct (sel_rc ev >? 0); [|now apply IH].
    destruct (sel_recv ev) as [errno|buf control].
    { destruct (negb (errno =? EINTR)); [exact Hwhole | now apply IH]. }
    destruct (Z.of_nat (List.length buf) >? HCI_EVENT_HDR_SIZE); [|now apply IH].
    destruct (u8 (byte_at buf 0) =? HCI_EVENT_PKT); [|now apply IH].
    destruct (Z.of_nat (List.length buf) =? _); [|now apply IH].
    destruct (dispatch_whole bt_error flush out_file (message_tstamp control)
                (mk_hdr (byte_at buf 1) (byte_at buf 2)) (skipn 3 buf))
      as (p & Hp & Hlen & Hd); [lia|].
    destruct (dispatch _ _ _ _ _ _) as [[rc f] fl]. cbn [fst snd] in Hd.
    subst f.
    assert (Hdata : whole_records (f_data (appended out_file p)))
      by (cbn [appended f_data]; now apply whole_records_app).
    destruct (negb (rc =? EXIT_SUCCESS)); [exact Hdata|].
    destruct (negb (fl =? 0)); apply IH; try exact Hdata;
      cbn [fflush appended f_room f_data]; lia.
Qed.

(** X11.  As long as the sink has room (17 bytes for the start entry and
    486 for each event, the most one message can make the scanner write),
    a log that was made of whole entries before [run_scan], or before
    [main], is made of whole entries afterwards, however the run ends:
    every tag written is followed by its full struct. *)
Theorem scanner_writes_whole_records :
  forall (bt_error : Z -> Z) (scan_length flush : Z) (out_file : FILE)
         (env : process_env),
    whole_records (f_data out_file) ->
    (17 + 486 * List.length (env_events env) <= f_room out_file)%nat ->
    whole_records
      (f_data (snd (run_scan bt_error flush out_file (env_events env))))
    /\ whole_records
         (f_data (snd (Scan.main bt_error scan_length flush out_file env))).
Proof.
  intros bt_error scan_length flush out_file env Hwhole Hroom. split.
  - apply run_scan_loop_whole; [exact Hwhole | lia].
  - unfold Scan.main.
    destruct (negb (env_setup_signals env)); [exact Hwhole|].
    destruct (env_hci_get_route env <? 0); [exact Hwhole|].
    destruct (env_hci_open_dev env <? 0); [exact Hwhole|].
    destruct (fst (start_scan (env_device env) scan_length) =? EXIT_SUCCESS);
      [|exact Hwhole].
    rewrite write_inquiry_complete_accepted by lia.
    cbn [Z.eqb EXIT_SUCCESS].
    apply run_scan_loop_whole.
    + cbn [appended f_data]. apply whole_records_app; [exact Hwhole|].
      now apply (whole_records_entry EVT_INQUIRY_COMPLETE 16), timeval_bytes_length.
    + cbn [appended f_room encode List.length]. unfold inquiry_complete_bytes.
      rewrite timeval_bytes_length. lia.
Qed.

(** * Further properties of the text decoder *)

Lemma decode_encode (e : record) (rest : list byte) :
  timeval_ok (record_time e) -> Unpack.decode (encode e ++ rest) = Some (e, rest).
Proof.
  destruct e as [r|r|r]; intros Hok; cbn [encode app Unpack.decode];
    rewrite u8_byte_of_Z.
  - change (EVT_INQUIRY_COMPLETE mod 256 =? EVT_INQUIRY_COMPLETE) with true.
    cbv iota. now rewrite fread_inquiry_complete_bytes.
  - change (EVT_INQUIRY_RESULT mod 256 =? EVT_INQUIRY_COMPLETE) with false.
    change (EVT_INQUIRY_RESULT mod 256 =? EVT_INQUIRY_RESULT) with true.
    cbv iota. now rewrite fread_inquiry_result_bytes.
  - change (EVT_INQUIRY_RESULT_WITH_RSSI mod 256 =? EVT_INQUIRY_COMPLETE)
      with false.
    change (EVT_INQUIRY_RESULT_WITH_RSSI mod 256 =? EVT_INQUIRY_RESULT)
      with false.
    change (EVT_INQUIRY_RESULT_WITH_RSSI mod 256 =? EVT_INQUIRY_RESULT_WITH_RSSI)
      with true.
    cbv iota. now rewrite fread_inquiry_result_with_rssi_bytes.
Qed.

Lemma encode_not_nil (e : record) : encode e <> [].
Proof.
  now destruct e.
Qed.

Section DecoderRuns.

Variable tm : Type.
Variable localtime : Z -> option tm.
Variable strftime_date_time : tm -> string.
Variable ba2str : bdaddr_t -> string.

Local Abbreviation loop :=
  (Unpack.binary_to_text_loop tm localtime strftime_date_time ba2str).
Local Abbreviation write_timeval :=
  (Unpack.write_timeval tm localtime strftime_date_time).

(** More turns than the file has bytes change nothing. *)
Lemma binary_to_text_loop_turns (t1 : nat) :
  forall (t2 : nat) (file : list byte) (out : string),
    (List.length file <= t1)%nat -> (List.length file <= t2)%nat ->
    loop t1 file out = loop t2 file out.
Proof.
  induction t1 as [|t1 IH]; intros t2 file out H1 H2.
  - destruct file; [now destruct t2 | cbn in H1; lia].
  - destruct file as [|tag rest]; [now destruct t2|].
    destruct t2 as [|t2]; [cbn in H2; lia|].
    rewrite !binary_to_text_loop_turn.
    destruct (Unpack.decode (tag :: rest)) as [[e rest']|] eqn:Hd; [|reflexivity].
    destruct (write_timeval (record_time e)); [|reflexivity].
    apply decode_consumes in Hd. cbn [List.length] in *. apply IH; lia.
Qed.

Lemma binary_to_text_loop_app (a b : list byte) :
  whole_records a ->
  forall (turns : nat) (out : string),
    (List.length (a ++ b) <= turns)%nat ->
    loop turns (a ++ b) out
    = match loop (List.length a) a out with
      | (out', Unpack.Done) => loop (List.length b) b out'
      | ended => ended
      end.
Proof.
  intros Ha. induction Ha as [|tag n body more Htag Hbody Hmore IH];
    intros turns out Hturns.
  - cbn [app List.length] in *.
    change (loop 0 [] out) with (out, Unpack.Done).
    now apply binary_to_text_loop_turns.
  - cbn [app List.length] in *. rewrite <- app_assoc in *.
    destruct turns as [|turns]; [lia|].
    destruct (decode_whole tag n body Htag Hbody) as [e He].
    rewrite !binary_to_text_loop_turn, !He.
    destruct (write_timeval (record_time e)) as [s|]; [|reflexivity].
    rewrite IH by (rewrite !length_app in *; lia).
    rewrite (binary_to_text_loop_turns (List.length (body ++ more))
               (List.length more) more);
      [reflexivity | rewrite length_app; lia | lia].
Qed.

(** Decoding whole entries followed by anything else is decoding the whole
    entries and then going on with what follows. *)
Lemma binary_to_text_after_whole_records (a b : list byte) :
  whole_records a ->
  Unpack.binary_to_text tm localtime strftime_date_time ba2str (a ++ b)
  = match Unpack.binary_to_text tm localtime strftime_date_time ba2str a with
    | (out, Unpack.Done) => loop (List.length b) b out
    | ended => ended
    end.
Proof.
  intros Ha. unfold Unpack.binary_to_text.
  now apply binary_to_text_loop_app.
Qed.

Lemma binary_to_text_loop_rows (es : list record) :
  Forall (fun e => timeval_ok (record_time e)
                   /\ localtime (tv_sec (record_time e)) <> None) es ->
  forall (turns : nat) (out : string),
    (List.length (flat_map encode es) <= turns)%nat ->
    loop turns (flat_map encode es) out
    = (rows tm localtime strftime_date_time ba2str es out, Unpack.Done).
Proof.
  induction 1 as [|e es [Hok Htime] Hes IH]; intros turns out Hturns.
  - now destruct turns.
  - cbn [flat_map rows fold_left] in *.
    destruct (encode e ++ flat_map encode es)%list as [|tag rest] eqn:Hfile.
    { apply app_eq_nil in Hfile. now destruct (encode_not_nil e). }
    destruct turns as [|turns]; [cbn in Hturns; lia|].
    rewrite binary_to_text_loop_turn, <- Hfile, decode_encode by assumption.
    assert (Hlen : (List.length (flat_map encode es) <= turns)%nat).
    { assert (Hl : List.length (encode e ++ flat_map encode es)
                   = List.length (tag :: rest)) by now rewrite Hfile.
      rewrite length_app in Hl. cbn [List.length] in *.
      pose proof (encode_not_nil e). destruct (encode e); [contradiction|].
      cbn [List.length] in Hl. lia. }
    unfold Unpack.write_timeval in *.
    destruct (localtime (tv_sec (record_time e))) as [t|]; [|contradiction].
    unfold rows in IH. now rewrite IH.
Qed.

(** X12.  For a log that is the encoding of a list of records, one after
    the other, whose timestamps fit their fields and are accepted by
    [localtime], the decoder prints the header and then one row per record,
    in the order of the log, returns, and the process ends with exit
    code 0. *)
Theorem decoder_prints_every_record :
  forall es : list record,
    Forall (fun e => timeval_ok (record_time e)
                     /\ localtime (tv_sec (record_time e)) <> None) es ->
    Unpack.binary_to_text tm localtime strftime_date_time ba2str (flat_map encode es)
    = (rows tm localtime strftime_date_time ba2str es
         ("type,time,bdaddr,services,major,minor,rssi" ++ Unpack.newline),
       Unpack.Done)
    /\ snd (Unpack.main tm localtime strftime_date_time ba2str (flat_map encode es)) = Some 0.
Proof.
  intros es Hes.
  assert (Hrun : Unpack.binary_to_text tm localtime strftime_date_time ba2str
                   (flat_map encode es)
                 = (rows tm localtime strftime_date_time ba2str es
                      ("type,time,bdaddr,services,major,minor,rssi"
                         ++ Unpack.newline),
                    Unpack.Done))
    by (unfold Unpack.binary_to_text; now apply binary_to_text_loop_rows).
  split; [exact Hrun|]. unfold Unpack.main. now rewrite Hrun.
Qed.

Lemma decode_unknown (tag : byte) (rest : list byte) :
  record_size tag = None -> Unpack.decode (tag :: rest) = None.
Proof.
  unfold record_size, Unpack.decode.
  destruct (u8 tag =? EVT_INQUIRY_COMPLETE); [discriminate|].
  destruct (u8 tag =? EVT_INQUIRY_RESULT); [discriminate|].
  destruct (u8 tag =? EVT_INQUIRY_RESULT_WITH_RSSI); [discriminate | reflexivity].
Qed.

(** The loop ends by returning or by [exit(EXIT_FAILURE)]. *)
Lemma binary_to_text_loop_ending (turns : nat) :
  forall (file : list byte) (out : string),
    (List.length file <= turns)%nat ->
    snd (loop turns file out) = Unpack.Done
    \/ snd (loop turns file out) = Unpack.Exit EXIT_FAILURE.
Proof.
  induction turns as [|turns IH]; intros file out Hlen.
  - destruct file; [now left | cbn in Hlen; lia].
  - destruct file as [|tag rest]; [now left|].
    rewrite binary_to_text_loop_turn.
    destruct (Unpack.decode (tag :: rest)) as [[e rest']|] eqn:Hd; [|now right].
    destruct (write_timeval (record_time e)); [|now right].
    apply IH. apply decode_consumes in Hd. cbn [List.length] in *. lia.
Qed.

(** X13.  A byte that is none of the three tags, met where an entry should
    begin after whole entries, makes the decoder end in
    [exit(EXIT_FAILURE)], whatever follows it; what has been printed by
    then is what is printed for the whole entries alone, and the exit code
    is 1. *)
Theorem unknown_tag_fails :
  forall (whole : list byte) (tag : byte) (rest : list byte),
    whole_records whole ->
    record_size tag = None ->
    Unpack.binary_to_text tm localtime strftime_date_time ba2str (whole ++ tag :: rest)
    = (fst (Unpack.binary_to_text tm localtime strftime_date_time ba2str whole),
       Unpack.Exit EXIT_FAILURE)
    /\ snd (Unpack.main tm localtime strftime_date_time ba2str
              (whole ++ tag :: rest))
       = Some 1.
Proof.
  intros whole tag rest Hwhole Htag.
  assert (Hrun : Unpack.binary_to_text tm localtime strftime_date_time ba2str
                   (whole ++ tag :: rest)
                 = (fst (Unpack.binary_to_text tm localtime strftime_date_time
                           ba2str whole),
                    Unpack.Exit EXIT_FAILURE)).
  { unfold Unpack.binary_to_text.
    rewrite binary_to_text_loop_app by (assumption || apply Nat.le_refl).
    pose proof (binary_to_text_loop_ending (List.length whole) whole
                  ("type,time,bdaddr,services,major,minor,rssi" ++ Unpack.newline)
                  (Nat.le_refl _)) as Hend.
    destruct (loop (List.length whole) whole _) as [out ending].
    cbn [fst snd] in *.
    destruct Hend as [-> | ->]; [|reflexivity].
    cbn [List.length]. now rewrite binary_to_text_loop_turn, decode_unknown. }
  split; [exact Hrun|]. unfold Unpack.main. now rewrite Hrun.
Qed.

(** X14.  When [localtime] rejects the time of an entry that follows whole
    entries which were all printed, the decoder ends in
    [exit(EXIT_FAILURE)] after it has printed the kind of that entry and
    nothing else of its row: the output ends with an unfinished row. *)
Theorem rejected_time_leaves_partial_row :
  forall (whole : list byte) (e : record) (rest : list byte) (out : string),
    whole_records whole ->
    Unpack.binary_to_text tm localtime strftime_date_time ba2str whole = (out, Unpack.Done) ->
    timeval_ok (record_time e) ->
    localtime (tv_sec (record_time e)) = None ->
    Unpack.binary_to_text tm localtime strftime_date_time ba2str (whole ++ encode e ++ rest)
    = ((out ++ Unpack.row_head e)%string, Unpack.Exit EXIT_FAILURE).
Proof.
  intros whole e rest out Hwhole Hrun Hok Htime.
  rewrite binary_to_text_after_whole_records by assumption.
  rewrite Hrun.
  destruct (encode e ++ rest)%list as [|tag tail] eqn:Hfile.
  { apply app_eq_nil in Hfile. now destruct (encode_not_nil e). }
  cbn [List.length]. rewrite binary_to_text_loop_turn, <- Hfile.
  rewrite decode_encode by assumption.
  unfold Unpack.write_timeval. now rewrite Htime.
Qed.

(** X16.  Whatever bytes it is given, the decoder comes to an end, and the
    exit code of its process is 0, when it has read to the end of its
    input, or 1. *)
Theorem decoder_exit_code :
  forall file : list byte,
    snd (Unpack.main tm localtime strftime_date_time ba2str file) = Some 0
    \/ snd (Unpack.main tm localtime strftime_date_time ba2str file) = Some 1.
Proof.
  intros file. unfold Unpack.main, Unpack.binary_to_text.
  pose proof (binary_to_text_loop_ending (List.length file) file
                ("type,time,bdaddr,services,major,minor,rssi" ++ Unpack.newline)
                (Nat.le_refl _)) as Hend.
  destruct (loop (List.length file) file _) as [out ending]. cbn [snd] in Hend.
  destruct Hend as [-> | ->]; [now left | now right].
Qed.

End DecoderRuns.

(** ** Nothing is lost in reading an entry *)

Lemma byte_of_Z_mod (z : Z) : byte_of_Z (z mod 256) = byte_of_Z z.
Proof.
  unfold byte_of_Z. now rewrite Z.mod_mod by lia.
Qed.

Lemma le_value_range (l : list byte) :
  0 <= le_value l < 256 ^ Z.of_nat (List.length l).
Proof.
  induction l as [|b l IH]; [cbn; lia|].
  cbn [le_value List.length]. rewrite Nat2Z.inj_succ, Z.pow_succ_r by lia.
  pose proof (u8_range b). lia.
Qed.

Lemma le_bytes_le_value (l : list byte) : le_bytes (List.length l) (le_value l) = l.
Proof.
  induction l as [|b l IH]; [reflexivity|].
  cbn [List.length le_bytes le_value]. pose proof (u8_range b) as Hb. f_equal.
  - rewrite <- byte_of_Z_mod.
    replace ((u8 b + 256 * le_value l) mod 256) with (u8 b);
      [apply byte_of_Z_u8|].
    apply Z.mod_unique with (q := le_value l); lia.
  - replace ((u8 b + 256 * le_value l) / 256) with (le_value l); [exact IH|].
    apply Z.div_unique with (r := u8 b); lia.
Qed.

Lemma le_bytes_wrap (n : nat) :
  forall v k : Z, le_bytes n (v + k * 256 ^ Z.of_nat n) = le_bytes n v.
Proof.
  induction n as [|n IH]; intros v k; [reflexivity|].
  cbn [le_bytes]. rewrite Nat2Z.inj_succ, Z.pow_succ_r by lia. f_equal.
  - rewrite <- byte_of_Z_mod, <- (byte_of_Z_mod v). f_equal.
    replace (v + k * (256 * 256 ^ Z.of_nat n))
      with (v + (k * 256 ^ Z.of_nat n) * 256) by ring.
    apply Z.mod_add. lia.
  - replace (v + k * (256 * 256 ^ Z.of_nat n))
      with (v + (k * 256 ^ Z.of_nat n) * 256) by ring.
    rewrite Z.div_add by lia. apply IH.
Qed.

Lemma le_bytes_long_of_bytes (l : list byte) :
  List.length l = 8%nat -> le_bytes 8 (long_of_bytes l) = l /\ long_ok (long_of_bytes l).
Proof.
  intros Hlen. unfold long_of_bytes, long_ok.
  pose proof (le_value_range l) as Hr. rewrite Hlen in Hr.
  change (256 ^ Z.of_nat 8) with (2 ^ 64) in Hr.
  destruct (Z.ltb_spec (le_value l) (2 ^ 63)).
  - split; [|lia]. rewrite <- Hlen. apply le_bytes_le_value.
  - split; [|lia].
    replace (le_value l - 2 ^ 64) with (le_value l + (-1) * 256 ^ Z.of_nat 8)
      by (change (256 ^ Z.of_nat 8) with (2 ^ 64); ring).
    rewrite le_bytes_wrap, <- Hlen. apply le_bytes_le_value.
Qed.

Lemma fread_splits (size : nat) (file p rest : list byte) :
  fread size file = Some (p, rest) ->
  file = (p ++ rest)%list /\ List.length p = size.
Proof.
  unfold fread. destruct (Nat.leb_spec size (List.length file)); [|discriminate].
  intros Hs. injection Hs as <- <-. split.
  - symmetry. apply firstn_skipn.
  - rewrite length_firstn. lia.
Qed.

Lemma timeval_bytes_of_bytes (p q : list byte) :
  List.length p = 16%nat ->
  timeval_bytes (Unpack.timeval_of_bytes (p ++ q)) = p
  /\ timeval_ok (Unpack.timeval_of_bytes (p ++ q)).
Proof.
  intros Hp. do 16 (destruct p as [|? p]; [discriminate|]).
  destruct p; [|discriminate].
  unfold Unpack.timeval_of_bytes, timeval_bytes, timeval_ok.
  cbn [app firstn skipn tv_sec tv_usec].
  match goal with
  | |- context [long_of_bytes ?a] =>
      destruct (le_bytes_long_of_bytes a eq_refl) as [-> Ha]
  end.
  match goal with
  | |- context [le_bytes 8 (long_of_bytes ?a)] =>
      destruct (le_bytes_long_of_bytes a eq_refl) as [-> Hb]
  end.
  split; [reflexivity | split; assumption].
Qed.

Lemma decode_splits (file rest : list byte) (e : record) :
  Unpack.decode file = Some (e, rest) ->
  file = (encode e ++ rest)%list /\ timeval_ok (record_time e).
Proof.
  intros Hd. destruct file as [|tag body]; [discriminate|].
  unfold Unpack.decode in Hd.
  destruct (Z.eqb_spec (u8 tag) EVT_INQUIRY_COMPLETE) as [Htag|_].
  { unfold Unpack.fread_inquiry_complete in Hd.
    destruct (fread _ body) as [[p r]|] eqn:Hr; [|discriminate].
    cbn in Hd. injection Hd as <- <-.
    apply fread_splits in Hr. destruct Hr as [-> Hp].
    destruct (timeval_bytes_of_bytes p [] Hp) as [Hb Hok].
    rewrite app_nil_r in Hb, Hok.
    cbn [encode record_time ic_time fst snd]. unfold inquiry_complete_bytes.
    cbn [ic_time]. rewrite Hb, <- Htag, byte_of_Z_u8. now split. }
  destruct (Z.eqb_spec (u8 tag) EVT_INQUIRY_RESULT) as [Htag|_].
  { unfold Unpack.fread_inquiry_result in Hd.
    destruct (fread _ body) as [[p r]|] eqn:Hr; [|discriminate].
    cbn in Hd. injection Hd as <- <-.
    apply fread_splits in Hr. destruct Hr as [-> Hp].
    do 16 (destruct p as [|? p]; [discriminate|]).
    match goal with
    | |- context [Unpack.timeval_of_bytes (?a :: ?b :: ?c :: ?d :: ?e :: ?f :: ?g
                    :: ?h :: ?i :: ?j :: ?k :: ?l :: ?m :: ?n :: ?o :: ?q :: p)] =>
        destruct (timeval_bytes_of_bytes [a; b; c; d; e; f; g; h; i; j; k; l; m; n; o; q]
                    p eq_refl) as [Hb Hok]
    end.
    cbn [app] in Hb, Hok.
    do 9 (destruct p as [|? p]; [discriminate|]). destruct p; [|discriminate].
    cbn [encode record_time ir_time]. unfold inquiry_result_bytes.
    cbn [ir_time ir_bdaddr ir_dev_class]. rewrite Hb, <- Htag, byte_of_Z_u8.
    now split. }
  destruct (Z.eqb_spec (u8 tag) EVT_INQUIRY_RESULT_WITH_RSSI) as [Htag|_];
    [|discriminate].
  unfold Unpack.fread_inquiry_result_with_rssi in Hd.
  destruct (fread _ body) as [[p r]|] eqn:Hr; [|discriminate].
  cbn in Hd. injection Hd as <- <-.
  apply fread_splits in Hr. destruct Hr as [-> Hp].
  do 16 (destruct p as [|? p]; [discriminate|]).
  match goal with
  | |- context [Unpack.timeval_of_bytes (?a :: ?b :: ?c :: ?d :: ?e :: ?f :: ?g
                  :: ?h :: ?i :: ?j :: ?k :: ?l :: ?m :: ?n :: ?o :: ?q :: p)] =>
      destruct (timeval_bytes_of_bytes [a; b; c; d; e; f; g; h; i; j; k; l; m; n; o; q]
                  p eq_refl) as [Hb Hok]
  end.
  cbn [app] in Hb, Hok.
  do 10 (destruct p as [|? p]; [discriminate|]). destruct p; [|discriminate].
  cbn [encode record_time irr_time]. unfold inquiry_result_with_rssi_bytes.
  cbn [irr_time irr_bdaddr irr_dev_class irr_rssi].
  rewrite Hb, <- Htag, byte_of_Z_u8. now split.
Qed.

(** X18.  Whenever the decoder reads an entry from a log, the bytes it has
    taken are exactly the encoding of the record it has read, and what it
    leaves is the rest of the log: the record holds all that the bytes
    held.  The timestamp of a record that was read always fits its two
    fields. *)
Theorem decode_is_lossless :
  forall (file rest : list byte) (e : record),
    Unpack.decode file = Some (e, rest) ->
    file = (encode e ++ rest)%list /\ timeval_ok (record_time e).
Proof.
  intros file rest e Hd. now apply decode_splits.
Qed.

(** ** A log of whole entries *)

Lemma whole_records_encoded (file : list byte) :
  whole_records file ->
  exists es : list record,
    file = flat_map encode es /\ Forall (fun e => timeval_ok (record_time e)) es.
Proof.
  induction 1 as [|tag n body more Htag Hbody Hmore (es & -> & Hes)].
  - exists []. split; [reflexivity | constructor].
  - destruct (decode_whole tag n body Htag Hbody) as [e He].
    destruct (decode_splits _ _ _ (He (flat_map encode es))) as [Hfile Hok].
    exists (e :: es). split; [exact Hfile | now constructor].
Qed.

Section LogDecodes.

Variable tm : Type.
Variable localtime : Z -> option tm.
Variable strftime_date_time : tm -> string.
Variable ba2str : bdaddr_t -> string.

Lemma binary_to_text_loop_rejects (es : list record) :
  Forall (fun e => timeval_ok (record_time e)) es ->
  Exists (fun e => localtime (tv_sec (record_time e)) = None) es ->
  forall (turns : nat) (out : string),
    (List.length (flat_map encode es) <= turns)%nat ->
    snd (Unpack.binary_to_text_loop tm localtime strftime_date_time ba2str turns
           (flat_map encode es) out)
    = Unpack.Exit EXIT_FAILURE.
Proof.
  induction 1 as [|e es Hok Hes IH]; intros Hbad turns out Hturns;
    [inversion Hbad|].
  cbn [flat_map] in *.
  destruct (encode e ++ flat_map encode es)%list as [|tag rest] eqn:Hfile.
  { apply app_eq_nil in Hfile. now destruct (encode_not_nil e). }
  destruct turns as [|turns]; [cbn in Hturns; lia|].
  rewrite binary_to_text_loop_turn, <- Hfile, decode_encode by assumption.
  assert (Hlen : (List.length (flat_map encode es) <= turns)%nat).
  { assert (Hl : List.length (encode e ++ flat_map encode es)
                 = List.length (tag :: rest)) by now rewrite Hfile.
    rewrite length_app in Hl. cbn [List.length] in *.
    pose proof (encode_not_nil e). destruct (encode e); [contradiction|].
    cbn [List.length] in Hl. lia. }
  unfold Unpack.write_timeval.
  destruct (localtime (tv_sec (record_time e))) as [t|] eqn:Ht; [|reflexivity].
  apply IH; [|exact Hlen].
  inversion Hbad as [? ? Hhead | ? ? Htail]; subst; [congruence | assumption].
Qed.

(** X15.  A log made of whole entries is the encoding of a list of
    records.  When [localtime] accepts the time of each of them, the
    decoder prints the header and one row for each, reads to the end and
    returns: the exit code is 0.  When [localtime] rejects the time of one
    of them, the decoder ends in [exit(EXIT_FAILURE)], with exit code 1. *)
Theorem whole_log_decodes :
  forall file : list byte,
    whole_records file ->
    exists es : list record,
      file = flat_map encode es
      /\ (Forall (fun e => localtime (tv_sec (record_time e)) <> None) es ->
          Unpack.binary_to_text tm localtime strftime_date_time ba2str file
          = (rows tm localtime strftime_date_time ba2str es
               ("type,time,bdaddr,services,major,minor,rssi" ++ Unpack.newline),
             Unpack.Done)
          /\ snd (Unpack.main tm localtime strftime_date_time ba2str file) = Some 0)
      /\ (Exists (fun e => localtime (tv_sec (record_time e)) = None) es ->
          snd (Unpack.binary_to_text tm localtime strftime_date_time ba2str file)
          = Unpack.Exit EXIT_FAILURE
          /\ snd (Unpack.main tm localtime strftime_date_time ba2str file) = Some 1).
Proof.
  intros file Hwhole.
  destruct (whole_records_encoded file Hwhole) as (es & -> & Hok).
  exists es. split; [reflexivity|]. split.
  - intros Htimes.
    assert (Hrun : Unpack.binary_to_text tm localtime strftime_date_time ba2str
                     (flat_map encode es)
                   = (rows tm localtime strftime_date_time ba2str es
                        ("type,time,bdaddr,services,major,minor,rssi"
                           ++ Unpack.newline),
                      Unpack.Done)).
    { unfold Unpack.binary_to_text. apply binary_to_text_loop_rows;
        [|apply Nat.le_refl].
      rewrite Forall_forall in *. intros e He. split; auto. }
    split; [exact Hrun|]. unfold Unpack.main. now rewrite Hrun.
  - intros Hbad.
    assert (Hrun : snd (Unpack.binary_to_text tm localtime strftime_date_time
                          ba2str (flat_map encode es))
                   = Unpack.Exit EXIT_FAILURE)
      by (unfold Unpack.binary_to_text;
          apply binary_to_text_loop_rejects; auto using Nat.le_refl).
    split; [exact Hrun|]. unfold Unpack.main.
    destruct (Unpack.binary_to_text tm localtime strftime_date_time ba2str
                (flat_map encode es)) as [out ending].
    cbn [snd] in Hrun. now subst ending.
Qed.

End LogDecodes.

(** ** From the scanner to the decoder *)

Lemma encoded_results_length (time : timeval) (items : list inquiry_info) :
  List.length (flat_map encode (map (result_of time) items))
  = (26 * List.length items)%nat.
Proof.
  induction items as [|x items IH]; [reflexivity|].
  cbn [map flat_map]. rewrite length_app, IH.
  cbn [result_of encode List.length]. rewrite inquiry_result_bytes_length. lia.
Qed.

Lemma encoded_results_with_signal_length (time : timeval)
    (items : list inquiry_info_with_rssi) :
  List.length (flat_map encode (map (result_with_signal_of time) items))
  = (27 * List.length items)%nat.
Proof.
  induction items as [|x items IH]; [reflexivity|].
  cbn [map flat_map]. rewrite length_app, IH.
  cbn [result_with_signal_of encode List.length].
  rewrite inquiry_result_with_rssi_bytes_length. lia.
Qed.

(** What a message makes the scanner write, to a sink with room for it, is
    a run of entries that all carry the time of the message. *)
Lemma dispatch_entries (bt_error : Z -> Z) (flush : Z) (out_file : FILE)
    (tstamp : timeval) (hdr : hci_event_hdr) (data : list byte) :
  (486 <= f_room out_file)%nat ->
  Z.of_nat (List.length data) = u8 (plen hdr) ->
  exists es : list record,
    snd (fst (dispatch bt_error flush out_file tstamp hdr data))
    = appended out_file (flat_map encode es)
    /\ Forall (fun e => record_time e = tstamp) es
    /\ (List.length (flat_map encode es) <= 486)%nat.
Proof.
  intros Hroom Hlen.
  assert (Hnone : exists es : list record,
             out_file = appended out_file (flat_map encode es)
             /\ Forall (fun e => record_time e = tstamp) es
             /\ (List.length (flat_map encode es) <= 486)%nat).
  { exists []. cbn [flat_map]. rewrite appended_nil.
    repeat split; [constructor | cbn; lia]. }
  pose proof (u8_range (plen hdr)) as Hplen.
  unfold dispatch.
  destruct (u8 (evt hdr) =? EVT_INQUIRY_RESULT); cbn [fst snd].
  { destruct (Z.eq_dec (u8 (plen hdr))
                (u8 (byte_at data 0) * sizeof_inquiry_info + 1)) as [He|Hbad];
      [|now rewrite handle_inquiry_result_bad_plen].
    unfold sizeof_inquiry_info in He.
    destruct data as [|c rest]; [cbn in *; lia|].
    change (byte_at (c :: rest) 0) with c in He.
    pose proof (u8_range c) as Hc.
    destruct (items_of_bytes (Z.to_nat (u8 c)) rest) as (items & Hn & ->);
      [cbn [List.length] in Hlen; lia|].
    destruct (handlers_on_items out_file tstamp hdr c []) as [Hplain _].
    specialize (Hplain items). unfold result_payload in Hplain.
    rewrite app_nil_r in Hplain.
    rewrite Hplain; [|lia | exact He | lia]. cbn [snd].
    exists (map (result_of tstamp) items). split; [reflexivity|]. split.
    - apply Forall_forall. intros e Hin.
      apply in_map_iff in Hin. now destruct Hin as (x & <- & _).
    - rewrite encoded_results_length. lia. }
  destruct (u8 (evt hdr) =? EVT_INQUIRY_RESULT_WITH_RSSI); cbn [fst snd].
  { destruct (Z.eq_dec (u8 (plen hdr))
                (u8 (byte_at data 0) * sizeof_inquiry_info_with_rssi + 1))
      as [He|Hbad]; [|now rewrite handle_inquiry_result_with_rssi_bad_plen].
    unfold sizeof_inquiry_info_with_rssi in He.
    destruct data as [|c rest]; [cbn in *; lia|].
    change (byte_at (c :: rest) 0) with c in He.
    pose proof (u8_range c) as Hc.
    destruct (items_with_rssi_of_bytes (Z.to_nat (u8 c)) rest)
      as (items & Hn & ->); [cbn [List.length] in Hlen; lia|].
    destruct (handlers_on_items out_file tstamp hdr c []) as [_ Hsignal].
    specialize (Hsignal items). unfold result_with_signal_payload in Hsignal.
    rewrite app_nil_r in Hsignal.
    rewrite Hsignal; [|lia | exact He | lia]. cbn [snd].
    exists (map (result_with_signal_of tstamp) items).
    split; [reflexivity|]. split.
    - apply Forall_forall. intros e Hin.
      apply in_map_iff in Hin. now destruct Hin as (x & <- & _).
    - rewrite encoded_results_with_signal_length. lia. }
  destruct (u8 (evt hdr) =? EVT_INQUIRY_COMPLETE); cbn [fst snd];
    [|exact Hnone].
  unfold handle_inquiry_complete.
  destruct (negb (u8 (plen hdr) =? 1)); [exact Hnone|].
  destruct (negb (bt_error (u8 (byte_at data 0)) =? 0)); [exact Hnone|].
  rewrite write_inquiry_complete_accepted by lia. cbn [snd].
  exists [CycleComplete (mk_complete tstamp)]. cbn [flat_map].
  rewrite app_nil_r. split; [reflexivity|]. split; [now constructor|].
  cbn [encode List.length]. unfold inquiry_complete_bytes.
  rewrite timeval_bytes_length. lia.
Qed.

Lemma run_scan_loop_entries (bt_error : Z -> Z) (flush : Z)
    (events : list iteration) :
  forall (request_stop_scan : Z) (out_file : FILE),
    (486 * List.length events <= f_room out_file)%nat ->
    exists es : list record,
      f_data (snd (run_scan_loop bt_error flush request_stop_scan out_file events))
      = (f_data out_file ++ flat_map encode es)%list
      /\ Forall (fun e => In (record_time e) (flat_map event_stamps events)) es.
Proof.
  induction events as [|ev later IH]; intros stop out_file Hroom.
  - exists []. cbn [flat_map]. rewrite app_nil_r. split; [|constructor].
    cbn [run_scan_loop]. now destruct (negb (stop =? 0)).
  - cbn [List.length] in Hroom.
    assert (Hnone : exists es : list record,
               f_data out_file = (f_data out_file ++ flat_map encode es)%list
               /\ Forall (fun e => In (record_time e)
                                      (flat_map event_stamps (ev :: later))) es).
    { exists []. cbn [flat_map]. rewrite app_nil_r. split; [reflexivity|].
      constructor. }
    assert (Hlater : forall (stop' : Z) (f : FILE) (before : list record),
               (486 * List.length later <= f_room f)%nat ->
               f_data f = (f_data out_file ++ flat_map encode before)%list ->
               Forall (fun e => In (record_time e)
                                   (flat_map event_stamps (ev :: later))) before ->
               exists es : list record,
                 f_data (snd (run_scan_loop bt_error flush stop' f later))
                 = (f_data out_file ++ flat_map encode es)%list
                 /\ Forall (fun e => In (record_time e)
                                        (flat_map event_stamps (ev :: later))) es).
    { intros stop' f before Hf Hdata Hbefore.
      destruct (IH stop' f Hf) as (es & Hes & Htimes).
      exists (before ++ es)%list. split.
      - now rewrite Hes, Hdata, flat_map_app, app_assoc.
      - apply Forall_app. split; [exact Hbefore|].
        apply (Forall_impl _ (P := fun e => In (record_time e)
                                              (flat_map event_stamps later)));
          [|exact Htimes].
        intros e He. cbn [flat_map]. apply in_or_app. now right. }
    assert (Hskip : forall stop' : Z,
               exists es : list record,
                 f_data (snd (run_scan_loop bt_error flush stop' out_file later))
                 = (f_data out_file ++ flat_map encode es)%list
                 /\ Forall (fun e => In (record_time e)
                                        (flat_map event_stamps (ev :: later))) es).
    { intros stop'. apply (Hlater stop' out_file []); [lia | | constructor].
      cbn [flat_map]. now rewrite app_nil_r. }
    cbn [run_scan_loop].
    destruct (negb (stop =? 0)); [exact Hnone|].
    destruct (deliver (sel_signals ev) stop) as [stop'|]; [|exact Hnone].
    destruct ((sel_rc ev <? 0) && negb (sel_errno ev =? EINTR)); [exact Hnone|].
    destruct (sel_rc ev =? 0); [exact Hnone|].
    destruct (sel_rc ev >? 0); [|apply Hskip].
    destruct (sel_recv ev) as [errno|buf control] eqn:Hrecv.
    { destruct (negb (errno =? EINTR)); [exact Hnone | apply Hskip]. }
    destruct (Z.of_nat (List.length buf) >? HCI_EVENT_HDR_SIZE); [|apply Hskip].
    destruct (u8 (byte_at buf 0) =? HCI_EVENT_PKT); [|apply Hskip].
    cbn [Bluez.plen].
    destruct (Z.eqb_spec (Z.of_nat (List.length buf))
                (1 + HCI_EVENT_HDR_SIZE + u8 (byte_at buf 2))) as [Hall|];
      [|apply Hskip].
    destruct (dispatch_entries bt_error flush out_file (message_tstamp control)
                (mk_hdr (byte_at buf 1) (byte_at buf 2)) (skipn 3 buf))
      as (es & Hd & Htimes & Hsize); [lia | |].
    { cbn [Bluez.plen]. rewrite length_skipn.
      pose proof (u8_range (byte_at buf 2)). unfold HCI_EVENT_HDR_SIZE in Hall.
      lia. }
    destruct (dispatch _ _ _ _ _ _) as [[rc f] fl]. cbn [fst snd] in Hd.
    subst f.
    assert (Hhere : Forall (fun e => In (record_time e)
                                        (flat_map event_stamps (ev :: later))) es).
    { apply (Forall_impl _ (P := fun e => record_time e = message_tstamp control));
        [|exact Htimes].
      intros e ->. cbn [flat_map]. apply in_or_app. left.
      unfold event_stamps. rewrite Hrecv. now left. }
    destruct (negb (rc =? EXIT_SUCCESS)).
    { exists es. now split. }
    destruct (negb (fl =? 0)); apply (Hlater stop' _ es); try exact Hhere;
      try reflexivity; cbn [fflush appended f_room f_data]; lia.
Qed.

(** X17.  The scanner and the decoder agree on the log.  Whatever the
    events of a run and however it ends, what [main] of the scanner has
    written to an empty sink with room for it (17 bytes and 486 per event)
    is the encoding of a list of records, each stamped with the wall-clock
    time of the start or with the time that came with a message of the
    run.  When those times fit their fields and [localtime] accepts them,
    the decoder prints one row for each record, reads the log to its end
    and ends with exit code 0. *)
Theorem scanner_log_is_decodable :
  forall (bt_error : Z -> Z) (scan_length flush : Z) (room : nat)
         (env : process_env) (tm : Type) (localtime : Z -> option tm)
         (strftime_date_time : tm -> string) (ba2str : bdaddr_t -> string),
    (17 + 486 * List.length (env_events env) <= room)%nat ->
    Forall (fun t => timeval_ok t /\ localtime (tv_sec t) <> None) (stamps env) ->
    let log :=
      f_data (snd (Scan.main bt_error scan_length flush (fresh_file room) env)) in
    exists es : list record,
      log = flat_map encode es
      /\ Forall (fun e => In (record_time e) (stamps env)) es
      /\ Unpack.binary_to_text tm localtime strftime_date_time ba2str log
         = (rows tm localtime strftime_date_time ba2str es
              ("type,time,bdaddr,services,major,minor,rssi" ++ Unpack.newline),
            Unpack.Done)
      /\ snd (Unpack.main tm localtime strftime_date_time ba2str log) = Some 0.
Proof.
  intros bt_error scan_length flush room env tm localtime strftime_date_time
         ba2str Hroom Hstamps log.
  assert (Hlog : exists es : list record,
             log = flat_map encode es
             /\ Forall (fun e => In (record_time e) (stamps env)) es).
  { assert (Hnone : exists es : list record,
               @nil byte = flat_map encode es
               /\ Forall (fun e => In (record_time e) (stamps env)) es)
      by (exists []; split; [reflexivity | constructor]).
    unfold log, Scan.main.
    destruct (negb (env_setup_signals env)); [exact Hnone|].
    destruct (env_hci_get_route env <? 0); [exact Hnone|].
    destruct (env_hci_open_dev env <? 0); [exact Hnone|].
    destruct (fst (start_scan (env_device env) scan_length) =? EXIT_SUCCESS);
      [|exact Hnone].
    rewrite write_inquiry_complete_accepted by (cbn [fresh_file f_room]; lia).
    cbn [Z.eqb EXIT_SUCCESS]. unfold run_scan.
    destruct (run_scan_loop_entries bt_error flush (env_events env) 0
                (appended (fresh_file room)
                   (encode (CycleComplete (mk_complete (env_gettimeofday env))))))
      as (es & -> & Htimes).
    { cbn [appended fresh_file f_room encode List.length].
      unfold inquiry_complete_bytes. rewrite timeval_bytes_length. lia. }
    exists (CycleComplete (mk_complete (env_gettimeofday env)) :: es).
    split; [reflexivity|]. constructor; [now left|].
    apply (Forall_impl _ (P := fun e => In (record_time e)
                                          (flat_map event_stamps (env_events env))));
      [|exact Htimes].
    intros e He. now right. }
  destruct Hlog as (es & Hes & Htimes). exists es.
  split; [exact Hes|]. split; [exact Htimes|].
  assert (Hrun : Unpack.binary_to_text tm localtime strftime_date_time ba2str log
                 = (rows tm localtime strftime_date_time ba2str es
                      ("type,time,bdaddr,services,major,minor,rssi"
                         ++ Unpack.newline),
                    Unpack.Done)).
  { rewrite Hes. unfold Unpack.binary_to_text.
    apply binary_to_text_loop_rows; [|apply Nat.le_refl].
    rewrite Forall_forall in *. intros e He. apply Hstamps, Htimes, He. }
  split; [exact Hrun|]. unfold Unpack.main. now rewrite Hrun.
Qed.


(** * Further properties of the class decoder *)

Section ClassFields.

Local Open Scope string_scope.
Local Open Scope Z_scope.

Lemma count_char_app (c : ascii) (s t : string) :
  count_char c (s ++ t) = (count_char c s + count_char c t)%nat.
Proof.
  induction s as [|a s IH]; [reflexivity|]. cbn. rewrite IH. lia.
Qed.

Lemma printf_hhd_no_comma (b : byte) : count_char "," (Unpack.printf_hhd b) = 0%nat.
Proof.
  destruct b; reflexivity.
Qed.

Lemma minor_name_no_comma (major minor : byte) :
  count_char "," (bluetrax_get_minor_device_name (u8 major) (u8 minor)) = 0%nat.
Proof.
  destruct major; try reflexivity; destruct minor; reflexivity.
Qed.

Lemma major_label_no_comma (n : nat) :
  count_char "," (nth n Unpack.major_devices EmptyString) = 0%nat.
Proof.
  do 8 (destruct n as [|n]; [reflexivity|]). now destruct n.
Qed.

(** X19.  Whatever the three class bytes are, [write_dev_class] prints
    exactly three commas: the service, major and minor fields never hold a
    comma, so a row always has the same number of columns. *)
Theorem write_dev_class_three_fields :
  forall dev_class : dev_class_t,
    count_char "," (Unpack.write_dev_class dev_class) = 3%nat.
Proof.
  intros [minor major service]. unfold Unpack.write_dev_class.
  cbn [dev_class0 dev_class1 dev_class2].
  destruct (Z.land (u8 major) 31 >=? Z.of_nat (List.length Unpack.major_devices));
    rewrite !count_char_app, ?printf_hhd_no_comma, ?major_label_no_comma,
      ?minor_name_no_comma; reflexivity.
Qed.

Lemma minor_name_outside_tables (major minor : Z) :
  major < 0 \/ 8 < major -> major <> 63 ->
  bluetrax_get_minor_device_name major minor = reserved.
Proof.
  intros Hrange H63. unfold bluetrax_get_minor_device_name.
  destruct major as [|p|p]; [lia | | reflexivity].
  do 6 (destruct p as [p|p|]; try reflexivity; try lia).
Qed.

(** X20.  For a major class outside 0..8 and other than 63, the name of the
    minor class is the reserved label, whatever the minor class is.  The
    text decoder looks the label of the major class up with the low five
    bits of the major byte but the name of the minor class with the whole
    byte: when one of the three high bits of the major byte is set and the
    low five bits are a known major class, it prints the label of that
    class together with the reserved minor label, whatever the minor byte
    is. *)
Theorem high_major_bits_hide_minor :
  (forall major minor : Z,
      major < 0 \/ 8 < major -> major <> 63 ->
      bluetrax_get_minor_device_name major minor
      = "Unknown (reserved) minor device class")
  /\ (forall minor major service : byte,
         32 <= u8 major ->
         Z.land (u8 major) 31 < 8 ->
         Unpack.write_dev_class (mk_dev_class minor major service)
         = (Unpack.printf_hhd service ++ ",")
             ++ nth (Z.to_nat (Z.land (u8 major) 31)) Unpack.major_devices EmptyString
             ++ "," ++ "Unknown (reserved) minor device class" ++ ",").
Proof.
  split; [exact minor_name_outside_tables|].
  intros minor major service Hhigh Hlow. unfold Unpack.write_dev_class.
  cbn [dev_class0 dev_class1 dev_class2].
  destruct (Z.geb_spec (Z.land (u8 major) 31)
              (Z.of_nat (List.length Unpack.major_devices))) as [Hge|_];
    [cbn in Hge; lia|].
  rewrite minor_name_outside_tables; [reflexivity | lia |].
  intros H63. rewrite H63 in Hlow. cbn in Hlow. lia.
Qed.

(** X21.  The name built for a peripheral never outgrows its buffer of 48
    characters: for every minor byte the name returned for major class 5
    has at most 47 characters, and the longest one, for minor 0x35, has
    exactly 47 and is complete. *)
Theorem peripheral_name_fits :
  (forall minor : byte,
      (String.length (bluetrax_get_minor_device_name 5 (u8 minor)) <= 47)%nat)
  /\ bluetrax_get_minor_device_name 5 (u8 x35)
     = "Combo keyboard/pointing device/Digitizer tablet"
  /\ String.length (bluetrax_get_minor_device_name 5 (u8 x35)) = 47%nat.
Proof.
  split; [|split; reflexivity].
  intros minor. destruct minor; vm_compute; lia.
Qed.

(** X22.  The service byte is printed as a signed number: the text of the
    class fields starts with a minus sign exactly when the service byte is
    128 or more. *)
Theorem service_byte_is_printed_signed :
  forall dev_class : dev_class_t,
    String.prefix "-" (Unpack.write_dev_class dev_class)
    = (128 <=? u8 (dev_class2 dev_class)).
Proof.
  intros [minor major service]. unfold Unpack.write_dev_class.
  cbn [dev_class0 dev_class1 dev_class2].
  destruct (Z.land (u8 major) 31 >=? Z.of_nat (List.length Unpack.major_devices));
    destruct service; reflexivity.
Qed.

End ClassFields.

(** * The basic scanner and viewer *)

Lemma bluetrax_record_bytes_length (r : Basic.bluetrax_record_t) :
  List.length (Basic.bluetrax_record_bytes r) = 14%nat.
Proof.
  unfold Basic.bluetrax_record_bytes. now rewrite length_app, le_bytes_length.
Qed.

Lemma records_bytes_length (rs : list Basic.bluetrax_record_t) :
  List.length (flat_map Basic.bluetrax_record_bytes rs) = (14 * List.length rs)%nat.
Proof.
  induction rs as [|r rs IH]; [reflexivity|].
  cbn [flat_map List.length]. rewrite length_app, bluetrax_record_bytes_length, IH.
  lia.
Qed.

(** X23.  The basic scanner never takes its [hci_inquiry failed] branch:
    the return value is kept in a [size_t], which is never negative.  When
    [hci_inquiry] fails with a negative value, the scanner goes on to copy
    more responses than its array of 255 records holds. *)
Theorem basic_scan_misses_inquiry_failure :
  forall (rc : Z) (info : list inquiry_info) (now : Z) (out_file : FILE),
    (forall f : FILE, Basic.run_scan rc info now out_file <> Basic.InquiryFailed f)
    /\ (- 2 ^ 31 <= rc < 0 ->
        Basic.run_scan rc info now out_file = Basic.ScanUndefined).
Proof.
  intros rc info now out_file. unfold Basic.run_scan, size_t.
  pose proof (Z.mod_pos_bound rc (2 ^ 64) ltac:(lia)) as Hmod.
  destruct (Z.ltb_spec (rc mod 2 ^ 64) 0) as [Hneg|_]; [lia|].
  split.
  - intros f. destruct (_ || _); [discriminate|].
    destruct (Basic.fwrite_items _ _ _) as [written g].
    destruct (negb _); discriminate.
  - intros Hrc.
    assert (Hwrap : rc mod 2 ^ 64 = rc + 2 ^ 64)
      by (symmetry; apply Z.mod_unique with (q := -1); lia).
    rewrite Hwrap.
    destruct (Z.ltb_spec Basic.INQUIRY_MAX_RESPONSES (rc + 2 ^ 64)) as [_|Hle];
      [reflexivity|].
    unfold Basic.INQUIRY_MAX_RESPONSES in Hle. lia.
Qed.

Lemma basic_run_scan_writes (info : list inquiry_info) (now : Z) (out_file : FILE) :
  Z.of_nat (List.length info) <= Basic.INQUIRY_MAX_RESPONSES ->
  Basic.run_scan (Z.of_nat (List.length info)) info now out_file
  = let (written, f) :=
      Basic.fwrite_items Basic.sizeof_bluetrax_record
        (flat_map Basic.bluetrax_record_bytes
           (map (fun x => Basic.mk_record now (ii_bdaddr x)) info)) out_file in
    if negb (Z.of_nat (List.length info) =? written) then Basic.WriteFailed f
    else Basic.Flushed (fflush f).
Proof.
  intros Hmax. unfold Basic.INQUIRY_MAX_RESPONSES in Hmax.
  unfold Basic.run_scan.
  rewrite size_t_small by lia.
  destruct (Z.ltb_spec (Z.of_nat (List.length info)) 0); [lia|].
  destruct (Z.ltb_spec Basic.INQUIRY_MAX_RESPONSES (Z.of_nat (List.length info)));
    [unfold Basic.INQUIRY_MAX_RESPONSES in *; lia|].
  rewrite Z.ltb_irrefl. cbn [orb].
  now rewrite Nat2Z.id, firstn_all.
Qed.

Lemma basic_records_length (info : list inquiry_info) (now : Z) :
  List.length (flat_map Basic.bluetrax_record_bytes
                 (map (fun x => Basic.mk_record now (ii_bdaddr x)) info))
  = (14 * List.length info)%nat.
Proof.
  now rewrite records_bytes_length, length_map.
Qed.

Lemma whole_items (n : nat) : (14 * n / Basic.sizeof_bluetrax_record)%nat = n.
Proof.
  unfold Basic.sizeof_bluetrax_record. rewrite Nat.mul_comm, Nat.div_mul; lia.
Qed.

(** X24.  When [hci_inquiry] returns its responses, at most 255, and the
    device has room for 14 bytes each, the basic scanner appends one record
    per response, in order, each with the one time taken after the scan and
    the address of the response, and flushes the sink once.  When the
    buffer of the stream has space for the records, [fwrite] reports all of
    them written whatever room the device has: the scanner flushes as well,
    and the bytes beyond that room are lost without a word.  The scanner
    ends through [record write failed] only when the records exceed both
    the room of the device and the space in the buffer, and it has not
    flushed then. *)
Theorem basic_scan_writes_records :
  forall (info : list inquiry_info) (now : Z) (out_file : FILE),
    Z.of_nat (List.length info) <= Basic.INQUIRY_MAX_RESPONSES ->
    let records := map (fun x => Basic.mk_record now (ii_bdaddr x)) info in
    ((14 * List.length info <= f_room out_file)%nat ->
     Basic.run_scan (Z.of_nat (List.length info)) info now out_file
     = Basic.Flushed
         (fflush (appended out_file (flat_map Basic.bluetrax_record_bytes records))))
    /\ ((pending out_file + 14 * List.length info <= f_bufsiz out_file)%nat ->
        Basic.run_scan (Z.of_nat (List.length info)) info now out_file
        = Basic.Flushed
            (fflush (accepted out_file
                       (flat_map Basic.bluetrax_record_bytes records))))
    /\ (forall f : FILE,
           Basic.run_scan (Z.of_nat (List.length info)) info now out_file
           = Basic.WriteFailed f ->
           (f_room out_file < 14 * List.length info)%nat
           /\ (f_bufsiz out_file < pending out_file + 14 * List.length info)%nat
           /\ f_flushes f = f_flushes out_file).
Proof.
  intros info now out_file Hmax records.
  rewrite (basic_run_scan_writes info now out_file Hmax). fold records.
  pose proof (basic_records_length info now) as Hlen. fold records in Hlen.
  unfold Basic.fwrite_items.
  assert (Hroom : (14 * List.length info <= f_room out_file)%nat ->
                  put_bytes (flat_map Basic.bluetrax_record_bytes records) out_file
                  = ((14 * List.length info)%nat,
                     appended out_file
                       (flat_map Basic.bluetrax_record_bytes records))).
  { intros Hroom. rewrite put_bytes_accepted by lia. now rewrite Hlen. }
  assert (Hfits : (pending out_file + 14 * List.length info
                   <= f_bufsiz out_file)%nat ->
                  put_bytes (flat_map Basic.bluetrax_record_bytes records) out_file
                  = ((14 * List.length info)%nat,
                     accepted out_file
                       (flat_map Basic.bluetrax_record_bytes records))).
  { intros Hfits. rewrite put_bytes_fits by lia. now rewrite Hlen. }
  split; [|split].
  - intros H. rewrite (Hroom H), whole_items, Z.eqb_refl. reflexivity.
  - intros H. rewrite (Hfits H), whole_items, Z.eqb_refl. reflexivity.
  - intros f Hrun.
    destruct (Nat.le_gt_cases (14 * List.length info) (f_room out_file)) as [H|H1].
    { rewrite (Hroom H), whole_items, Z.eqb_refl in Hrun. discriminate. }
    destruct (Nat.le_gt_cases (pending out_file + 14 * List.length info)
                (f_bufsiz out_file)) as [H|H2].
    { rewrite (Hfits H), whole_items, Z.eqb_refl in Hrun. discriminate. }
    split; [lia|]. split; [lia|].
    pose proof (put_bytes_flushes (flat_map Basic.bluetrax_record_bytes records)
                  out_file) as Hfl.
    destruct (put_bytes _ out_file) as [written g]. cbn [snd] in Hfl.
    destruct (negb _); [|discriminate]. now injection Hrun as <-.
Qed.

Section BasicView.

Variable tm : Type.
Variable localtime : Z -> option tm.
Variable strftime_date_time : tm -> string.
Variable ba2str : bdaddr_t -> string.

Local Abbreviation view :=
  (Basic.binary_to_text tm localtime strftime_date_time ba2str).

Lemma view_short (tail : list byte) (out : string) :
  (List.length tail < 14)%nat -> view tail out = Basic.Printed out.
Proof.
  intros Hshort.
  do 14 (destruct tail as [|? tail]; [reflexivity|]).
  cbn [List.length] in Hshort. lia.
Qed.

(** X25.  The basic viewer drops a cut last record without a word: when
    fewer than 14 bytes follow a run of whole records, it prints, and ends,
    exactly as it does for the whole records alone. *)
Theorem basic_view_drops_cut_record :
  forall (n : nat) (file tail : list byte) (out : string),
    List.length file = (14 * n)%nat ->
    (List.length tail < 14)%nat ->
    view (file ++ tail) out = view file out
    /\ Basic.main tm localtime strftime_date_time ba2str (file ++ tail)
       = Basic.main tm localtime strftime_date_time ba2str file.
Proof.
  assert (Hview : forall n file tail out,
             List.length file = (14 * n)%nat -> (List.length tail < 14)%nat ->
             view (file ++ tail) out = view file out).
  { induction n as [|n IH]; intros file tail out Hfile Htail.
    - destruct file; [|discriminate]. cbn [app].
      now rewrite view_short.
    - do 14 (destruct file as [|? file]; [cbn in Hfile; lia|]).
      cbn [app Basic.binary_to_text].
      destruct (localtime _); [|reflexivity].
      destruct (_ <? _)%nat; [|reflexivity].
      apply IH; [cbn [List.length] in Hfile; lia | exact Htail]. }
  intros n file tail out Hfile Htail. split; [now apply (Hview n)|].
  unfold Basic.main. now rewrite (Hview n).
Qed.

Lemma view_records (time : tm) (now : Z) (info : list inquiry_info) :
  long_ok now -> localtime now = Some time ->
  (String.length (strftime_date_time time) < 20)%nat ->
  forall out : string,
    view (flat_map Basic.bluetrax_record_bytes
            (map (fun x => Basic.mk_record now (ii_bdaddr x)) info)) out
    = Basic.Printed
        (fold_left
           (fun out x =>
              (out ++ strftime_date_time time ++ Basic.tab
                   ++ ba2str (ii_bdaddr x) ++ Unpack.newline)%string)
           info out).
Proof.
  intros Hnow Htime Hfits.
  induction info as [|x info IH]; intros out; [reflexivity|].
  cbn [map flat_map fold_left].
  unfold Basic.bluetrax_record_bytes at 1. cbn [Basic.br_time Basic.br_bdaddr].
  pose proof (long_of_le_bytes now Hnow) as Hlong.
  destruct (ii_bdaddr x) as [a0 a1 a2 a3 a4 a5] eqn:Haddr.
  cbn [le_bytes bdaddr_bytes b0 b1 b2 b3 b4 b5 app Basic.binary_to_text] in *.
  cbn [Basic.br_time Basic.br_bdaddr].
  rewrite Hlong, Htime.
  destruct (Nat.ltb_spec (String.length (strftime_date_time time)) 20); [|lia].
  apply IH.
Qed.

(** X26.  What the basic scanner writes for the responses of one scan, to
    an empty sink with room for it, is printed by the basic viewer as one
    line per response, in order, each with the time of the scan and the
    address of the response, provided [localtime] accepts that time and
    its text fits the viewer's buffer of 20 characters; the viewer then
    ends with exit code 0. *)
Theorem basic_view_reads_basic_scan :
  forall (info : list inquiry_info) (now : Z) (time : tm) (room : nat),
    Z.of_nat (List.length info) <= Basic.INQUIRY_MAX_RESPONSES ->
    (14 * List.length info <= room)%nat ->
    long_ok now ->
    localtime now = Some time ->
    (String.length (strftime_date_time time) < 20)%nat ->
    exists f : FILE,
      Basic.run_scan (Z.of_nat (List.length info)) info now (fresh_file room)
      = Basic.Flushed f
      /\ Basic.main tm localtime strftime_date_time ba2str (f_data f)
         = Some (fold_left
                   (fun out x =>
                      (out ++ strftime_date_time time ++ Basic.tab
                           ++ ba2str (ii_bdaddr x) ++ Unpack.newline)%string)
                   info EmptyString,
                 0).
Proof.
  intros info now time room Hmax Hroom Hnow Htime Hfits.
  eexists. split.
  - rewrite basic_run_scan_writes by assumption.
    unfold Basic.fwrite_items.
    rewrite put_bytes_accepted
      by (rewrite basic_records_length; cbn [fresh_file f_room]; lia).
    rewrite basic_records_length, whole_items, Z.eqb_refl. reflexivity.
  - cbn [fflush appended fresh_file f_data app]. unfold Basic.main.
    now rewrite (view_records time now info Hnow Htime Hfits).
Qed.

End BasicView.

(** * The further statements at concrete inputs *)

Lemma failed_wait_ends_run_witness :
  let ev := mk_iteration [] 0 0 (RecvError 0) in
  (List.length (sel_signals ev) <= 1)%nat
  /\ sel_rc ev = 0
  /\ run_scan_loop bt_error_coarse 1 0 (fresh_file 64) [ev]
     = (Returned EXIT_FAILURE, fresh_file 64).
Proof.
  intros ev.
  assert (Hsig : (List.length (sel_signals ev) <= 1)%nat) by (cbn; lia).
  assert (Hrc : sel_rc ev = 0) by reflexivity.
  split; [exact Hsig|]. split; [exact Hrc|].
  exact (failed_wait_ends_run bt_error_coarse 1 (fresh_file 64) ev [] Hsig
           (or_introl Hrc)).
Defined.

Lemma incomplete_read_is_skipped_witness :
  let buf := [x04; x02] in
  ~ complete_event buf
  /\ run_scan_loop bt_error_coarse 1 0 (fresh_file 64) [message_event buf []]
     = run_scan_loop bt_error_coarse 1 0 (fresh_file 64) [].
Proof.
  intros buf.
  assert (Hnot : ~ complete_event buf).
  { intros (Hlen & _). vm_compute in Hlen. discriminate. }
  split; [exact Hnot|].
  exact (incomplete_read_is_skipped bt_error_coarse 1 (fresh_file 64) buf [] [] Hnot).
Defined.

Lemma unknown_event_is_skipped_witness :
  let message := message_event (hci_event x0e x00 []) [] in
  let sink := if 1 =? 0 then fresh_file 64 else fflush (fresh_file 64) in
  Z.of_nat (List.length (@nil byte)) = u8 x00
  /\ u8 x0e <> EVT_INQUIRY_RESULT
  /\ u8 x0e <> EVT_INQUIRY_RESULT_WITH_RSSI
  /\ u8 x0e <> EVT_INQUIRY_COMPLETE
  /\ run_scan_loop bt_error_coarse 1 0 (fresh_file 64) [message]
     = run_scan_loop bt_error_coarse 1 0 sink []
  /\ run_scan bt_error_coarse 1 (fresh_file 64) [message] = (Waiting, sink)
  /\ (forall (signo : Z) (recv : recvmsg_result),
         run_scan bt_error_coarse 1 (fresh_file 64)
           [message; mk_iteration [signo] (-1) EINTR recv]
         = (Returned EXIT_SUCCESS, sink))
  /\ f_data sink = f_data (fresh_file 64)
  /\ f_flushes sink
     = if 1 =? 0 then f_flushes (fresh_file 64) else S (f_flushes (fresh_file 64)).
Proof.
  intros message sink.
  assert (Hlen : Z.of_nat (List.length (@nil byte)) = u8 x00) by reflexivity.
  assert (H1 : u8 x0e <> EVT_INQUIRY_RESULT) by (vm_compute; discriminate).
  assert (H2 : u8 x0e <> EVT_INQUIRY_RESULT_WITH_RSSI) by (vm_compute; discriminate).
  assert (H3 : u8 x0e <> EVT_INQUIRY_COMPLETE) by (vm_compute; discriminate).
  split; [exact Hlen|]. split; [exact H1|]. split; [exact H2|]. split; [exact H3|].
  exact (unknown_event_is_skipped bt_error_coarse 1 (fresh_file 64) [] x0e x00 [] []
           Hlen H1 H2 H3).
Defined.

Lemma start_scan_command_witness :
  let dev := mk_hci_device 0 0 0 0 in
  let info := mk_periodic_inquiry_cp 46 45 (x33, x8b, x9e) 44 0 in
  snd (start_scan dev 300) = Some info
  /\ pi_num_rsp info = 0
  /\ pi_lap info = (x33, x8b, x9e)
  /\ pi_length info = 300 mod 256
  /\ pi_min_period info = pi_length info + 1
  /\ pi_max_period info = pi_length info + 2
  /\ pi_max_period info > pi_min_period info
  /\ pi_min_period info > pi_length info.
Proof.
  intros dev info.
  assert (Hinfo : snd (start_scan dev 300) = Some info) by reflexivity.
  split; [exact Hinfo|].
  exact (proj2 (proj2 (start_scan_command dev 300)) info Hinfo).
Defined.

Lemma main_configuration_failure_witness :
  let env :=
    mk_process_env true (-1) 3 (mk_hci_device 0 0 0 0) (mk_timeval 0 0) [] in
  env_hci_get_route env < 0
  /\ Scan.main bt_error_coarse 8 0 (fresh_file 64) env
     = (Returned EXIT_FAILURE, fresh_file 64).
Proof.
  intros env.
  assert (Hroute : env_hci_get_route env < 0) by (cbn; lia).
  split; [exact Hroute|].
  exact (main_configuration_failure bt_error_coarse 8 0 (fresh_file 64) env
           (or_intror (or_introl Hroute))).
Defined.

Lemma main_writes_start_record_witness :
  let env :=
    mk_process_env true 0 3 (mk_hci_device 0 0 0 0) (mk_timeval 1325376000 250000)
      [mk_iteration [15] (-1) EINTR (RecvError EINTR)] in
  let start := encode (CycleComplete (mk_complete (env_gettimeofday env))) in
  env_setup_signals env = true
  /\ 0 <= env_hci_get_route env
  /\ 0 <= env_hci_open_dev env
  /\ fst (start_scan (env_device env) 8) = EXIT_SUCCESS
  /\ ((17 <= f_room (fresh_file 64))%nat
      /\ Scan.main bt_error_coarse 8 0 (fresh_file 64) env
         = run_scan bt_error_coarse 0 (appended (fresh_file 64) start)
             (env_events env)
      /\ exists more : list byte,
           f_data (snd (Scan.main bt_error_coarse 8 0 (fresh_file 64) env))
           = (f_data (fresh_file 64) ++ start ++ more)%list)
  /\ ((pending (fresh_file 0) + 17 <= f_bufsiz (fresh_file 0))%nat
      /\ f_room (fresh_file 0) = 0%nat
      /\ Scan.main bt_error_coarse 8 0 (fresh_file 0) env
         = run_scan bt_error_coarse 0 (accepted (fresh_file 0) start)
             (env_events env)
      /\ f_data (snd (Scan.main bt_error_coarse 8 0 (fresh_file 0) env))
         = f_data (fresh_file 0)).
Proof.
  intros env start.
  assert (Hsig : env_setup_signals env = true) by reflexivity.
  assert (Hroute : 0 <= env_hci_get_route env) by (cbn; lia).
  assert (Hopen : 0 <= env_hci_open_dev env) by (cbn; lia).
  assert (Hstart : fst (start_scan (env_device env) 8) = EXIT_SUCCESS) by reflexivity.
  assert (Hroom : (17 <= f_room (fresh_file 64))%nat) by (cbn; lia).
  assert (Hfits : (pending (fresh_file 0) + 17 <= f_bufsiz (fresh_file 0))%nat)
    by (apply Nat.leb_le; vm_compute; reflexivity).
  assert (Hfull : f_room (fresh_file 0) = 0%nat) by reflexivity.
  split; [exact Hsig|]. split; [exact Hroute|]. split; [exact Hopen|].
  split; [exact Hstart|]. split.
  - split; [exact Hroom|].
    exact (proj1 (main_writes_start_record bt_error_coarse 8 0 (fresh_file 64) env
                    Hsig Hroute Hopen Hstart) Hroom).
  - split; [exact Hfits|]. split; [exact Hfull|].
    exact (conj
             (proj1 (proj2 (main_writes_start_record bt_error_coarse 8 0
                              (fresh_file 0) env Hsig Hroute Hopen Hstart) Hfits))
             (proj2 (proj2 (main_writes_start_record bt_error_coarse 8 0
                              (fresh_file 0) env Hsig Hroute Hopen Hstart) Hfits)
                Hfull)).
Defined.

Lemma message_tstamp_last_wins_witness :
  let stamp := mk_cmsghdr HCI_CMSG_TSTAMP (mk_timeval 1325376000 250000) in
  let before := [mk_cmsghdr HCI_CMSG_TSTAMP (mk_timeval 1 2)] in
  let after := [mk_cmsghdr 1 (mk_timeval 3 4)] in
  (forall c, In c after -> cmsg_type c <> HCI_CMSG_TSTAMP)
  /\ cmsg_type stamp = HCI_CMSG_TSTAMP
  /\ message_tstamp (before ++ stamp :: after) = cmsg_data stamp.
Proof.
  intros stamp before after.
  assert (Hafter : forall c, In c after -> cmsg_type c <> HCI_CMSG_TSTAMP).
  { intros c [<- | []]. cbn. discriminate. }
  assert (Hstamp : cmsg_type stamp = HCI_CMSG_TSTAMP) by reflexivity.
  split; [exact Hafter|]. split; [exact Hstamp|].
  exact (proj1 (message_tstamp_last_wins before after stamp Hafter) Hstamp).
Defined.

Lemma handler_success_witness :
  let data := [x01; x11; x22; x33; x44; x55; x66; x01; x00; x00; x0c; x02; x5a;
               x34; x12] in
  let hdr := mk_hdr x02 x0f in
  let out_file := fresh_file 25 in
  u8 (plen hdr) = u8 (byte_at data 0) * 14 + 1
  /\ (pending out_file + 26 * Z.to_nat (u8 (byte_at data 0))
      <= f_bufsiz out_file)%nat
  /\ exists p : list byte,
       List.length p = (26 * Z.to_nat (u8 (byte_at data 0)))%nat
       /\ handle_inquiry_result out_file (mk_timeval 1 2) hdr data
          = (EXIT_SUCCESS, accepted out_file p).
Proof.
  intros data hdr out_file.
  assert (Hplen : u8 (plen hdr) = u8 (byte_at data 0) * 14 + 1) by reflexivity.
  assert (Hfits : (pending out_file + 26 * Z.to_nat (u8 (byte_at data 0))
                   <= f_bufsiz out_file)%nat)
    by (apply Nat.leb_le; vm_compute; reflexivity).
  split; [exact Hplen|]. split; [exact Hfits|].
  exact (proj1 (proj2 (proj2 (proj2 (handler_success bt_error_coarse out_file
                                       (mk_timeval 1 2) hdr data))))
           Hplen (or_intror Hfits)).
Defined.

Lemma scanner_writes_whole_records_witness :
  let env :=
    mk_process_env true 0 3 (mk_hci_device 0 0 0 0) (mk_timeval 1325376000 250000)
      [message_event (hci_event x01 x01 [x00]) []] in
  whole_records (f_data (fresh_file 600))
  /\ (17 + 486 * List.length (env_events env) <= f_room (fresh_file 600))%nat
  /\ whole_records
       (f_data (snd (Scan.main bt_error_coarse 8 0 (fresh_file 600) env))).
Proof.
  intros env.
  assert (Hwhole : whole_records (f_data (fresh_file 600))) by exact whole_nil.
  assert (Hroom : (17 + 486 * List.length (env_events env)
                   <= f_room (fresh_file 600))%nat) by (cbn; lia).
  split; [exact Hwhole|]. split; [exact Hroom|].
  exact (proj2 (scanner_writes_whole_records bt_error_coarse 8 0 (fresh_file 600) env
                  Hwhole Hroom)).
Defined.

Lemma decoder_prints_every_record_witness :
  let localtime := fun _ : Z => Some tt in
  let strftime_date_time := fun _ : unit => "2012-01-01 00:00:00"%string in
  let ba2str := fun _ : bdaddr_t => "66:55:44:33:22:11"%string in
  let es := [CycleComplete (mk_complete (mk_timeval 1325376000 250000))] in
  Forall (fun e => timeval_ok (record_time e)
                   /\ localtime (tv_sec (record_time e)) <> None) es
  /\ snd (Unpack.main unit localtime strftime_date_time ba2str (flat_map encode es))
     = Some 0.
Proof.
  intros localtime strftime_date_time ba2str es.
  assert (Hes : Forall (fun e => timeval_ok (record_time e)
                                 /\ localtime (tv_sec (record_time e)) <> None) es).
  { constructor; [|constructor]. split; [|discriminate].
    split; unfold long_ok; cbn; lia. }
  split; [exact Hes|].
  exact (proj2 (decoder_prints_every_record unit localtime strftime_date_time ba2str
                  es Hes)).
Defined.

Lemma unknown_tag_fails_witness :
  let localtime := fun _ : Z => Some tt in
  let strftime_date_time := fun _ : unit => "2012-01-01 00:00:00"%string in
  let ba2str := fun _ : bdaddr_t => "66:55:44:33:22:11"%string in
  whole_records []
  /\ record_size x05 = None
  /\ snd (Unpack.main unit localtime strftime_date_time ba2str ([] ++ x05 :: [x00]))
     = Some 1.
Proof.
  intros localtime strftime_date_time ba2str.
  assert (Hsize : record_size x05 = None) by reflexivity.
  split; [exact whole_nil|]. split; [exact Hsize|].
  exact (proj2 (unknown_tag_fails unit localtime strftime_date_time ba2str [] x05
                  [x00] whole_nil Hsize)).
Defined.

Lemma rejected_time_leaves_partial_row_witness :
  let localtime := fun _ : Z => @None unit in
  let strftime_date_time := fun _ : unit => "2012-01-01 00:00:00"%string in
  let ba2str := fun _ : bdaddr_t => "66:55:44:33:22:11"%string in
  let e := CycleComplete (mk_complete (mk_timeval 1325376000 250000)) in
  let out := ("type,time,bdaddr,services,major,minor,rssi" ++ Unpack.newline)%string in
  whole_records []
  /\ Unpack.binary_to_text unit localtime strftime_date_time ba2str []
     = (out, Unpack.Done)
  /\ timeval_ok (record_time e)
  /\ localtime (tv_sec (record_time e)) = None
  /\ Unpack.binary_to_text unit localtime strftime_date_time ba2str
       ([] ++ encode e ++ [x01])
     = ((out ++ Unpack.row_head e)%string, Unpack.Exit EXIT_FAILURE).
Proof.
  intros localtime strftime_date_time ba2str e out.
  assert (Hrun : Unpack.binary_to_text unit localtime strftime_date_time ba2str []
                 = (out, Unpack.Done)) by reflexivity.
  assert (Hok : timeval_ok (record_time e)) by (split; unfold long_ok; cbn; lia).
  assert (Htime : localtime (tv_sec (record_time e)) = None) by reflexivity.
  split; [exact whole_nil|]. split; [exact Hrun|]. split; [exact Hok|].
  split; [exact Htime|].
  exact (rejected_time_leaves_partial_row unit localtime strftime_date_time ba2str
           [] e [x01] out whole_nil Hrun Hok Htime).
Defined.

Lemma whole_log_decodes_witness :
  let localtime := fun t : Z => if t <? 2 ^ 55 then Some tt else None in
  let strftime_date_time := fun _ : unit => "2012-01-01 00:00:00"%string in
  let ba2str := fun _ : bdaddr_t => "66:55:44:33:22:11"%string in
  let file := encode (CycleComplete (mk_complete (mk_timeval 1325376000 250000))) in
  whole_records file
  /\ exists es : list record,
       file = flat_map encode es
       /\ (Forall (fun e => localtime (tv_sec (record_time e)) <> None) es ->
           Unpack.binary_to_text unit localtime strftime_date_time ba2str file
           = (rows unit localtime strftime_date_time ba2str es
                ("type,time,bdaddr,services,major,minor,rssi" ++ Unpack.newline),
              Unpack.Done)
           /\ snd (Unpack.main unit localtime strftime_date_time ba2str file)
              = Some 0)
       /\ (Exists (fun e => localtime (tv_sec (record_time e)) = None) es ->
           snd (Unpack.binary_to_text unit localtime strftime_date_time ba2str file)
           = Unpack.Exit EXIT_FAILURE
           /\ snd (Unpack.main unit localtime strftime_date_time ba2str file)
              = Some 1).
Proof.
  intros localtime strftime_date_time ba2str file.
  assert (Hwhole : whole_records file)
    by exact (whole_cons x01 16 (timeval_bytes (mk_timeval 1325376000 250000)) []
                eq_refl eq_refl whole_nil).
  split; [exact Hwhole|].
  exact (whole_log_decodes unit localtime strftime_date_time ba2str file Hwhole).
Defined.

Lemma scanner_log_is_decodable_witness :
  let localtime := fun t : Z => if t <? 2 ^ 55 then Some tt else None in
  let strftime_date_time := fun _ : unit => "2012-01-01 00:00:00"%string in
  let ba2str := fun _ : bdaddr_t => "66:55:44:33:22:11"%string in
  let env :=
    mk_process_env true 0 3 (mk_hci_device 0 0 0 0) (mk_timeval 1325376000 250000)
      [message_event (hci_event x01 x01 [x00])
         [mk_cmsghdr HCI_CMSG_TSTAMP (mk_timeval 1325376010 5)]] in
  let log := f_data (snd (Scan.main bt_error_coarse 8 0 (fresh_file 600) env)) in
  (17 + 486 * List.length (env_events env) <= 600)%nat
  /\ Forall (fun t => timeval_ok t /\ localtime (tv_sec t) <> None) (stamps env)
  /\ exists es : list record,
       log = flat_map encode es
       /\ Forall (fun e => In (record_time e) (stamps env)) es
       /\ Unpack.binary_to_text unit localtime strftime_date_time ba2str log
          = (rows unit localtime strftime_date_time ba2str es
               ("type,time,bdaddr,services,major,minor,rssi" ++ Unpack.newline),
             Unpack.Done)
       /\ snd (Unpack.main unit localtime strftime_date_time ba2str log) = Some 0.
Proof.
  intros localtime strftime_date_time ba2str env log.
  assert (Hroom : (17 + 486 * List.length (env_events env) <= 600)%nat)
    by (cbn; lia).
  assert (Hstamps : Forall (fun t => timeval_ok t /\ localtime (tv_sec t) <> None)
                      (stamps env)).
  { repeat constructor; unfold long_ok; cbn; try lia; discriminate. }
  split; [exact Hroom|]. split; [exact Hstamps|].
  exact (scanner_log_is_decodable bt_error_coarse 8 0 600 env unit localtime
           strftime_date_time ba2str Hroom Hstamps).
Defined.

Lemma decode_is_lossless_witness :
  let e :=
    DiscoveryResult
      (mk_result (mk_timeval 1325376000 250000)
         (mk_bdaddr x11 x22 x33 x44 x55 x66) (mk_dev_class x0c x02 x5a)) in
  let file := (encode e ++ [x07])%list in
  Unpack.decode file = Some (e, [x07])
  /\ file = (encode e ++ [x07])%list
  /\ timeval_ok (record_time e).
Proof.
  intros e file.
  assert (Hd : Unpack.decode file = Some (e, [x07])) by (vm_compute; reflexivity).
  split; [exact Hd|].
  exact (decode_is_lossless file [x07] e Hd).
Defined.

Lemma high_major_bits_hide_minor_witness :
  32 <= u8 x23
  /\ Z.land (u8 x23) 31 < 8
  /\ Unpack.write_dev_class (mk_dev_class x09 x23 x00)
     = ((Unpack.printf_hhd x00 ++ ",")
          ++ nth (Z.to_nat (Z.land (u8 x23) 31)) Unpack.major_devices EmptyString
          ++ "," ++ "Unknown (reserved) minor device class" ++ ",")%string.
Proof.
  assert (Hhigh : 32 <= u8 x23) by (vm_compute; discriminate).
  assert (Hlow : Z.land (u8 x23) 31 < 8) by (vm_compute; reflexivity).
  split; [exact Hhigh|]. split; [exact Hlow|].
  exact (proj2 high_major_bits_hide_minor x09 x23 x00 Hhigh Hlow).
Defined.

Lemma basic_scan_misses_inquiry_failure_witness :
  - 2 ^ 31 <= -1 < 0
  /\ Basic.run_scan (-1) [] 1325376000 (fresh_file 64) = Basic.ScanUndefined.
Proof.
  assert (Hrc : - 2 ^ 31 <= -1 < 0) by lia.
  split; [exact Hrc|].
  exact (proj2 (basic_scan_misses_inquiry_failure (-1) [] 1325376000 (fresh_file 64))
           Hrc).
Defined.

Lemma basic_scan_writes_records_witness :
  let info :=
    [mk_inquiry_info (mk_bdaddr x11 x22 x33 x44 x55 x66) x01 x00 x00
       (mk_dev_class x0c x02 x5a) (x34, x12)] in
  let records := map (fun x => Basic.mk_record 1325376000 (ii_bdaddr x)) info in
  Z.of_nat (List.length info) <= Basic.INQUIRY_MAX_RESPONSES
  /\ ((14 * List.length info <= f_room (fresh_file 64))%nat
      /\ Basic.run_scan (Z.of_nat (List.length info)) info 1325376000 (fresh_file 64)
         = Basic.Flushed
             (fflush (appended (fresh_file 64)
                        (flat_map Basic.bluetrax_record_bytes records))))
  /\ ((pending (fresh_file 0) + 14 * List.length info
       <= f_bufsiz (fresh_file 0))%nat
      /\ Basic.run_scan (Z.of_nat (List.length info)) info 1325376000 (fresh_file 0)
         = Basic.Flushed
             (fflush (accepted (fresh_file 0)
                        (flat_map Basic.bluetrax_record_bytes records)))).
Proof.
  intros info records.
  assert (Hmax : Z.of_nat (List.length info) <= Basic.INQUIRY_MAX_RESPONSES)
    by (vm_compute; discriminate).
  assert (Hroom : (14 * List.length info <= f_room (fresh_file 64))%nat)
    by (cbn; lia).
  assert (Hfits : (pending (fresh_file 0) + 14 * List.length info
                   <= f_bufsiz (fresh_file 0))%nat)
    by (apply Nat.leb_le; vm_compute; reflexivity).
  split; [exact Hmax|]. split.
  - split; [exact Hroom|].
    exact (proj1 (basic_scan_writes_records info 1325376000 (fresh_file 64) Hmax)
             Hroom).
  - split; [exact Hfits|].
    exact (proj1 (proj2 (basic_scan_writes_records info 1325376000 (fresh_file 0)
                           Hmax)) Hfits).
Defined.

Lemma basic_view_drops_cut_record_witness :
  let localtime := fun _ : Z => Some tt in
  let strftime_date_time := fun _ : unit => "2012-01-01 00:00:00"%string in
  let ba2str := fun _ : bdaddr_t => "66:55:44:33:22:11"%string in
  let file := Basic.bluetrax_record_bytes
                (Basic.mk_record 1325376000 (mk_bdaddr x11 x22 x33 x44 x55 x66)) in
  List.length file = (14 * 1)%nat
  /\ (List.length [x01; x02; x03] < 14)%nat
  /\ Basic.main unit localtime strftime_date_time ba2str (file ++ [x01; x02; x03])
     = Basic.main unit localtime strftime_date_time ba2str file.
Proof.
  intros localtime strftime_date_time ba2str file.
  assert (Hfile : List.length file = (14 * 1)%nat) by reflexivity.
  assert (Htail : (List.length [x01; x02; x03] < 14)%nat) by (cbn; lia).
  split; [exact Hfile|]. split; [exact Htail|].
  exact (proj2 (basic_view_drops_cut_record unit localtime strftime_date_time ba2str
                  1 file [x01; x02; x03] EmptyString Hfile Htail)).
Defined.

Lemma basic_view_reads_basic_scan_witness :
  let localtime := fun _ : Z => Some tt in
  let strftime_date_time := fun _ : unit => "2012-01-01 00:00:00"%string in
  let ba2str := fun _ : bdaddr_t => "66:55:44:33:22:11"%string in
  let info :=
    [mk_inquiry_info (mk_bdaddr x11 x22 x33 x44 x55 x66) x01 x00 x00
       (mk_dev_class x0c x02 x5a) (x34, x12)] in
  Z.of_nat (List.length info) <= Basic.INQUIRY_MAX_RESPONSES
  /\ (14 * List.length info <= 64)%nat
  /\ long_ok 1325376000
  /\ localtime 1325376000 = Some tt
  /\ (String.length (strftime_date_time tt) < 20)%nat
  /\ exists f : FILE,
       Basic.run_scan (Z.of_nat (List.length info)) info 1325376000 (fresh_file 64)
       = Basic.Flushed f
       /\ Basic.main unit localtime strftime_date_time ba2str (f_data f)
          = Some (fold_left
                    (fun out x =>
                       (out ++ strftime_date_time tt ++ Basic.tab
                            ++ ba2str (ii_bdaddr x) ++ Unpack.newline)%string)
                    info EmptyString,
                  0).
Proof.
  intros localtime strftime_date_time ba2str info.
  assert (Hmax : Z.of_nat (List.length info) <= Basic.INQUIRY_MAX_RESPONSES)
    by (vm_compute; discriminate).
  assert (Hroom : (14 * List.length info <= 64)%nat) by (cbn; lia).
  assert (Hnow : long_ok 1325376000) by (unfold long_ok; lia).
  assert (Htime : localtime 1325376000 = Some tt) by reflexivity.
  assert (Hfits : (String.length (strftime_date_time tt) < 20)%nat) by (cbn; lia).
  split; [exact Hmax|]. split; [exact Hroom|]. split; [exact Hnow|].
  split; [exact Htime|]. split; [exact Hfits|].
  exact (basic_view_reads_basic_scan unit localtime strftime_date_time ba2str info
           1325376000 tt 64 Hmax Hroom Hnow Htime Hfits).
Defined.
